(** * Comm-B classification and decoding (comm_b.c)

    A shallow embedding of [decodeCommB] and of its ten candidate decoders,
    and the properties the specification states about them.

    Conventions of the embedding.
    - C [int] and [unsigned] values are [Z]; no computation of comm_b.c
      leaves the 32-bit range (raw fields have at most 32 bits, scores stay
      within -100..100), so no wrap-around is written.
    - C [float] and [double] values are IEEE 754 binary32 and binary64
      numbers ([spec_float]), every operation rounded once to nearest-even
      in the format C's usual arithmetic conversions select.
    - A decoder [int f(struct modesMessage *mm, bool store)] is a function
      from the frame and the flag to the score and the frame after the call.
    - A [return 0] in the middle of a decoder is the [None] branch of the
      step that takes it, turned into [(0, mm)] at once.
    - The functions of dump1090.h and ais_charset.h that comm_b.c calls are
      not among the sources: the bit accessor is modelled from the
      specification, the character table is a parameter. *)

From Stdlib Require Import ZArith List Bool Lia.
From Stdlib Require Import Strings.String Strings.Ascii Strings.Byte.
From Stdlib Require Import Floats.SpecFloat.
Import ListNotations.
Local Open Scope Z_scope.

(** C truth values: [if (x)] tests [x != 0]. *)
Definition truthy (x : Z) : bool := negb (x =? 0).

Notation "x <>? y" := (negb (Z.eqb x y)) (at level 70, no associativity).

(** ** IEEE 754 arithmetic as C uses it *)

Module IEEE.

Definition float := spec_float.
Definition double := spec_float.

Definition round_to (prec emax : Z) (x : spec_float) : spec_float :=
  match x with
  | S754_finite s m e => binary_round prec emax s m e
  | _ => x
  end.

(** Conversions. *)
Definition double_of_int (z : Z) : double := binary_normalize 53 1024 z 0 false.
Definition float_of_int (z : Z) : float := binary_normalize 24 128 z 0 false.
Definition float_of_double (x : double) : float := round_to 24 128 x.
Definition double_of_float (x : float) : double := round_to 53 1024 x.

(** Arithmetic on doubles and on floats. *)
Definition dadd : double -> double -> double := SFadd 53 1024.
Definition dsub : double -> double -> double := SFsub 53 1024.
Definition dmul : double -> double -> double := SFmul 53 1024.
Definition ddiv : double -> double -> double := SFdiv 53 1024.
Definition fsub : float -> float -> float := SFsub 24 128.
Definition fabs : double -> double := SFabs.

(** Comparisons; with a NaN operand every one of them is false. *)
Definition feq (x y : spec_float) : bool := SFeqb x y.
Definition flt (x y : spec_float) : bool := SFltb x y.
Definition fle (x y : spec_float) : bool := SFleb x y.
Definition fgt (x y : spec_float) : bool := SFltb y x.
Definition fge (x y : spec_float) : bool := SFleb y x.

(** A decimal literal [num/den] of the source: the double nearest to the
    quotient ([num] and [den] are small integers, exact as doubles, so a
    single correctly rounded division gives it). *)
Definition literal (num den : Z) : double :=
  ddiv (double_of_int num) (double_of_int den).

(** M_PI of <math.h>: 0x400921FB54442D18. *)
Definition M_PI : double := S754_finite false 7074237752028440 (-51).

Definition fzero : float := S754_zero false.

End IEEE.
Import IEEE.

(** ** The payload and the bit accessor *)

(** [unsigned char MB[7]]. *)
Record payload := {
  mb0 : byte; mb1 : byte; mb2 : byte; mb3 : byte;
  mb4 : byte; mb5 : byte; mb6 : byte
}.

Definition byte_at (msg : payload) (i : Z) : byte :=
  match i with
  | 0 => mb0 msg | 1 => mb1 msg | 2 => mb2 msg | 3 => mb3 msg
  | 4 => mb4 msg | 5 => mb5 msg | 6 => mb6 msg
  | _ => x00
  end.

(** [msg[i]] as a number. *)
Definition MBi (msg : payload) (i : Z) : Z := Z.of_N (Byte.to_N (byte_at msg i)).

(** Modelled from the spec: getbit of dump1090.h, which is not among the
    sources. Bit [n] of the payload, bits numbered 1..56 from the most
    significant bit of byte 0; the result is 0 or 1. *)
Definition getbit (msg : payload) (n : Z) : Z :=
  Z.b2z (Z.testbit (MBi msg ((n - 1) / 8)) (7 - (n - 1) mod 8)).

Fixpoint getbits_from (msg : payload) (count : nat) (n acc : Z) : Z :=
  match count with
  | O => acc
  | S k => getbits_from msg k (n + 1) (2 * acc + getbit msg n)
  end.

(** Modelled from the spec: getbits of dump1090.h, which is not among the
    sources. The unsigned integer formed by bits [lo..hi] inclusive, [lo]
    the most significant. *)
Definition getbits (msg : payload) (lo hi : Z) : Z :=
  getbits_from msg (Z.to_nat (hi - lo + 1)) lo 0.

(** ** The frame descriptor *)

(** Modelled from the spec: the enumerations of dump1090.h, which is not
    among the sources, with the enumerators comm_b.c names. *)
Inductive commb_format_t :=
| COMMB_UNKNOWN
| COMMB_AMBIGUOUS
| COMMB_EMPTY_RESPONSE
| COMMB_DATALINK_CAPS
| COMMB_GICB_CAPS
| COMMB_AIRCRAFT_IDENT
| COMMB_ACAS_RA
| COMMB_VERTICAL_INTENT
| COMMB_TRACK_TURN
| COMMB_HEADING_SPEED
| COMMB_MRAR
| COMMB_AIRBORNE_POSITION
| COMMB_NOT_DECODED.

Inductive heading_type_t := HEADING_GROUND_TRACK | HEADING_MAGNETIC.

Inductive nav_altitude_source_t :=
| NAV_ALT_INVALID | NAV_ALT_UNKNOWN | NAV_ALT_AIRCRAFT | NAV_ALT_MCP | NAV_ALT_FMS.

(** Modelled from the spec: the nav-mode flag bits of dump1090.h, which is
    not among the sources (VNAV=4, ALT_HOLD=2, APPROACH=1). *)
Definition NAV_MODE_VNAV : Z := 4.
Definition NAV_MODE_ALT_HOLD : Z := 2.
Definition NAV_MODE_APPROACH : Z := 1.

(** Modelled from the spec: the MRAR source tags of dump1090.h, which is not
    among the sources. The sentinel is 0; DME/DME is 3, as the comment in
    decodeBDS44 spells out (GICB bits 0011 give "MRAR source = 3"). The
    first reserved tag is a parameter of the decoders below. *)
Definition MRAR_SOURCE_INVALID : Z := 0.
Definition MRAR_SOURCE_DMEDME : Z := 3.

(** Modelled from the spec: hazard_t of dump1090.h (levels 0..3, 0 = NIL). *)
Definition HAZARD_NIL : Z := 0.

(** [mm->nav]. *)
Record nav_t := {
  mcp_altitude_valid : bool;
  mcp_altitude : Z;
  fms_altitude_valid : bool;
  fms_altitude : Z;
  qnh_valid : bool;
  qnh : float;
  modes_valid : bool;
  modes : Z;
  altitude_source : nav_altitude_source_t
}.

(** [mm->gs]. *)
Record gs_t := { v0 : Z; v2 : Z; selected : Z }.

(** Modelled from the spec: struct modesMessage of dump1090.h, which is not
    among the sources. These are the members comm_b.c reads (the first six)
    and writes; a written member has the type of the local the code assigns
    to it, a one-bit validity flag is a [bool]. *)
Record modesMessage := {
  msgtype : Z;
  MB : payload;
  DR : Z;
  UM : Z;
  correctedbits : Z;
  AC : Z;
  commb_format : commb_format_t;
  callsign : string;
  callsign_valid : bool;
  nav : nav_t;
  roll_valid : bool;
  roll : float;
  heading_valid : bool;
  heading : float;
  heading_type : heading_type_t;
  gs_valid : bool;
  gs : gs_t;
  track_rate_valid : bool;
  track_rate : float;
  tas_valid : bool;
  tas : Z;
  ias_valid : bool;
  ias : Z;
  mach_valid : bool;
  mach : float;
  baro_rate_valid : bool;
  baro_rate : Z;
  geom_rate_valid : bool;
  geom_rate : Z;
  mrar_source_valid : bool;
  mrar_source : Z;
  wind_valid : bool;
  wind_speed : float;
  wind_dir : float;
  temperature_valid : bool;
  temperature : float;
  pressure_valid : bool;
  pressure : float;
  turbulence_valid : bool;
  turbulence : Z;
  humidity_valid : bool;
  humidity : float
}.

(** *** Assignments to members

    [mm->x = v] rebuilds the record with member [x] replaced. The rebuilt
    record is read off the eta-expansion below: [assign x] abstracts the one
    occurrence of [x mm] in it and puts [v] there. *)

Definition nav_eta (n : nav_t) : nav_t :=
  {| mcp_altitude_valid := mcp_altitude_valid n; mcp_altitude := mcp_altitude n;
     fms_altitude_valid := fms_altitude_valid n; fms_altitude := fms_altitude n;
     qnh_valid := qnh_valid n; qnh := qnh n;
     modes_valid := modes_valid n; modes := modes n;
     altitude_source := altitude_source n |}.

Definition mm_eta (mm : modesMessage) : modesMessage :=
  {| msgtype := msgtype mm; MB := MB mm; DR := DR mm; UM := UM mm;
     correctedbits := correctedbits mm; AC := AC mm;
     commb_format := commb_format mm;
     callsign := callsign mm; callsign_valid := callsign_valid mm;
     nav := nav mm;
     roll_valid := roll_valid mm; roll := roll mm;
     heading_valid := heading_valid mm; heading := heading mm;
     heading_type := heading_type mm;
     gs_valid := gs_valid mm; gs := gs mm;
     track_rate_valid := track_rate_valid mm; track_rate := track_rate mm;
     tas_valid := tas_valid mm; tas := tas mm;
     ias_valid := ias_valid mm; ias := ias mm;
     mach_valid := mach_valid mm; mach := mach mm;
     baro_rate_valid := baro_rate_valid mm; baro_rate := baro_rate mm;
     geom_rate_valid := geom_rate_valid mm; geom_rate := geom_rate mm;
     mrar_source_valid := mrar_source_valid mm; mrar_source := mrar_source mm;
     wind_valid := wind_valid mm; wind_speed := wind_speed mm;
     wind_dir := wind_dir mm;
     temperature_valid := temperature_valid mm; temperature := temperature mm;
     pressure_valid := pressure_valid mm; pressure := pressure mm;
     turbulence_valid := turbulence_valid mm; turbulence := turbulence mm;
     humidity_valid := humidity_valid mm; humidity := humidity mm |}.

Ltac assign eta proj :=
  let v := fresh "v" in
  let r := fresh "r" in
  intros v r;
  let whole := eval cbv beta delta [eta] in (eta r) in
  match eval pattern (proj r) in whole with
  | ?rebuilt _ => let res := eval cbv beta in (rebuilt v) in exact res
  end.

Definition set_mcp_altitude_valid : bool -> nav_t -> nav_t :=
  ltac:(assign nav_eta mcp_altitude_valid).
Definition set_mcp_altitude : Z -> nav_t -> nav_t :=
  ltac:(assign nav_eta mcp_altitude).
Definition set_fms_altitude_valid : bool -> nav_t -> nav_t :=
  ltac:(assign nav_eta fms_altitude_valid).
Definition set_fms_altitude : Z -> nav_t -> nav_t :=
  ltac:(assign nav_eta fms_altitude).
Definition set_qnh_valid : bool -> nav_t -> nav_t :=
  ltac:(assign nav_eta qnh_valid).
Definition set_qnh : float -> nav_t -> nav_t :=
  ltac:(assign nav_eta qnh).
Definition set_modes_valid : bool -> nav_t -> nav_t :=
  ltac:(assign nav_eta modes_valid).
Definition set_modes : Z -> nav_t -> nav_t :=
  ltac:(assign nav_eta modes).
Definition set_altitude_source : nav_altitude_source_t -> nav_t -> nav_t :=
  ltac:(assign nav_eta altitude_source).

Definition set_commb_format : commb_format_t -> modesMessage -> modesMessage :=
  ltac:(assign mm_eta commb_format).
Definition set_callsign : string -> modesMessage -> modesMessage :=
  ltac:(assign mm_eta callsign).
Definition set_callsign_valid : bool -> modesMessage -> modesMessage :=
  ltac:(assign mm_eta callsign_valid).
Definition set_nav : nav_t -> modesMessage -> modesMessage :=
  ltac:(assign mm_eta nav).
Definition set_roll_valid : bool -> modesMessage -> modesMessage :=
  ltac:(assign mm_eta roll_valid).
Definition set_roll : float -> modesMessage -> modesMessage :=
  ltac:(assign mm_eta roll).
Definition set_heading_valid : bool -> modesMessage -> modesMessage :=
  ltac:(assign mm_eta heading_valid).
Definition set_heading : float -> modesMessage -> modesMessage :=
  ltac:(assign mm_eta heading).
Definition set_heading_type : heading_type_t -> modesMessage -> modesMessage :=
  ltac:(assign mm_eta heading_type).
Definition set_gs_valid : bool -> modesMessage -> modesMessage :=
  ltac:(assign mm_eta gs_valid).
Definition set_gs : gs_t -> modesMessage -> modesMessage :=
  ltac:(assign mm_eta gs).
Definition set_track_rate_valid : bool -> modesMessage -> modesMessage :=
  ltac:(assign mm_eta track_rate_valid).
Definition set_track_rate : float -> modesMessage -> modesMessage :=
  ltac:(assign mm_eta track_rate).
Definition set_tas_valid : bool -> modesMessage -> modesMessage :=
  ltac:(assign mm_eta tas_valid).
Definition set_tas : Z -> modesMessage -> modesMessage :=
  ltac:(assign mm_eta tas).
Definition set_ias_valid : bool -> modesMessage -> modesMessage :=
  ltac:(assign mm_eta ias_valid).
Definition set_ias : Z -> modesMessage -> modesMessage :=
  ltac:(assign mm_eta ias).
Definition set_mach_valid : bool -> modesMessage -> modesMessage :=
  ltac:(assign mm_eta mach_valid).
Definition set_mach : float -> modesMessage -> modesMessage :=
  ltac:(assign mm_eta mach).
Definition set_baro_rate_valid : bool -> modesMessage -> modesMessage :=
  ltac:(assign mm_eta baro_rate_valid).
Definition set_baro_rate : Z -> modesMessage -> modesMessage :=
  ltac:(assign mm_eta baro_rate).
Definition set_geom_rate_valid : bool -> modesMessage -> modesMessage :=
  ltac:(assign mm_eta geom_rate_valid).
Definition set_geom_rate : Z -> modesMessage -> modesMessage :=
  ltac:(assign mm_eta geom_rate).
Definition set_mrar_source_valid : bool -> modesMessage -> modesMessage :=
  ltac:(assign mm_eta mrar_source_valid).
Definition set_mrar_source : Z -> modesMessage -> modesMessage :=
  ltac:(assign mm_eta mrar_source).
Definition set_wind_valid : bool -> modesMessage -> modesMessage :=
  ltac:(assign mm_eta wind_valid).
Definition set_wind_speed : float -> modesMessage -> modesMessage :=
  ltac:(assign mm_eta wind_speed).
Definition set_wind_dir : float -> modesMessage -> modesMessage :=
  ltac:(assign mm_eta wind_dir).
Definition set_temperature_valid : bool -> modesMessage -> modesMessage :=
  ltac:(assign mm_eta temperature_valid).
Definition set_temperature : float -> modesMessage -> modesMessage :=
  ltac:(assign mm_eta temperature).
Definition set_pressure_valid : bool -> modesMessage -> modesMessage :=
  ltac:(assign mm_eta pressure_valid).
Definition set_pressure : float -> modesMessage -> modesMessage :=
  ltac:(assign mm_eta pressure).
Definition set_turbulence_valid : bool -> modesMessage -> modesMessage :=
  ltac:(assign mm_eta turbulence_valid).
Definition set_turbulence : Z -> modesMessage -> modesMessage :=
  ltac:(assign mm_eta turbulence).
Definition set_humidity_valid : bool -> modesMessage -> modesMessage :=
  ltac:(assign mm_eta humidity_valid).
Definition set_humidity : float -> modesMessage -> modesMessage :=
  ltac:(assign mm_eta humidity).

(** ** The candidate decoders *)

Section Decoders.

(** What the decoders take from outside comm_b.c: the 64-entry AIS
    character table of ais_charset.h, [tan] of <math.h>, and the first
    reserved MRAR source tag of dump1090.h. *)
Variable ais_charset : Z -> ascii.
Variable tan : double -> double.
Variable MRAR_SOURCE_RESERVED : Z.

Definition char_code (c : ascii) : Z := Z.of_N (N_of_ascii c).

Definition decodeEmptyResponse (mm : modesMessage) (store : bool)
  : Z * modesMessage :=
  let b0 := MBi (MB mm) 0 in
  if negb ((b0 =? 0x00) || (b0 =? 0x40) || (b0 =? 0x50) || (b0 =? 0x60))
  then (0, mm) else
  if existsb (fun i => MBi (MB mm) i <>? 0) [1; 2; 3; 4; 5; 6]
  then (0, mm) else
  let mm := if store then set_commb_format COMMB_EMPTY_RESPONSE mm else mm in
  (56, mm).

(** BDS1,0 Datalink capabilities *)
Definition decodeBDS10 (mm : modesMessage) (store : bool) : Z * modesMessage :=
  let msg := MB mm in
  (* BDS identifier *)
  if MBi msg 0 <>? 0x10 then (0, mm) else
  (* Reserved bits *)
  if getbits msg 10 14 <>? 0 then (0, mm) else
  let mm := if store then set_commb_format COMMB_DATALINK_CAPS mm else mm in
  (56, mm).

(** BDS1,7 Common usage GICB capability report *)
Definition decodeBDS17 (mm : modesMessage) (store : bool) : Z * modesMessage :=
  let msg := MB mm in
  let bit n := truthy (getbit msg n) in
  (* reserved bits *)
  if getbits msg 25 56 <>? 0 then (0, mm) else
  let score := 0 in
  let score := if bit 7 then score + 1 else score - 2 in
  (* unlikely bits *)
  let score := if bit 10 then score - 2 else score in
  let score := if bit 11 then score - 2 else score in
  let score := if bit 12 then score - 2 else score in
  let score := if bit 13 then score - 1 else score in
  let score := if bit 14 then score - 1 else score in
  let score := if bit 20 then score - 2 else score in
  let score := if bit 21 then score - 2 else score in
  let score := if bit 22 then score - 2 else score in
  let score :=
    if bit 1 && bit 2 && bit 3 && bit 4 && bit 5 then
      (* looks like ES capable *)
      let score := score + 5 in
      if bit 6 then score + 1 else score
    else if negb (bit 1) && negb (bit 2) && negb (bit 3) && negb (bit 4)
            && negb (bit 5) && negb (bit 6) then
      (* not ES capable *)
      score + 1
    else if negb (bit 1) && negb (bit 2) && bit 3 && bit 4 && bit 5 then
      (* ES with no position data *)
      score + 3
    else
      score - 12 in
  let score :=
    if bit 16 && bit 24 then
      (* track/turn, heading/speed *)
      let score := score + 2 in
      if bit 9 then score + 1 else score
    else if negb (bit 16) && negb (bit 24) && negb (bit 9) then
      score + 1
    else
      score - 6 in
  let mm := if store then set_commb_format COMMB_GICB_CAPS mm else mm in
  (score, mm).

(** The loop of decodeBDS20 over the callsign characters: [None] when a
    character is none of letter, digit, space, padding ([return 0]). *)
Fixpoint callsign_loop (cs : list ascii) (score : Z) (valid : bool)
  : option (Z * bool) :=
  match cs with
  | [] => Some (score, valid)
  | c :: rest =>
      let c := char_code c in
      if ((char_code "A" <=? c) && (c <=? char_code "Z"))
         || ((char_code "0" <=? c) && (c <=? char_code "9"))
         || (c =? char_code " ") then
        callsign_loop rest (score + 6) valid
      else if c =? char_code "@" then
        callsign_loop rest score false
      else
        None
  end.

(** The body of [if (store)] in decodeBDS20. *)
Definition BDS20_store (callsign : list ascii) (valid : bool)
  (mm : modesMessage) : modesMessage :=
  let mm := set_commb_format COMMB_AIRCRAFT_IDENT mm in
  if valid then
    let mm := set_callsign (string_of_list_ascii callsign) mm in
    set_callsign_valid true mm
  else mm.

(** BDS2,0 Aircraft identification *)
Definition decodeBDS20 (mm : modesMessage) (store : bool) : Z * modesMessage :=
  let msg := MB mm in
  (* BDS identifier *)
  if MBi msg 0 <>? 0x20 then (0, mm) else
  let callsign :=
    [ ais_charset (getbits msg 9 14); ais_charset (getbits msg 15 20);
      ais_charset (getbits msg 21 26); ais_charset (getbits msg 27 32);
      ais_charset (getbits msg 33 38); ais_charset (getbits msg 39 44);
      ais_charset (getbits msg 45 50); ais_charset (getbits msg 51 56) ] in
  (* score based on number of valid characters *)
  match callsign_loop callsign 8 true with
  | None => (0, mm)
  | Some (score, valid) =>
      let mm := if store then BDS20_store callsign valid mm else mm in
      (score, mm)
  end.

(** BDS3,0 ACAS RA *)
Definition decodeBDS30 (mm : modesMessage) (store : bool) : Z * modesMessage :=
  let msg := MB mm in
  (* BDS identifier *)
  if MBi msg 0 <>? 0x30 then (0, mm) else
  let mm := if store then set_commb_format COMMB_ACAS_RA mm else mm in
  (* just accept it. *)
  (56, mm).

(** The body of [if (store)] in decodeBDS40. *)
Definition BDS40_store (mcp_valid fms_valid baro_valid mode_valid source_valid : Z)
  (mcp_alt fms_alt : Z) (baro_setting : float) (mode_raw source_raw : Z)
  (mm : modesMessage) : modesMessage :=
  let mm := set_commb_format COMMB_VERTICAL_INTENT mm in
  let mm :=
    if truthy mcp_valid then
      let mm := set_nav (set_mcp_altitude_valid true (nav mm)) mm in
      set_nav (set_mcp_altitude mcp_alt (nav mm)) mm
    else mm in
  let mm :=
    if truthy fms_valid then
      let mm := set_nav (set_fms_altitude_valid true (nav mm)) mm in
      set_nav (set_fms_altitude fms_alt (nav mm)) mm
    else mm in
  let mm :=
    if truthy baro_valid then
      let mm := set_nav (set_qnh_valid true (nav mm)) mm in
      set_nav (set_qnh baro_setting (nav mm)) mm
    else mm in
  let mm :=
    if truthy mode_valid then
      let mm := set_nav (set_modes_valid true (nav mm)) mm in
      set_nav
        (set_modes
           (Z.lor
              (Z.lor
                 (if truthy (Z.land mode_raw 4) then NAV_MODE_VNAV else 0)
                 (if truthy (Z.land mode_raw 2) then NAV_MODE_ALT_HOLD else 0))
              (if truthy (Z.land mode_raw 1) then NAV_MODE_APPROACH else 0))
           (nav mm)) mm
    else mm in
  if truthy source_valid then
    match source_raw with
    | 0 => set_nav (set_altitude_source NAV_ALT_UNKNOWN (nav mm)) mm
    | 1 => set_nav (set_altitude_source NAV_ALT_AIRCRAFT (nav mm)) mm
    | 2 => set_nav (set_altitude_source NAV_ALT_MCP (nav mm)) mm
    | 3 => set_nav (set_altitude_source NAV_ALT_FMS (nav mm)) mm
    | _ => set_nav (set_altitude_source NAV_ALT_INVALID (nav mm)) mm
    end
  else set_nav (set_altitude_source NAV_ALT_INVALID (nav mm)) mm.

(** BDS4,0 Selected vertical intention *)
Definition decodeBDS40 (mm : modesMessage) (store : bool) : Z * modesMessage :=
  let msg := MB mm in
  let mcp_valid := getbit msg 1 in
  let mcp_raw := getbits msg 2 13 in
  let fms_valid := getbit msg 14 in
  let fms_raw := getbits msg 15 26 in
  let baro_valid := getbit msg 27 in
  let baro_raw := getbits msg 28 39 in
  let reserved_1 := getbits msg 40 47 in
  let mode_valid := getbit msg 48 in
  let mode_raw := getbits msg 49 51 in
  let reserved_2 := getbits msg 52 53 in
  let source_valid := getbit msg 54 in
  let source_raw := getbits msg 55 56 in
  if negb (truthy mcp_valid) && negb (truthy fms_valid) && negb (truthy baro_valid)
     && negb (truthy mode_valid) && negb (truthy source_valid)
  then (0, mm) else
  let score := 0 in
  match
    (if truthy mcp_valid && (mcp_raw <>? 0) then
       let mcp_alt := mcp_raw * 16 in
       if (1000 <=? mcp_alt) && (mcp_alt <=? 50000)
       then Some (score + 13, mcp_alt)
       else None (* unlikely altitude *)
     else if negb (truthy mcp_valid) && (mcp_raw =? 0) then Some (score + 1, 0)
     else None)
  with None => (0, mm) | Some (score, mcp_alt) =>
  match
    (if truthy fms_valid && (fms_raw <>? 0) then
       let fms_alt := fms_raw * 16 in
       if (1000 <=? fms_alt) && (fms_alt <=? 50000)
       then Some (score + 13, fms_alt)
       else None (* unlikely altitude *)
     else if negb (truthy fms_valid) && (fms_raw =? 0) then Some (score + 1, 0)
     else None)
  with None => (0, mm) | Some (score, fms_alt) =>
  match
    (if truthy baro_valid && (baro_raw <>? 0) then
       let baro_setting :=
         float_of_double
           (dadd (double_of_int 800)
                 (dmul (double_of_int baro_raw) (literal 1 10))) in
       if fge baro_setting (float_of_int 900)
          && fle baro_setting (float_of_int 1100)
       then Some (score + 13, baro_setting)
       else None (* unlikely pressure setting *)
     else if negb (truthy baro_valid) && (baro_raw =? 0) then Some (score + 1, fzero)
     else None)
  with None => (0, mm) | Some (score, baro_setting) =>
  if reserved_1 <>? 0 then (0, mm) else
  match
    (if truthy mode_valid then Some (score + 4)
     else if negb (truthy mode_valid) && (mode_raw =? 0) then Some (score + 1)
     else None)
  with None => (0, mm) | Some score =>
  if reserved_2 <>? 0 then (0, mm) else
  match
    (if truthy source_valid then Some (score + 3)
     else if negb (truthy source_valid) && (source_raw =? 0) then Some (score + 1)
     else None)
  with None => (0, mm) | Some score =>
  (* small penalty for inconsistent data *)
  let score :=
    if truthy mcp_valid && truthy fms_valid && (mcp_alt <>? fms_alt)
    then score - 4 else score in
  let score :=
    if truthy mcp_valid then
      let remainder := mcp_alt mod 500 in
      if negb ((remainder <? 16) || (remainder >? 484))
      then score - 4 (* mcp altitude is not a multiple of 500 *)
      else score
    else score in
  let score :=
    if truthy fms_valid then
      let remainder := fms_alt mod 500 in
      if negb ((remainder <? 16) || (remainder >? 484))
      then score - 4 (* fms altitude is not a multiple of 500 *)
      else score
    else score in
  let mm :=
    if store then BDS40_store mcp_valid fms_valid baro_valid mode_valid source_valid
                        mcp_alt fms_alt baro_setting mode_raw source_raw mm
    else mm in
  (score, mm)
  end end end end end.

(** The body of [if (store)] in decodeBDS50. *)
Definition BDS50_store (roll_valid track_valid gs_valid track_rate_valid tas_valid : Z)
  (roll track : float) (gs : Z) (track_rate : float) (tas : Z)
  (mm : modesMessage) : modesMessage :=
  let mm := set_commb_format COMMB_TRACK_TURN mm in
  let mm :=
    if truthy roll_valid then
      let mm := set_roll_valid true mm in
      set_roll roll mm
    else mm in
  let mm :=
    if truthy track_valid then
      let mm := set_heading_valid true mm in
      let mm := set_heading track mm in
      set_heading_type HEADING_GROUND_TRACK mm
    else mm in
  let mm :=
    if truthy gs_valid then
      let mm := set_gs_valid true mm in
      set_gs {| v0 := gs; v2 := gs; selected := gs |} mm
    else mm in
  let mm :=
    if truthy track_rate_valid then
      let mm := set_track_rate_valid true mm in
      set_track_rate track_rate mm
    else mm in
  if truthy tas_valid then
    let mm := set_tas_valid true mm in
    set_tas tas mm
  else mm.

(** BDS5,0 Track and turn report *)
Definition decodeBDS50 (mm : modesMessage) (store : bool) : Z * modesMessage :=
  let msg := MB mm in
  let roll_valid := getbit msg 1 in
  let roll_sign := getbit msg 2 in
  let roll_raw := getbits msg 3 11 in
  let track_valid := getbit msg 12 in
  let track_sign := getbit msg 13 in
  let track_raw := getbits msg 14 23 in
  let gs_valid := getbit msg 24 in
  let gs_raw := getbits msg 25 34 in
  let track_rate_valid := getbit msg 35 in
  let track_rate_sign := getbit msg 36 in
  let track_rate_raw := getbits msg 37 45 in
  let tas_valid := getbit msg 46 in
  let tas_raw := getbits msg 47 56 in
  if negb (truthy roll_valid) || negb (truthy track_valid)
     || negb (truthy gs_valid) || negb (truthy tas_valid)
  then (0, mm) else
  let score := 0 in
  match
    (if truthy roll_valid then
       let roll :=
         float_of_double
           (ddiv (dmul (double_of_int roll_raw) (double_of_int 45))
                 (double_of_int 256)) in
       let roll :=
         if truthy roll_sign
         then float_of_double (dsub (double_of_float roll) (double_of_int 90))
         else roll in
       if fge roll (float_of_int (-40)) && flt roll (float_of_int 40)
       then Some (score + 11, roll)
       else None
     else if negb (truthy roll_valid) && (roll_raw =? 0)
             && negb (truthy roll_sign)
     then Some (score + 1, fzero)
     else None)
  with None => (0, mm) | Some (score, roll) =>
  match
    (if truthy track_valid then
       let score := score + 12 in
       let track :=
         float_of_double
           (ddiv (dmul (double_of_int track_raw) (double_of_int 90))
                 (double_of_int 512)) in
       let track :=
         if truthy track_sign
         then float_of_double (dadd (double_of_float track) (double_of_int 180))
         else track in
       Some (score, track)
     else if negb (truthy track_valid) && (track_raw =? 0)
             && negb (truthy track_sign)
     then Some (score + 1, fzero)
     else None)
  with None => (0, mm) | Some (score, track) =>
  match
    (if truthy gs_valid && (gs_raw <>? 0) then
       let gs := gs_raw * 2 in
       if (50 <=? gs) && (gs <=? 700) then Some (score + 11, gs) else None
     else if negb (truthy gs_valid) && (gs_raw =? 0) then Some (score + 1, 0)
     else None)
  with None => (0, mm) | Some (score, gs) =>
  match
    (if truthy track_rate_valid then
       let track_rate :=
         float_of_double
           (ddiv (dmul (double_of_int track_rate_raw) (double_of_int 8))
                 (double_of_int 256)) in
       let track_rate :=
         if truthy track_rate_sign
         then fsub track_rate (float_of_int 16)
         else track_rate in
       if fge (double_of_float track_rate) (double_of_int (-10))
          && fle (double_of_float track_rate) (double_of_int 10)
       then Some (score + 11, track_rate)
       else None
     else if negb (truthy track_rate_valid) && (track_rate_raw =? 0)
             && negb (truthy track_rate_sign)
     then Some (score + 1, fzero)
     else None)
  with None => (0, mm) | Some (score, track_rate) =>
  match
    (if truthy tas_valid && (tas_raw <>? 0) then
       let tas := tas_raw * 2 in
       if (50 <=? tas) && (tas <=? 700) then Some (score + 11, tas) else None
     else if negb (truthy tas_valid) && (tas_raw =? 0) then Some (score + 1, 0)
     else None)
  with None => (0, mm) | Some (score, tas) =>
  (* small penalty for inconsistent data *)
  let score :=
    if truthy gs_valid && truthy tas_valid then
      let delta := Z.abs (gs_valid - tas_valid) in
      if delta >? 150 then score - 6 else score
    else score in
  (* compute the theoretical turn rate and compare to track angle rate *)
  let score :=
    if truthy roll_valid && truthy tas_valid && (tas >? 0)
       && truthy track_rate_valid then
      let turn_rate :=
        ddiv
          (dmul (double_of_int 68625)
                (tan (ddiv (dmul (double_of_float roll) M_PI)
                           (double_of_int 180))))
          (dmul (double_of_int (tas * 20)) M_PI) in
      let delta := fabs (dsub turn_rate (double_of_float track_rate)) in
      if fgt delta (double_of_int 2) then score - 6 else score
    else score in
  let mm :=
    if store then BDS50_store roll_valid track_valid gs_valid track_rate_valid tas_valid
                        roll track gs track_rate tas mm
    else mm in
  (score, mm)
  end end end end end.

(** The body of [if (store)] in decodeBDS60. *)
Definition BDS60_store (heading_valid ias_valid mach_valid baro_rate_valid inertial_rate_valid : Z)
  (heading : float) (ias : Z) (mach : float) (baro_rate inertial_rate : Z)
  (mm : modesMessage) : modesMessage :=
  let mm := set_commb_format COMMB_HEADING_SPEED mm in
  let mm :=
    if truthy heading_valid then
      let mm := set_heading_valid true mm in
      let mm := set_heading heading mm in
      set_heading_type HEADING_MAGNETIC mm
    else mm in
  let mm :=
    if truthy ias_valid then
      let mm := set_ias_valid true mm in
      set_ias ias mm
    else mm in
  let mm :=
    if truthy mach_valid then
      let mm := set_mach_valid true mm in
      set_mach mach mm
    else mm in
  let mm :=
    if truthy baro_rate_valid then
      let mm := set_baro_rate_valid true mm in
      set_baro_rate baro_rate mm
    else mm in
  if truthy inertial_rate_valid then
    (* INS-derived data is treated as a geometric rate elsewhere *)
    let mm := set_geom_rate_valid true mm in
    set_geom_rate inertial_rate mm
  else mm.

(** BDS6,0 Heading and speed report *)
Definition decodeBDS60 (mm : modesMessage) (store : bool) : Z * modesMessage :=
  let msg := MB mm in
  let heading_valid := getbit msg 1 in
  let heading_sign := getbit msg 2 in
  let heading_raw := getbits msg 3 12 in
  let ias_valid := getbit msg 13 in
  let ias_raw := getbits msg 14 23 in
  let mach_valid := getbit msg 24 in
  let mach_raw := getbits msg 25 34 in
  let baro_rate_valid := getbit msg 35 in
  let baro_rate_sign := getbit msg 36 in
  let baro_rate_raw := getbits msg 37 45 in
  let inertial_rate_valid := getbit msg 46 in
  let inertial_rate_sign := getbit msg 47 in
  let inertial_rate_raw := getbits msg 48 56 in
  if negb (truthy heading_valid) || negb (truthy ias_valid)
     || negb (truthy mach_valid)
     || (negb (truthy baro_rate_valid) && negb (truthy inertial_rate_valid))
  then (0, mm) else
  let score := 0 in
  match
    (if truthy heading_valid then
       let heading :=
         float_of_double
           (ddiv (dmul (double_of_int heading_raw) (double_of_int 90))
                 (double_of_int 512)) in
       let heading :=
         if truthy heading_sign
         then float_of_double (dadd (double_of_float heading) (double_of_int 180))
         else heading in
       Some (score + 12, heading)
     else if negb (truthy heading_valid) && (heading_raw =? 0)
             && negb (truthy heading_sign)
     then Some (score + 1, fzero)
     else None)
  with None => (0, mm) | Some (score, heading) =>
  match
    (if truthy ias_valid && (ias_raw <>? 0) then
       let ias := ias_raw in
       if (50 <=? ias) && (ias <=? 700) then Some (score + 11, ias) else None
     else if negb (truthy ias_valid) && (ias_raw =? 0) then Some (score + 1, 0)
     else None)
  with None => (0, mm) | Some (score, ias) =>
  match
    (if truthy mach_valid && (mach_raw <>? 0) then
       let mach :=
         float_of_double
           (ddiv (dmul (double_of_int mach_raw) (literal 2048 1000))
                 (double_of_int 512)) in
       if fge (double_of_float mach) (literal 1 10)
          && fle (double_of_float mach) (literal 9 10)
       then Some (score + 11, mach)
       else None
     else if negb (truthy mach_valid) && (mach_raw =? 0)
     then Some (score + 1, fzero)
     else None)
  with None => (0, mm) | Some (score, mach) =>
  match
    (if truthy baro_rate_valid then
       let baro_rate := baro_rate_raw * 32 in
       let baro_rate :=
         if truthy baro_rate_sign then baro_rate - 16384 else baro_rate in
       if (-6000 <=? baro_rate) && (baro_rate <=? 6000)
       then Some (score + 11, baro_rate)
       else None
     else if negb (truthy baro_rate_valid) && (baro_rate_raw =? 0)
     then Some (score + 1, 0)
     else None)
  with None => (0, mm) | Some (score, baro_rate) =>
  match
    (if truthy inertial_rate_valid then
       let inertial_rate := inertial_rate_raw * 32 in
       let inertial_rate :=
         if truthy inertial_rate_sign
         then inertial_rate - 16384 else inertial_rate in
       if (-6000 <=? inertial_rate) && (inertial_rate <=? 6000)
       then Some (score + 11, inertial_rate)
       else None
     else if negb (truthy inertial_rate_valid) && (inertial_rate_raw =? 0)
     then Some (score + 1, 0)
     else None)
  with None => (0, mm) | Some (score, inertial_rate) =>
  (* small penalty for inconsistent data *)
  let score :=
    if truthy baro_rate_valid && truthy inertial_rate_valid then
      let delta := Z.abs (baro_rate - inertial_rate) in
      if delta >? 2000 then score - 12 else score
    else score in
  let mm :=
    if store then BDS60_store heading_valid ias_valid mach_valid baro_rate_valid
                        inertial_rate_valid heading ias mach baro_rate inertial_rate mm
    else mm in
  (score, mm)
  end end end end end.

(** decodeBDS44, the wind block: the new score with [wind_speed] and
    [wind_dir], or [None] for its [return 0]. *)
Definition BDS44_wind (wind_valid windspeed_raw winddir_raw score : Z)
  : option (Z * float * float) :=
  if truthy wind_valid then
    let wind_dir :=
      float_of_double
        (dmul (double_of_int winddir_raw)
              (ddiv (double_of_int 180) (double_of_int 256))) in
    let wind_speed := float_of_int windspeed_raw in
    if windspeed_raw =? 0 then (* possible but uncommon *)
      Some (score + 2, wind_speed, wind_dir)
    else if fle wind_speed (float_of_int 250) then
      Some (score + 19, wind_speed, wind_dir)
    else None
  else Some (score + 1, fzero, fzero).

(** decodeBDS44, the static air temperature block. *)
Definition BDS44_sat (sat_valid sat_sign sat_raw score : Z)
  : option (Z * float) :=
  if truthy sat_valid then
    let sat := float_of_double (dmul (double_of_int sat_raw) (literal 1 4)) in
    let sat := if truthy sat_sign then fsub sat (float_of_int 128) else sat in
    if feq sat (float_of_int 0) then (* possible but uncommon *)
      Some (score + 2, sat)
    else if fge sat (float_of_int (-80)) && fle sat (float_of_int 60) then
      Some (score + 11, sat)
    else None
  else Some (score + 1, fzero).

(** decodeBDS44, the average static pressure block. *)
Definition BDS44_asp (asp_valid asp_raw score : Z) : option (Z * float) :=
  if truthy asp_valid then
    let asp := float_of_int asp_raw in
    if fge asp (float_of_int 25) && fle asp (float_of_int 1100)
    then Some (score + 12, asp)
    else None
  else Some (score + 1, fzero).

(** decodeBDS44 up to the collision guard: the score as computed from the
    fields and the decoded values, or [None] where the code returns 0. *)
Definition BDS44_fields (mm : modesMessage)
  : option (Z * (float * float * float * float * Z * float)) :=
  let msg := MB mm in
  let source := getbits msg 1 4 in
  let wind_valid := getbit msg 5 in
  let windspeed_raw := getbits msg 6 14 in
  let winddir_raw := getbits msg 15 23 in
  let sat_valid := getbit msg 24 in
  let sat_sign := getbit msg 25 in
  let sat_raw := getbits msg 26 34 in
  let asp_valid := getbit msg 35 in
  let asp_raw := getbits msg 36 46 in
  let turbulence_valid := getbit msg 47 in
  let turbulence_raw := getbits msg 48 49 in
  let humidity_valid := getbit msg 50 in
  let humidity_raw := getbits msg 51 56 in
  if (source =? MRAR_SOURCE_INVALID) || (source >=? MRAR_SOURCE_RESERVED)
  then None (* invalid or reserved source *) else
  if negb (truthy wind_valid) || negb (truthy sat_valid)
  then None (* all valid messages seen in the wild have at least temp + wind *) else
  if negb (truthy asp_valid) && (asp_raw <>? 0) then None else
  if negb (truthy turbulence_valid) && (turbulence_raw <>? 0) then None else
  if negb (truthy humidity_valid) && (humidity_raw <>? 0) then None else
  let score := 0 in
  match BDS44_wind wind_valid windspeed_raw winddir_raw score with
  | None => None | Some (score, wind_speed, wind_dir) =>
  match BDS44_sat sat_valid sat_sign sat_raw score with
  | None => None | Some (score, sat) =>
  match BDS44_asp asp_valid asp_raw score with
  | None => None | Some (score, asp) =>
  let '(score, turbulence) :=
    if truthy turbulence_valid then (score + 3, turbulence_raw)
    else (score + 1, HAZARD_NIL) in
  let '(score, humidity) :=
    if truthy humidity_valid then
      (score + 7,
       float_of_double
         (dmul (double_of_int humidity_raw)
               (ddiv (double_of_int 100) (double_of_int 64))))
    else (score + 1, fzero) in
  Some (score, (wind_speed, wind_dir, sat, asp, turbulence, humidity))
  end end end.

(** The body of [if (store)] in decodeBDS44. *)
Definition BDS44_store (source wind_valid sat_valid asp_valid : Z)
  (turbulence_valid humidity_valid : Z)
  (wind_speed wind_dir sat asp : float) (turbulence : Z) (humidity : float)
  (mm : modesMessage) : modesMessage :=
  let mm := set_commb_format COMMB_MRAR mm in
  let mm := set_mrar_source_valid true mm in
  let mm := set_mrar_source source mm in
  let mm :=
    if truthy wind_valid then
      let mm := set_wind_valid true mm in
      let mm := set_wind_speed wind_speed mm in
      set_wind_dir wind_dir mm
    else mm in
  let mm :=
    if truthy sat_valid then
      let mm := set_temperature_valid true mm in
      set_temperature sat mm
    else mm in
  let mm :=
    if truthy asp_valid then
      let mm := set_pressure_valid true mm in
      set_pressure asp mm
    else mm in
  let mm :=
    if truthy turbulence_valid then
      let mm := set_turbulence_valid true mm in
      set_turbulence turbulence mm
    else mm in
  if truthy humidity_valid then
    let mm := set_humidity_valid true mm in
    set_humidity humidity mm
  else mm.

(** BDS4,4 Meterological routine air report *)
Definition decodeBDS44 (mm : modesMessage) (store : bool) : Z * modesMessage :=
  let msg := MB mm in
  let source := getbits msg 1 4 in
  let wind_valid := getbit msg 5 in
  let sat_valid := getbit msg 24 in
  let asp_valid := getbit msg 35 in
  let turbulence_valid := getbit msg 47 in
  let humidity_valid := getbit msg 50 in
  match BDS44_fields mm with
  | None => (0, mm)
  | Some (score, (wind_speed, wind_dir, sat, asp, turbulence, humidity)) =>
      let score :=
        if (source =? MRAR_SOURCE_DMEDME) && truthy wind_valid
           && truthy sat_valid && (score >? 0)
        then 1 (* only treat this as MRAR as a last resort *)
        else score in
      let mm :=
        if store then BDS44_store source wind_valid sat_valid asp_valid
                        turbulence_valid humidity_valid
                        wind_speed wind_dir sat asp turbulence humidity mm
        else mm in
      (score, mm)
  end.

(** BDS0,5 extended squitter airborne position *)
Definition decodeBDS05 (mm : modesMessage) (store : bool) : Z * modesMessage :=
  (* we need a DF20 not a DF21 *)
  if msgtype mm <>? 20 then (0, mm) else
  let msg := MB mm in
  let typecode := getbits msg 1 5 in
  if (typecode <? 9) || (typecode >? 18) then (0, mm) else
  let t_bit := getbit msg 21 in
  if truthy t_bit then (0, mm) else
  let ac12 := getbits msg 9 20 in
  if negb (truthy ac12) then (0, mm) else
  (* Insert M=0 to make an AC13 value *)
  let ac13 := Z.lor (Z.shiftl (Z.land ac12 0x0FC0) 1) (Z.land ac12 0x003F) in
  if AC mm <>? ac13 then (0, mm) (* no altitude match *) else
  let lat := getbits msg 23 39 in
  let lon := getbits msg 40 56 in
  if (lat =? 0) || (lon =? 0) then (0, mm) (* unlikely position *) else
  let mm :=
    if store then set_commb_format COMMB_AIRBORNE_POSITION mm else mm in
  (* Score this high enough to override everything else *)
  (100, mm).

(** ** The classifier *)

(** [CommBDecoderFn]: a pointer to one of the ten decoders. *)
Inductive CommBDecoderFn :=
| addr_decodeEmptyResponse
| addr_decodeBDS10
| addr_decodeBDS17
| addr_decodeBDS20
| addr_decodeBDS30
| addr_decodeBDS40
| addr_decodeBDS44
| addr_decodeBDS50
| addr_decodeBDS60
| addr_decodeBDS05.

(** A call through the pointer. *)
Definition call (fn : CommBDecoderFn) : modesMessage -> bool -> Z * modesMessage :=
  match fn with
  | addr_decodeEmptyResponse => decodeEmptyResponse
  | addr_decodeBDS10 => decodeBDS10
  | addr_decodeBDS17 => decodeBDS17
  | addr_decodeBDS20 => decodeBDS20
  | addr_decodeBDS30 => decodeBDS30
  | addr_decodeBDS40 => decodeBDS40
  | addr_decodeBDS44 => decodeBDS44
  | addr_decodeBDS50 => decodeBDS50
  | addr_decodeBDS60 => decodeBDS60
  | addr_decodeBDS05 => decodeBDS05
  end.

Definition comm_b_decoders : list CommBDecoderFn :=
  [ addr_decodeEmptyResponse;
    addr_decodeBDS10;
    addr_decodeBDS20;
    addr_decodeBDS30;
    addr_decodeBDS17;
    addr_decodeBDS40;
    addr_decodeBDS50;
    addr_decodeBDS60;
    addr_decodeBDS44;
    addr_decodeBDS05 ].

(** The frame [mm] points to, and the decoder calls made so far, each with
    its [store] argument. *)
Record world := {
  frame : modesMessage;
  calls : list (CommBDecoderFn * bool)
}.

Definition M (A : Type) : Type := world -> A * world.

Definition ret {A : Type} (a : A) : M A := fun w => (a, w).

Definition bind {A B : Type} (m : M A) (k : A -> M B) : M B :=
  fun w => let '(a, w') := m w in k a w'.

Local Notation "x <- m ;; k" := (bind m (fun x => k))
  (at level 61, m at next level, right associativity).

Definition read {A : Type} (f : modesMessage -> A) : M A :=
  fun w => (f (frame w), w).

Definition write (f : modesMessage -> modesMessage) : M unit :=
  fun w => (tt, {| frame := f (frame w); calls := calls w |}).

Definition invoke (fn : CommBDecoderFn) (store : bool) : M Z :=
  fun w =>
    let '(score, mm') := call fn (frame w) store in
    (score, {| frame := mm'; calls := calls w ++ [(fn, store)] |}).

(** The locals of decodeCommB. *)
Record best := {
  bestScore : Z;
  bestDecoder : option CommBDecoderFn; (* [None] is NULL *)
  ambiguous : Z
}.

(** The body of the [for] loop, for the decoder [fn] and its [score]. *)
Definition consider (fn : CommBDecoderFn) (score : Z) (b : best) : best :=
  if score >? bestScore b then
    {| bestScore := score; bestDecoder := Some fn; ambiguous := 0 |}
  else if score =? bestScore b then
    {| bestScore := bestScore b; bestDecoder := bestDecoder b; ambiguous := 1 |}
  else b.

Fixpoint for_each (fns : list CommBDecoderFn) (b : best) : M best :=
  match fns with
  | [] => ret b
  | fn :: rest =>
      score <- invoke fn false ;;
      for_each rest (consider fn score b)
  end.

Definition decodeCommB : M unit :=
  skip <- read (fun mm => (DR mm <>? 0) || (UM mm <>? 0)
                          || (correctedbits mm >? 0)) ;;
  if skip : bool then write (set_commb_format COMMB_NOT_DECODED) else
  b <- for_each comm_b_decoders
         {| bestScore := 0; bestDecoder := None; ambiguous := 0 |} ;;
  match bestDecoder b with
  | Some fn =>
      if truthy (ambiguous b) then write (set_commb_format COMMB_AMBIGUOUS)
      else
        (* decode it *)
        _ <- invoke fn true ;; ret tt
  | None => write (set_commb_format COMMB_UNKNOWN)
  end.

(** decodeCommB(&mm), started with no call made. *)
Definition run (mm : modesMessage) : world :=
  snd (decodeCommB {| frame := mm; calls := [] |}).

(** The score a decoder gives a frame, and the tag its store pass sets. *)
Definition score_of (fn : CommBDecoderFn) (mm : modesMessage) : Z :=
  fst (call fn mm false).

Definition tag_of (fn : CommBDecoderFn) : commb_format_t :=
  match fn with
  | addr_decodeEmptyResponse => COMMB_EMPTY_RESPONSE
  | addr_decodeBDS10 => COMMB_DATALINK_CAPS
  | addr_decodeBDS17 => COMMB_GICB_CAPS
  | addr_decodeBDS20 => COMMB_AIRCRAFT_IDENT
  | addr_decodeBDS30 => COMMB_ACAS_RA
  | addr_decodeBDS40 => COMMB_VERTICAL_INTENT
  | addr_decodeBDS44 => COMMB_MRAR
  | addr_decodeBDS50 => COMMB_TRACK_TURN
  | addr_decodeBDS60 => COMMB_HEADING_SPEED
  | addr_decodeBDS05 => COMMB_AIRBORNE_POSITION
  end.

End Decoders.

(** * What the properties are stated with *)

(** ** A well-behaved candidate *)

(** On every frame a decoder either returns 0 and leaves the frame alone,
    whatever [store] is, or it returns one score [s <= bound] for both
    values of [store], leaves the frame alone when [store] is false and
    hands back a frame tagged [tag] when it is true. *)
Definition shaped (d : modesMessage -> bool -> Z * modesMessage)
  (tag : commb_format_t) (bound : Z) : Prop :=
  forall mm,
    (forall store, d mm store = (0, mm)) \/
    (exists s mm', s <= bound /\ commb_format mm' = tag /\
       forall store, d mm store = (s, if store then mm' else mm)).

(** ** The loop of decodeCommB, summed up *)

(** The calls of the scoring pass over [fns]. *)
Definition scoring_calls (fns : list CommBDecoderFn)
  : list (CommBDecoderFn * bool) :=
  map (fun fn => (fn, false)) fns.

(** The locals before the loop. *)
Definition start : best :=
  {| bestScore := 0; bestDecoder := None; ambiguous := 0 |}.

(** The gate of decodeCommB. *)
Definition skipped (mm : modesMessage) : bool :=
  (DR mm <>? 0) || (UM mm <>? 0) || (correctedbits mm >? 0).

Section Summary.

Variable ais_charset : Z -> ascii.
Variable tan : double -> double.
Variable MRAR_SOURCE_RESERVED : Z.

Local Notation "'Score'" := (score_of ais_charset tan MRAR_SOURCE_RESERVED).

(** The locals after the loop went through [fns], on the frame [mm]. *)
Definition scan (mm : modesMessage) (fns : list CommBDecoderFn) (b : best)
  : best :=
  fold_left (fun b fn => consider fn (Score fn mm) b) fns b.

(** What the locals say about the decoders [seen] so far. *)
Record summary (mm : modesMessage) (seen : list CommBDecoderFn) (b : best)
  : Prop := {
  best_is_max : forall fn, In fn seen -> Score fn mm <= bestScore b;
  none_is_zero : bestDecoder b = None -> bestScore b = 0;
  best_is_seen : forall fn, bestDecoder b = Some fn ->
    In fn seen /\ Score fn mm = bestScore b /\ 0 < bestScore b;
  ambiguous_tie : forall fn, bestDecoder b = Some fn ->
    truthy (ambiguous b) = true ->
    exists fn', In fn' seen /\ fn' <> fn /\ Score fn' mm = Score fn mm;
  unambiguous_alone : forall fn, bestDecoder b = Some fn ->
    truthy (ambiguous b) = false ->
    forall fn', In fn' seen -> fn' <> fn -> Score fn' mm < Score fn mm
}.

(** [fn] alone has the highest score, and it is positive. *)
Definition unique_best (mm : modesMessage) (fn : CommBDecoderFn) : Prop :=
  0 < Score fn mm /\
  forall fn', fn' <> fn -> Score fn' mm < Score fn mm.

End Summary.

(** ** Vocabulary of the statements *)

(** AC12 with a zero M bit inserted: the AC13 the frame should carry. *)
Definition insert_M_bit (ac12 : Z) : Z :=
  Z.lor (Z.shiftl (Z.land ac12 0x0FC0) 1) (Z.land ac12 0x003F).

(** When the specification has BDS0,5 accept. *)
Definition BDS05_accepts (mm : modesMessage) : bool :=
  let msg := MB mm in
  (msgtype mm =? 20)
  && (9 <=? getbits msg 1 5) && (getbits msg 1 5 <=? 18)
  && (getbit msg 21 =? 0)
  && (getbits msg 9 20 <>? 0)
  && (AC mm =? insert_M_bit (getbits msg 9 20))
  && (getbits msg 23 39 <>? 0) && (getbits msg 40 56 <>? 0).

(** The eight characters of a BDS2,0 payload. *)
Definition callsign_chars (ais_charset : Z -> ascii) (msg : payload)
  : list ascii :=
  [ ais_charset (getbits msg 9 14); ais_charset (getbits msg 15 20);
    ais_charset (getbits msg 21 26); ais_charset (getbits msg 27 32);
    ais_charset (getbits msg 33 38); ais_charset (getbits msg 39 44);
    ais_charset (getbits msg 45 50); ais_charset (getbits msg 51 56) ].

(** An uppercase letter, a digit or a space. *)
Definition is_ident_char (c : ascii) : bool :=
  let c := char_code c in
  ((char_code "A" <=? c) && (c <=? char_code "Z"))
  || ((char_code "0" <=? c) && (c <=? char_code "9"))
  || (c =? char_code " ").

(** The padding character. *)
Definition is_padding (c : ascii) : bool := char_code c =? char_code "@".

(** Letter, digit, space or padding: what decodeBDS20 lets through. *)
Definition is_callsign_char (c : ascii) : bool :=
  is_ident_char c || is_padding c.

(** The altitude source read the way the specification's field table has
    it: flag in bit 48, raw value in bits 49..51. *)
Definition claimed_altitude_source (msg : payload) : nav_altitude_source_t :=
  if truthy (getbit msg 48) then
    match getbits msg 49 51 with
    | 0 => NAV_ALT_UNKNOWN
    | 1 => NAV_ALT_AIRCRAFT
    | 2 => NAV_ALT_MCP
    | 3 => NAV_ALT_FMS
    | _ => NAV_ALT_INVALID
    end
  else NAV_ALT_INVALID.

(** The altitude source as decodeBDS40 reads it: flag in bit 54, raw value
    in bits 55..56. *)
Definition coded_altitude_source (msg : payload) : nav_altitude_source_t :=
  if truthy (getbit msg 54) then
    match getbits msg 55 56 with
    | 0 => NAV_ALT_UNKNOWN
    | 1 => NAV_ALT_AIRCRAFT
    | 2 => NAV_ALT_MCP
    | _ => NAV_ALT_FMS
    end
  else NAV_ALT_INVALID.

(** The mode flags as decodeBDS40 reads them from the three bits 49..51. *)
Definition coded_modes (msg : payload) : Z :=
  let mode_raw := getbits msg 49 51 in
  Z.lor (Z.lor (if truthy (Z.land mode_raw 4) then NAV_MODE_VNAV else 0)
               (if truthy (Z.land mode_raw 2) then NAV_MODE_ALT_HOLD else 0))
        (if truthy (Z.land mode_raw 1) then NAV_MODE_APPROACH else 0).

(** What a valid wind field of [speed] kt adds to the BDS4,4 score; [None]
    is the veto. *)
Definition wind_points (speed : Z) : option Z :=
  if speed =? 0 then Some 2
  else if speed <=? 250 then Some 19
  else None.

(** The same for a valid static air temperature of [quarters]/4 degrees. *)
Definition sat_points (quarters : Z) : option Z :=
  if quarters =? 0 then Some 2
  else if (-320 <=? quarters) && (quarters <=? 240) then Some 11
  else None.

(** The static air temperature decodeBDS44 computes from the sign bit and
    the raw field. *)
Definition sat_of (sat_sign sat_raw : Z) : float :=
  let sat := float_of_double (dmul (double_of_int sat_raw) (literal 1 4)) in
  if truthy sat_sign then fsub sat (float_of_int 128) else sat.

(** The float comparisons of decodeBDS44 on that temperature give what the
    integer comparisons on [sat_raw - 512 * sat_sign] quarter degrees give. *)
Definition sat_comparisons_agree (sat_sign sat_raw : Z) : bool :=
  let quarters := sat_raw - 512 * sat_sign in
  Bool.eqb (feq (sat_of sat_sign sat_raw) (float_of_int 0)) (quarters =? 0)
  && Bool.eqb (fge (sat_of sat_sign sat_raw) (float_of_int (-80))
               && fle (sat_of sat_sign sat_raw) (float_of_int 60))
              ((-320 <=? quarters) && (quarters <=? 240)).

(** What the average static pressure field adds to the BDS4,4 score: 12 for
    a valid pressure of 25 to 1100 hPa, 1 when the field is not valid;
    [None] is the veto of any other valid pressure. *)
Definition asp_points (asp_valid asp_raw : Z) : option Z :=
  if truthy asp_valid then
    if (25 <=? asp_raw) && (asp_raw <=? 1100) then Some 12 else None
  else Some 1.

(** What the fields after the temperature add together: the pressure, the
    turbulence (3 when valid, 1 when not) and the humidity (7 when valid, 1
    when not). None of it reads the wind or the temperature bits. *)
Definition other_points (msg : payload) : option Z :=
  option_map
    (fun asp => asp + (if truthy (getbit msg 47) then 3 else 1)
                    + (if truthy (getbit msg 50) then 7 else 1))
    (asp_points (getbit msg 35) (getbits msg 36 46)).

(** The float comparisons of decodeBDS44 on the pressure give what the
    integer comparisons on the raw field give. *)
Definition asp_comparisons_agree (asp_raw : Z) : bool :=
  Bool.eqb (fge (float_of_int asp_raw) (float_of_int 25)
            && fle (float_of_int asp_raw) (float_of_int 1100))
           ((25 <=? asp_raw) && (asp_raw <=? 1100)).

(** ** Vocabulary of the further properties *)

(** The members of the frame that decodeCommB and its decoders read. *)
Definition inputs (mm : modesMessage) : Z * payload * Z * Z * Z * Z :=
  (msgtype mm, MB mm, DR mm, UM mm, correctedbits mm, AC mm).

(** Two store calls of one decoder, on the frames [mm] and [mm2]: both
    reject, or both accept with one score [s] and one update [f] of the
    frame, about which [P] holds. *)
Definition agree (mm mm2 : modesMessage)
  (P : Z -> (modesMessage -> modesMessage) -> Prop)
  (r r2 : Z * modesMessage) : Prop :=
  (r = (0, mm) /\ r2 = (0, mm2)) \/
  exists s f, P s f /\ r = (s, f mm) /\ r2 = (s, f mm2).

(** The QNH decodeBDS40 computes from the raw field. *)
Definition BDS40_qnh (baro_raw : Z) : float :=
  float_of_double
    (dadd (double_of_int 800) (dmul (double_of_int baro_raw) (literal 1 10))).

(** What holds of a payload decodeBDS40 accepts, of the score [s] it gives
    and of the update [f] its store pass makes. *)
Definition BDS40_accepted (msg : payload) (s : Z)
  (f : modesMessage -> modesMessage) : Prop :=
  let mcp_valid := truthy (getbit msg 1) in
  let mcp_raw := getbits msg 2 13 in
  let fms_valid := truthy (getbit msg 14) in
  let fms_raw := getbits msg 15 26 in
  let baro_valid := truthy (getbit msg 27) in
  let baro_raw := getbits msg 28 39 in
  let mode_valid := truthy (getbit msg 48) in
  let source_valid := truthy (getbit msg 54) in
  7 <= s <= 46 /\
  mcp_valid || fms_valid || baro_valid || mode_valid || source_valid = true /\
  (if mcp_valid then 1000 <= mcp_raw * 16 <= 50000 else mcp_raw = 0) /\
  (if fms_valid then 1000 <= fms_raw * 16 <= 50000 else fms_raw = 0) /\
  (if baro_valid
   then baro_raw <> 0 /\
        fge (BDS40_qnh baro_raw) (float_of_int 900)
        && fle (BDS40_qnh baro_raw) (float_of_int 1100) = true
   else baro_raw = 0) /\
  getbits msg 40 47 = 0 /\ getbits msg 52 53 = 0 /\
  (mode_valid = false -> getbits msg 49 51 = 0) /\
  (source_valid = false -> getbits msg 55 56 = 0) /\
  f = BDS40_store (getbit msg 1) (getbit msg 14) (getbit msg 27)
        (getbit msg 48) (getbit msg 54)
        (if mcp_valid then mcp_raw * 16 else 0)
        (if fms_valid then fms_raw * 16 else 0)
        (if baro_valid then BDS40_qnh baro_raw else fzero)
        (getbits msg 49 51) (getbits msg 55 56).

(** An angle of BDS5,0 or BDS6,0 (track, heading): ten bits of 90/512
    degrees and a sign bit that adds 180. *)
Definition angle_of (sign raw : Z) : float :=
  let angle :=
    float_of_double
      (ddiv (dmul (double_of_int raw) (double_of_int 90)) (double_of_int 512)) in
  if truthy sign
  then float_of_double (dadd (double_of_float angle) (double_of_int 180))
  else angle.

(** The roll angle of BDS5,0: nine bits of 45/256 degrees and a sign bit
    that subtracts 90. *)
Definition BDS50_roll (sign raw : Z) : float :=
  let roll :=
    float_of_double
      (ddiv (dmul (double_of_int raw) (double_of_int 45)) (double_of_int 256)) in
  if truthy sign
  then float_of_double (dsub (double_of_float roll) (double_of_int 90))
  else roll.

(** The track angle rate of BDS5,0: nine bits of 8/256 degrees per second
    and a sign bit that subtracts 16. *)
Definition BDS50_track_rate (sign raw : Z) : float :=
  let track_rate :=
    float_of_double
      (ddiv (dmul (double_of_int raw) (double_of_int 8)) (double_of_int 256)) in
  if truthy sign then fsub track_rate (float_of_int 16) else track_rate.

(** What holds of a payload decodeBDS50 accepts, of its score and of the
    update its store pass makes. *)
Definition BDS50_accepted (msg : payload) (s : Z)
  (f : modesMessage -> modesMessage) : Prop :=
  let roll := BDS50_roll (getbit msg 2) (getbits msg 3 11) in
  let track := angle_of (getbit msg 13) (getbits msg 14 23) in
  let gs_raw := getbits msg 25 34 in
  let track_rate_valid := truthy (getbit msg 35) in
  let track_rate := BDS50_track_rate (getbit msg 36) (getbits msg 37 45) in
  let tas_raw := getbits msg 47 56 in
  (truthy (getbit msg 1) = true /\ truthy (getbit msg 12) = true /\
   truthy (getbit msg 24) = true /\ truthy (getbit msg 46) = true) /\
  fge roll (float_of_int (-40)) && flt roll (float_of_int 40) = true /\
  50 <= gs_raw * 2 <= 700 /\
  50 <= tas_raw * 2 <= 700 /\
  (if track_rate_valid
   then fge (double_of_float track_rate) (double_of_int (-10))
        && fle (double_of_float track_rate) (double_of_int 10) = true
   else getbits msg 37 45 = 0 /\ truthy (getbit msg 36) = false) /\
  (if track_rate_valid then s = 56 \/ s = 50 else s = 46) /\
  f = BDS50_store (getbit msg 1) (getbit msg 12) (getbit msg 24)
        (getbit msg 35) (getbit msg 46)
        roll track (gs_raw * 2)
        (if track_rate_valid then track_rate else fzero)
        (tas_raw * 2).

(** The Mach number of BDS6,0: ten bits of 2.048/512. *)
Definition BDS60_mach (raw : Z) : float :=
  float_of_double
    (ddiv (dmul (double_of_int raw) (literal 2048 1000)) (double_of_int 512)).

(** A vertical rate of BDS6,0: nine bits of 32 ft/min and a sign bit that
    subtracts 16384. *)
Definition BDS60_rate (sign raw : Z) : Z :=
  if truthy sign then raw * 32 - 16384 else raw * 32.

(** What holds of a payload decodeBDS60 accepts, of its score and of the
    update its store pass makes. *)
Definition BDS60_accepted (msg : payload) (s : Z)
  (f : modesMessage -> modesMessage) : Prop :=
  let heading := angle_of (getbit msg 2) (getbits msg 3 12) in
  let ias_raw := getbits msg 14 23 in
  let mach := BDS60_mach (getbits msg 25 34) in
  let baro_rate_valid := truthy (getbit msg 35) in
  let baro_rate := BDS60_rate (getbit msg 36) (getbits msg 37 45) in
  let inertial_rate_valid := truthy (getbit msg 46) in
  let inertial_rate := BDS60_rate (getbit msg 47) (getbits msg 48 56) in
  (truthy (getbit msg 1) = true /\ truthy (getbit msg 13) = true /\
   truthy (getbit msg 24) = true /\
   baro_rate_valid || inertial_rate_valid = true) /\
  50 <= ias_raw <= 700 /\
  (getbits msg 25 34 <> 0 /\
   fge (double_of_float mach) (literal 1 10)
   && fle (double_of_float mach) (literal 9 10) = true) /\
  (if baro_rate_valid then -6000 <= baro_rate <= 6000
   else getbits msg 37 45 = 0) /\
  (if inertial_rate_valid then -6000 <= inertial_rate <= 6000
   else getbits msg 48 56 = 0) /\
  s = (if baro_rate_valid && inertial_rate_valid
       then if Z.abs (baro_rate - inertial_rate) >? 2000 then 44 else 56
       else 46) /\
  f = BDS60_store (getbit msg 1) (getbit msg 13) (getbit msg 24)
        (getbit msg 35) (getbit msg 46)
        heading ias_raw mach
        (if baro_rate_valid then baro_rate else 0)
        (if inertial_rate_valid then inertial_rate else 0).

(** An update of the frame that leaves the members the decoders read as
    they were and that changes nothing when made a second time. *)
Definition writer (f : modesMessage -> modesMessage) : Prop :=
  (forall m, inputs (f m) = inputs m) /\ (forall m, f (f m) = f m).

(** What holds of a payload decodeBDS44 accepts, of its score and of the
    update its store pass makes; [R] is the first reserved source tag. *)
Definition BDS44_accepted (R : Z) (msg : payload) (s : Z)
  (f : modesMessage -> modesMessage) : Prop :=
  (getbits msg 1 4 <> MRAR_SOURCE_INVALID /\ getbits msg 1 4 < R) /\
  (truthy (getbit msg 5) = true /\ truthy (getbit msg 24) = true) /\
  (truthy (getbit msg 35) = false -> getbits msg 36 46 = 0) /\
  (truthy (getbit msg 47) = false -> getbits msg 48 49 = 0) /\
  (truthy (getbit msg 50) = false -> getbits msg 51 56 = 0) /\
  (if getbits msg 1 4 =? MRAR_SOURCE_DMEDME then s = 1 else 7 <= s <= 52) /\
  exists wind_speed wind_dir sat asp turbulence humidity,
    f = BDS44_store (getbits msg 1 4) (getbit msg 5) (getbit msg 24)
          (getbit msg 35) (getbit msg 47) (getbit msg 50)
          wind_speed wind_dir sat asp turbulence humidity.

(** The three patterns of the extended squitter bits 1..6 that decodeBDS17
    takes for plausible. *)
Definition ES_bits_plausible (msg : payload) : bool :=
  let bit n := truthy (getbit msg n) in
  (bit 1 && bit 2 && bit 3 && bit 4 && bit 5)
  || (negb (bit 1) && negb (bit 2) && negb (bit 3) && negb (bit 4)
      && negb (bit 5) && negb (bit 6))
  || (negb (bit 1) && negb (bit 2) && bit 3 && bit 4 && bit 5).

(** AC13 with its M bit taken out again. *)
Definition M_bit_round_trip (ac12 : Z) : bool :=
  let ac13 := insert_M_bit ac12 in
  (Z.lor (Z.shiftl (Z.shiftr ac13 7) 6) (Z.land ac13 0x3F) =? ac12)
  && negb (Z.testbit ac13 6) && (ac13 <? 8192).

(** The float comparisons of the decoders on a decoded value give what
    integer comparisons on the raw field give: the QNH of BDS4,0 against
    900 and 1100 hPa, *)
Definition BDS40_qnh_agrees (baro_raw : Z) : bool :=
  Bool.eqb (fge (BDS40_qnh baro_raw) (float_of_int 900)
            && fle (BDS40_qnh baro_raw) (float_of_int 1100))
           ((1000 <=? baro_raw) && (baro_raw <=? 3000)).

(** the roll angle of BDS5,0 against -40 and 40 degrees, *)
Definition BDS50_roll_agrees (sign raw : Z) : bool :=
  let q := raw - 512 * sign in
  Bool.eqb (fge (BDS50_roll sign raw) (float_of_int (-40))
            && flt (BDS50_roll sign raw) (float_of_int 40))
           ((-10240 <=? 45 * q) && (45 * q <? 10240)).

(** its track angle rate against -10 and 10 degrees per second, *)
Definition BDS50_track_rate_agrees (sign raw : Z) : bool :=
  let q := raw - 512 * sign in
  Bool.eqb (fge (double_of_float (BDS50_track_rate sign raw)) (double_of_int (-10))
            && fle (double_of_float (BDS50_track_rate sign raw)) (double_of_int 10))
           ((-320 <=? q) && (q <=? 320)).

(** the Mach number of BDS6,0 against 0.1 and 0.9, *)
Definition BDS60_mach_agrees (raw : Z) : bool :=
  Bool.eqb (fge (double_of_float (BDS60_mach raw)) (literal 1 10)
            && fle (double_of_float (BDS60_mach raw)) (literal 9 10))
           ((25 <=? raw) && (raw <=? 225)).

(** and a track or heading angle lies in the circle. *)
Definition angle_in_circle (sign raw : Z) : bool :=
  fle (float_of_int 0) (angle_of sign raw)
  && flt (angle_of sign raw) (float_of_int 360).

(** ** Sample frames *)

(** The ICAO 6-bit character set as dump1090 tabulates it: codes 1..26 are
    the letters, 32 the space, 48..57 the digits, and code 0 is '@'. The
    properties below hold for every table; this one runs the samples. *)
Definition ais_charset_icao (code : Z) : ascii :=
  ascii_of_N (Z.to_N (if code <? 32 then code + 64 else code)).

(** A stand-in for [tan] in the sample runs, none of which reaches the turn
    rate check of decodeBDS50. *)
Definition tan_unused (x : double) : double := x.

(** dump1090 numbers the MRAR sources 0..4 and reserves 5 and above. *)
Definition MRAR_SOURCE_RESERVED_5 : Z := 5.

(** A frame as the demodulator hands it over: the fields decodeCommB reads,
    and everything it may write zeroed. *)
Definition frame_of (msgtype : Z) (msg : payload) (DR UM correctedbits AC : Z)
  : modesMessage :=
  {| msgtype := msgtype; MB := msg; DR := DR; UM := UM;
     correctedbits := correctedbits; AC := AC;
     commb_format := COMMB_UNKNOWN;
     callsign := EmptyString; callsign_valid := false;
     nav := {| mcp_altitude_valid := false; mcp_altitude := 0;
               fms_altitude_valid := false; fms_altitude := 0;
               qnh_valid := false; qnh := fzero;
               modes_valid := false; modes := 0;
               altitude_source := NAV_ALT_INVALID |};
     roll_valid := false; roll := fzero;
     heading_valid := false; heading := fzero;
     heading_type := HEADING_GROUND_TRACK;
     gs_valid := false; gs := {| v0 := 0; v2 := 0; selected := 0 |};
     track_rate_valid := false; track_rate := fzero;
     tas_valid := false; tas := 0;
     ias_valid := false; ias := 0;
     mach_valid := false; mach := fzero;
     baro_rate_valid := false; baro_rate := 0;
     geom_rate_valid := false; geom_rate := 0;
     mrar_source_valid := false; mrar_source := 0;
     wind_valid := false; wind_speed := fzero; wind_dir := fzero;
     temperature_valid := false; temperature := fzero;
     pressure_valid := false; pressure := fzero;
     turbulence_valid := false; turbulence := 0;
     humidity_valid := false; humidity := fzero |}.

Definition bytes (b0 b1 b2 b3 b4 b5 b6 : byte) : payload :=
  {| mb0 := b0; mb1 := b1; mb2 := b2; mb3 := b3;
     mb4 := b4; mb5 := b5; mb6 := b6 |}.

(** BDS2,0 with the callsign "KLM1023 ". *)
Definition frame_ident : modesMessage :=
  frame_of 21 (bytes x20 x2c xc3 x71 xc3 x2c xe0) 0 0 0 0.

(** BDS2,0 of zeros: eight padding characters. *)
Definition frame_ident_padding : modesMessage :=
  frame_of 21 (bytes x20 x00 x00 x00 x00 x00 x00) 0 0 0 0.

(** The same identification, in a frame with one corrected bit. *)
Definition frame_corrected : modesMessage :=
  frame_of 21 (bytes x20 x2c xc3 x71 xc3 x2c xe0) 0 0 1 0.

(** A payload that reads as BDS5,0 (roll 0, track 0, GS 200 kt, TAS 200 kt,
    no track rate) and as BDS6,0 (heading 0.18 deg, IAS 250 kt, Mach 0.4,
    inertial rate 3200 ft/min), 46 points each. *)
Definition frame_tie : modesMessage :=
  frame_of 21 (bytes x80 x19 xf5 x19 x00 x04 x64) 0 0 0 0.

(** All ones: no decoder accepts it. *)
Definition frame_ones : modesMessage :=
  frame_of 21 (bytes xff xff xff xff xff xff xff) 0 0 0 0.

(** An airborne position, typecode 11, in a DF20 whose AC matches. *)
Definition frame_position : modesMessage :=
  frame_of 20 (bytes x58 x19 xf0 x01 x00 x00 x01) 0 0 0 799.

(** BDS5,0: roll 0, track 0, TAS 200 kt, no track rate, and a ground speed
    of 600 kt in the first, of 200 kt in the second. *)
Definition frame_gs600_tas200 : modesMessage :=
  frame_of 21 (bytes x80 x10 x01 x4b x00 x04 x64) 0 0 0 0.
Definition frame_gs200_tas200 : modesMessage :=
  frame_of 21 (bytes x80 x10 x01 x19 x00 x04 x64) 0 0 0 0.

(** BDS4,0: MCP altitude 12000 ft, bit 48 set with 2 in bits 49..51, bit 54
    and bits 55..56 clear. *)
Definition frame_vertical_intent : modesMessage :=
  frame_of 21 (bytes x97 x70 x00 x00 x00 x01 x40) 0 0 0 0.

(** The same with bit 54 set and 3 in bits 55..56. *)
Definition frame_vertical_intent_fms : modesMessage :=
  frame_of 21 (bytes x97 x70 x00 x00 x00 x01 x47) 0 0 0 0.

(** GICB capabilities 0,7 0,8 0,9 2,0 4,0 5,0 6,0, which also read as an
    MRAR from a DME/DME source with wind 160 kt and SAT 0. *)
Definition frame_gicb : modesMessage :=
  frame_of 21 (bytes x3a x81 x01 x00 x00 x00 x00) 0 0 0 0.

(** MRAR with source tag 1: wind valid with speed 0, SAT valid +10 C. *)
Definition frame_calm : modesMessage :=
  frame_of 21 (bytes x18 x00 x01 x0a x00 x00 x00) 0 0 0 0.

(** MRAR with source tag 1: wind 50 kt, SAT valid and exactly 0 C. *)
Definition frame_zero_sat : modesMessage :=
  frame_of 21 (bytes x18 xc8 x01 x00 x00 x00 x00) 0 0 0 0.

(** BDS4,0 with nothing but a pressure setting of 1013.2 hPa (raw 2132). *)
Definition frame_qnh : modesMessage :=
  frame_of 21 (bytes x00 x00 x00 x30 xa8 x00 x00) 0 0 0 0.

(** The empty response 40 00 00 00 00 00 00. *)
Definition frame_empty_40 : modesMessage :=
  frame_of 21 (bytes x40 x00 x00 x00 x00 x00 x00) 0 0 0 0.

(** The identification frame as a tracker might hand it over a second time,
    with a true airspeed left in it by an earlier decode. *)
Definition frame_ident_stale : modesMessage :=
  set_tas 300 (set_tas_valid true frame_ident).

(** * Properties *)

(** ** The bit accessor *)

Arguments getbit : simpl never.

Lemma getbit_range (msg : payload) (n : Z) : 0 <= getbit msg n <= 1.
Proof. unfold getbit. destruct (Z.testbit _ _); simpl; lia. Qed.

Lemma getbits_from_range (msg : payload) (count : nat) :
  forall n acc, 0 <= acc ->
    acc * 2 ^ Z.of_nat count <= getbits_from msg count n acc
      < (acc + 1) * 2 ^ Z.of_nat count.
Proof.
  induction count as [|k IH]; intros n acc Hacc.
  - simpl. lia.
  - cbn [getbits_from].
    pose proof (getbit_range msg n) as Hb.
    specialize (IH (n + 1) (2 * acc + getbit msg n) ltac:(lia)).
    rewrite Nat2Z.inj_succ, Z.pow_succ_r by lia.
    assert (0 < 2 ^ Z.of_nat k) by (apply Z.pow_pos_nonneg; lia).
    nia.
Qed.

Lemma getbits_range (msg : payload) (lo hi : Z) :
  0 <= getbits msg lo hi < 2 ^ Z.of_nat (Z.to_nat (hi - lo + 1)).
Proof.
  unfold getbits.
  pose proof (getbits_from_range msg (Z.to_nat (hi - lo + 1)) lo 0 ltac:(lia)).
  lia.
Qed.

(** [getbits] over a literal range, written out bit by bit. *)
Ltac expand_getbits :=
  unfold getbits;
  repeat match goal with
  | |- context [Z.to_nat ?z] =>
      let n := eval compute in (Z.to_nat z) in change (Z.to_nat z) with n
  end;
  cbn [getbits_from];
  repeat match goal with
  | |- context [getbit ?m (?a + 1)] =>
      let v := eval compute in (a + 1) in change (a + 1) with v
  end.

Ltac getbit_ranges msg :=
  repeat match goal with
  | |- context [getbit msg ?n] =>
      lazymatch goal with
      | _ : 0 <= getbit msg n <= 1 |- _ => fail
      | _ => pose proof (getbit_range msg n)
      end
  end.

Lemma byte0_bits (msg : payload) : MBi msg 0 = getbits msg 1 8.
Proof. destruct msg as [b0 b1 b2 b3 b4 b5 b6]. destruct b0; reflexivity. Qed.

Lemma getbits_1_4 (msg : payload) :
  getbits msg 1 4
  = 8 * getbit msg 1 + 4 * getbit msg 2 + 2 * getbit msg 3 + getbit msg 4.
Proof. expand_getbits. lia. Qed.

Lemma getbits_1_5 (msg : payload) :
  getbits msg 1 5 = 2 * getbits msg 1 4 + getbit msg 5.
Proof. expand_getbits. lia. Qed.

Lemma getbits_1_8 (msg : payload) :
  getbits msg 1 8
  = 16 * getbits msg 1 4 + 8 * getbit msg 5 + 4 * getbit msg 6
    + 2 * getbit msg 7 + getbit msg 8.
Proof. expand_getbits. lia. Qed.

Lemma getbits_2_13_lower (msg : payload) :
  1024 * getbit msg 3 <= getbits msg 2 13.
Proof. expand_getbits. getbit_ranges msg. lia. Qed.

Lemma truthy_getbit (msg : payload) (n : Z) :
  truthy (getbit msg n) = true <-> getbit msg n = 1.
Proof.
  unfold truthy. pose proof (getbit_range msg n).
  destruct (Z.eqb_spec (getbit msg n) 0); simpl; split; intros; lia || congruence.
Qed.

(** ** Each decoder is well behaved *)

Ltac split_ifs :=
  repeat match goal with
  | |- context [if ?c then _ else _] => destruct c
  | |- context [match ?x with _ => _ end] => destruct x
  end.

(** Case analysis on the conditions of a decoder; the branches that return
    0 are closed on the way. *)
Ltac run_decoder :=
  cbv zeta;
  repeat match goal with
  | |- (forall _ : bool, (0, ?m) = (0, ?m)) \/ _ => left; intros; reflexivity
  | |- context [if ?c then _ else _] => destruct c
  end.

(** The same for a step that yields an [option]. *)
Ltac run_step :=
  cbv zeta;
  repeat match goal with
  | |- None = Some _ -> _ => discriminate
  | |- context [if ?c then _ else _] => destruct c
  end.

Ltac accepted tag_lemma :=
  lazymatch goal with
  | |- (forall store : bool, (?s, if store then ?mm' else _) = _) \/ _ =>
      right; exists s, mm';
      split; [lia | split; [first [reflexivity | apply tag_lemma]
                           | intros [|]; reflexivity]]
  end.

Lemma shaped_weaken d tag bound bound' :
  shaped d tag bound -> bound <= bound' -> shaped d tag bound'.
Proof.
  intros H Hle mm. destruct (H mm) as [H0 | (s & mm' & Hs & Ht & He)].
  - left. exact H0.
  - right. exists s, mm'. repeat split; try assumption. lia.
Qed.

Lemma BDS20_store_tag cs valid mm :
  commb_format (BDS20_store cs valid mm) = COMMB_AIRCRAFT_IDENT.
Proof. unfold BDS20_store. destruct valid; reflexivity. Qed.

Lemma BDS40_store_tag a b c d e f g h i j mm :
  commb_format (BDS40_store a b c d e f g h i j mm) = COMMB_VERTICAL_INTENT.
Proof.
  unfold BDS40_store. cbv zeta.
  destruct (truthy a), (truthy b), (truthy c), (truthy d), (truthy e);
    try reflexivity; split_ifs; reflexivity.
Qed.

Lemma BDS50_store_tag a b c d e f g h i j mm :
  commb_format (BDS50_store a b c d e f g h i j mm) = COMMB_TRACK_TURN.
Proof. unfold BDS50_store. cbv zeta. split_ifs; reflexivity. Qed.

Lemma BDS60_store_tag a b c d e f g h i j mm :
  commb_format (BDS60_store a b c d e f g h i j mm) = COMMB_HEADING_SPEED.
Proof. unfold BDS60_store. cbv zeta. split_ifs; reflexivity. Qed.

Lemma BDS44_store_tag a b c d e f g h i j k l mm :
  commb_format (BDS44_store a b c d e f g h i j k l mm) = COMMB_MRAR.
Proof. unfold BDS44_store. cbv zeta. split_ifs; reflexivity. Qed.

Lemma decodeEmptyResponse_shaped :
  shaped decodeEmptyResponse COMMB_EMPTY_RESPONSE 56.
Proof.
  intros mm. unfold decodeEmptyResponse. cbv zeta.
  destruct (negb _); [left; reflexivity|].
  destruct (existsb _ _); [left; reflexivity|].
  accepted I.
Qed.

Lemma decodeBDS10_shaped : shaped decodeBDS10 COMMB_DATALINK_CAPS 56.
Proof. intros mm. unfold decodeBDS10. run_decoder. accepted I. Qed.

Lemma decodeBDS30_shaped : shaped decodeBDS30 COMMB_ACAS_RA 56.
Proof. intros mm. unfold decodeBDS30. run_decoder. accepted I. Qed.

(** Names the outermost [let] of the goal as a local definition. *)
Ltac name_let :=
  lazymatch goal with
  | |- context G [let x := ?e in @?body x] =>
      let y := fresh x in
      pose (y := e);
      let g := context G [body y] in
      change g; cbv beta
  end.

Ltac le_step v e :=
  assert (v <= e) by (unfold v; split_ifs; lia); clearbody v.

Lemma decodeBDS17_shaped : shaped decodeBDS17 COMMB_GICB_CAPS 10.
Proof.
  intros mm.
  destruct (getbits (MB mm) 25 56 <>? 0) eqn:Hreserved.
  - left. intros store. unfold decodeBDS17. rewrite Hreserved. reflexivity.
  - right.
    exists (fst (decodeBDS17 mm false)), (set_commb_format COMMB_GICB_CAPS mm).
    split; [| split; [reflexivity|]].
    + cbv beta delta [decodeBDS17]. repeat name_let.
      subst msg. rewrite Hreserved. cbn [fst].
      le_step score0 (score + 1). le_step score1 score0. le_step score2 score1.
      le_step score3 score2. le_step score4 score3. le_step score5 score4.
      le_step score6 score5. le_step score7 score6. le_step score8 score7.
      le_step score9 (score8 + 6). le_step score10 (score9 + 3).
      subst score. lia.
    + intros store. unfold decodeBDS17. rewrite Hreserved. reflexivity.
Qed.

Lemma decodeBDS05_shaped : shaped decodeBDS05 COMMB_AIRBORNE_POSITION 100.
Proof. intros mm. unfold decodeBDS05. run_decoder. accepted I. Qed.

Lemma decodeBDS40_shaped : shaped decodeBDS40 COMMB_VERTICAL_INTENT 46.
Proof.
  intros mm. unfold decodeBDS40. run_decoder.
  all: accepted BDS40_store_tag.
Qed.

Lemma decodeBDS60_shaped : shaped decodeBDS60 COMMB_HEADING_SPEED 56.
Proof.
  intros mm. unfold decodeBDS60. run_decoder.
  all: accepted BDS60_store_tag.
Qed.

Lemma BDS44_wind_bound v raw dir s s' ws wd :
  BDS44_wind v raw dir s = Some (s', ws, wd) -> s < s' <= s + 19.
Proof.
  unfold BDS44_wind. cbv zeta.
  destruct (truthy v); [|intros [= <- _ _]; lia].
  destruct (raw =? 0); [intros [= <- _ _]; lia|].
  destruct (fle _ _); [intros [= <- _ _]; lia | discriminate].
Qed.

Lemma BDS44_sat_bound v sign raw s s' sat :
  BDS44_sat v sign raw s = Some (s', sat) -> s < s' <= s + 11.
Proof.
  unfold BDS44_sat. cbv zeta.
  destruct (truthy v); [|intros [= <- _]; lia].
  destruct (feq _ _); [intros [= <- _]; lia|].
  destruct (_ && _); [intros [= <- _]; lia | discriminate].
Qed.

Lemma BDS44_asp_bound v raw s s' asp :
  BDS44_asp v raw s = Some (s', asp) -> s < s' <= s + 12.
Proof.
  unfold BDS44_asp. cbv zeta.
  destruct (truthy v); [|intros [= <- _]; lia].
  destruct (_ && _); [intros [= <- _]; lia | discriminate].
Qed.

Section DecodersBehave.

Variable ais_charset : Z -> ascii.
Variable tan : double -> double.
Variable MRAR_SOURCE_RESERVED : Z.

Lemma callsign_loop_bound (cs : list ascii) :
  forall score valid score' valid',
    callsign_loop cs score valid = Some (score', valid') ->
    score' <= score + 6 * Z.of_nat (List.length cs).
Proof.
  induction cs as [|c rest IH]; intros score valid score' valid' H.
  - injection H as <- _. simpl. lia.
  - cbn [callsign_loop] in H. cbv zeta in H.
    rewrite length_cons, Nat2Z.inj_succ.
    destruct (_ || _) in H; [apply IH in H; lia|].
    destruct (_ =? _) in H; [apply IH in H; lia | discriminate].
Qed.

Lemma decodeBDS20_shaped :
  shaped (decodeBDS20 ais_charset) COMMB_AIRCRAFT_IDENT 56.
Proof.
  intros mm. unfold decodeBDS20. cbv zeta.
  destruct (negb _); [left; reflexivity|].
  destruct (callsign_loop _ _ _) as [[score valid]|] eqn:Hloop;
    [|left; reflexivity].
  apply callsign_loop_bound in Hloop. simpl List.length in Hloop.
  accepted BDS20_store_tag.
Qed.

Lemma decodeBDS50_shaped : shaped (decodeBDS50 tan) COMMB_TRACK_TURN 56.
Proof.
  intros mm. unfold decodeBDS50. run_decoder.
  all: accepted BDS50_store_tag.
Qed.

Lemma BDS44_fields_bound (mm : modesMessage) score locals :
  BDS44_fields MRAR_SOURCE_RESERVED mm = Some (score, locals) ->
  0 < score <= 52.
Proof.
  unfold BDS44_fields. cbv zeta.
  destruct (_ || _); [discriminate|].
  destruct (_ || _); [discriminate|].
  destruct (_ && _); [discriminate|].
  destruct (_ && _); [discriminate|].
  destruct (_ && _); [discriminate|].
  destruct (BDS44_wind _ _ _ _) as [[[s1 ws] wd]|] eqn:Hw; [|discriminate].
  destruct (BDS44_sat _ _ _ _) as [[s2 sat]|] eqn:Hs; [|discriminate].
  destruct (BDS44_asp _ _ _) as [[s3 asp]|] eqn:Ha; [|discriminate].
  apply BDS44_wind_bound in Hw. apply BDS44_sat_bound in Hs.
  apply BDS44_asp_bound in Ha.
  destruct (truthy (getbit _ 47)), (truthy (getbit _ 50));
    intros [= <- _]; lia.
Qed.

Lemma decodeBDS44_shaped :
  shaped (decodeBDS44 MRAR_SOURCE_RESERVED) COMMB_MRAR 52.
Proof.
  intros mm. unfold decodeBDS44. cbv zeta.
  destruct (BDS44_fields _ mm) as [[score [[[[[ws wd] sat] asp] tu] hu]]|] eqn:Hf;
    [|left; reflexivity].
  apply BDS44_fields_bound in Hf.
  destruct (_ && _); accepted BDS44_store_tag.
Qed.

(** Every entry of the table is well behaved, with a score of at most 100
    and, BDS0,5 apart, of at most 56. *)
Lemma call_shaped (fn : CommBDecoderFn) :
  shaped (call ais_charset tan MRAR_SOURCE_RESERVED fn) (tag_of fn)
         (match fn with addr_decodeBDS05 => 100 | _ => 56 end).
Proof.
  destruct fn; cbn [call tag_of].
  - apply decodeEmptyResponse_shaped.
  - apply decodeBDS10_shaped.
  - apply (shaped_weaken _ _ 10); [apply decodeBDS17_shaped | lia].
  - apply decodeBDS20_shaped.
  - apply decodeBDS30_shaped.
  - apply (shaped_weaken _ _ 46); [apply decodeBDS40_shaped | lia].
  - apply (shaped_weaken _ _ 52); [apply decodeBDS44_shaped | lia].
  - apply decodeBDS50_shaped.
  - apply decodeBDS60_shaped.
  - apply decodeBDS05_shaped.
Qed.

End DecodersBehave.

(** ** The loop of decodeCommB *)

Lemma comm_b_decoders_complete (fn : CommBDecoderFn) : In fn comm_b_decoders.
Proof. destruct fn; simpl; tauto. Qed.

Lemma comm_b_decoders_NoDup : NoDup comm_b_decoders.
Proof.
  unfold comm_b_decoders.
  repeat (constructor; [simpl; intuition discriminate|]). constructor.
Qed.

Lemma decoder_eq_dec (fn fn' : CommBDecoderFn) : {fn = fn'} + {fn <> fn'}.
Proof. decide equality. Defined.

Section Classifier.

Variable ais_charset : Z -> ascii.
Variable tan : double -> double.
Variable MRAR_SOURCE_RESERVED : Z.

Local Notation "'Call'" := (call ais_charset tan MRAR_SOURCE_RESERVED).
Local Notation "'Score'" := (score_of ais_charset tan MRAR_SOURCE_RESERVED).
Local Notation "'Run'" := (run ais_charset tan MRAR_SOURCE_RESERVED).
Local Notation "'scan'" := (scan ais_charset tan MRAR_SOURCE_RESERVED).
Local Notation "'summary'" :=
  (summary ais_charset tan MRAR_SOURCE_RESERVED).
Local Notation "'unique_best'" :=
  (unique_best ais_charset tan MRAR_SOURCE_RESERVED).

(** A scoring call leaves the frame as it was. *)
Lemma call_scoring (fn : CommBDecoderFn) (mm : modesMessage) :
  Call fn mm false = (Score fn mm, mm).
Proof.
  unfold score_of.
  destruct (call_shaped ais_charset tan MRAR_SOURCE_RESERVED fn mm)
    as [H0 | (s & mm' & _ & _ & He)].
  - rewrite H0. reflexivity.
  - rewrite He. reflexivity.
Qed.

(** The store call of a decoder that gave a positive score gives the same
    score and tags the frame. *)
Lemma call_store (fn : CommBDecoderFn) (mm : modesMessage) :
  0 < Score fn mm ->
  fst (Call fn mm true) = Score fn mm /\
  commb_format (snd (Call fn mm true)) = tag_of fn.
Proof.
  unfold score_of.
  destruct (call_shaped ais_charset tan MRAR_SOURCE_RESERVED fn mm)
    as [H0 | (s & mm' & _ & Ht & He)].
  - rewrite !H0. simpl. lia.
  - rewrite !He. simpl. auto.
Qed.

Lemma for_each_scan (fns : list CommBDecoderFn) :
  forall b w,
    for_each ais_charset tan MRAR_SOURCE_RESERVED fns b w
    = (scan (frame w) fns b,
       {| frame := frame w; calls := calls w ++ scoring_calls fns |}).
Proof.
  induction fns as [|fn rest IH]; intros b w.
  - simpl. unfold ret. rewrite app_nil_r. destruct w; reflexivity.
  - cbn [for_each]. unfold bind, invoke.
    rewrite call_scoring.
    rewrite IH. cbn [frame calls scan fold_left scoring_calls map].
    rewrite <- app_assoc. reflexivity.
Qed.

Lemma summary_start (mm : modesMessage) : summary mm [] start.
Proof. split; simpl; try discriminate; tauto. Qed.

Lemma summary_consider (mm : modesMessage) seen b fn :
  summary mm seen b -> ~ In fn seen ->
  summary mm (seen ++ [fn]) (consider fn (Score fn mm) b).
Proof.
  intros [Hmax Hnone Hseen Htie Halone] Hnew. unfold consider.
  destruct (Z.gtb_spec (Score fn mm) (bestScore b)) as [Hgt | Hle];
    [| destruct (Z.eqb_spec (Score fn mm) (bestScore b)) as [Heq | Hne]].
  - (* a new best *)
    assert (Hpos : 0 < Score fn mm).
    { destruct (bestDecoder b) as [old|] eqn:Hb.
      - destruct (Hseen old eq_refl) as (_ & _ & ?). lia.
      - rewrite (Hnone eq_refl) in Hgt. lia. }
    split; cbn [bestScore bestDecoder ambiguous].
    + intros fn' [Hin | [<- | []]]%in_app_or; [apply Hmax in Hin|]; lia.
    + discriminate.
    + intros fn' [= <-]. rewrite in_app_iff. simpl. auto.
    + intros fn' _. discriminate.
    + intros fn' [= <-] _ fn'' [Hin | [<- | []]]%in_app_or Hneq;
        [apply Hmax in Hin; lia | congruence].
  - (* a tie with the best so far *)
    split; cbn [bestScore bestDecoder ambiguous].
    + intros fn' [Hin | [<- | []]]%in_app_or; [apply Hmax in Hin|]; lia.
    + exact Hnone.
    + intros fn' Hb. destruct (Hseen fn' Hb) as (? & ? & ?).
      rewrite in_app_iff. auto.
    + intros fn' Hb _. destruct (Hseen fn' Hb) as (Hin & Hs & _).
      exists fn. rewrite in_app_iff. simpl.
      repeat split; [auto | congruence | lia].
    + intros fn' _. discriminate.
  - (* neither *)
    split.
    + intros fn' [Hin | [<- | []]]%in_app_or; [apply Hmax in Hin|]; lia.
    + exact Hnone.
    + intros fn' Hb. destruct (Hseen fn' Hb) as (? & ? & ?).
      rewrite in_app_iff. auto.
    + intros fn' Hb Ha. destruct (Htie fn' Hb Ha) as (fn'' & ? & ? & ?).
      exists fn''. rewrite in_app_iff. auto.
    + intros fn' Hb Ha fn'' [Hin | [<- | []]]%in_app_or Hneq.
      * apply (Halone fn' Hb Ha); assumption.
      * destruct (Hseen fn' Hb) as (_ & Hs & _). lia.
Qed.

Lemma summary_scan (mm : modesMessage) (fns : list CommBDecoderFn) :
  forall seen b,
    NoDup (seen ++ fns) -> summary mm seen b ->
    summary mm (seen ++ fns) (scan mm fns b).
Proof.
  induction fns as [|fn rest IH]; intros seen b Hnd Hsum.
  - rewrite app_nil_r. exact Hsum.
  - cbn [scan fold_left].
    replace (seen ++ fn :: rest) with ((seen ++ [fn]) ++ rest) in *
      by (rewrite <- app_assoc; reflexivity).
    apply IH; [assumption|].
    apply summary_consider; [assumption|].
    rewrite <- app_assoc in Hnd. apply NoDup_remove_2 in Hnd.
    rewrite in_app_iff in Hnd. tauto.
Qed.

Lemma summary_table (mm : modesMessage) :
  summary mm comm_b_decoders (scan mm comm_b_decoders start).
Proof.
  apply (summary_scan mm comm_b_decoders []).
  - exact comm_b_decoders_NoDup.
  - apply summary_start.
Qed.

(** decodeCommB, with the loop summed up by [scan]. *)
Lemma run_unfold (mm : modesMessage) :
  Run mm =
  if skipped mm then
    {| frame := set_commb_format COMMB_NOT_DECODED mm; calls := [] |}
  else
    let b := scan mm comm_b_decoders start in
    match bestDecoder b with
    | Some fn =>
        if truthy (ambiguous b) then
          {| frame := set_commb_format COMMB_AMBIGUOUS mm;
             calls := scoring_calls comm_b_decoders |}
        else
          {| frame := snd (Call fn mm true);
             calls := scoring_calls comm_b_decoders ++ [(fn, true)] |}
    | None =>
        {| frame := set_commb_format COMMB_UNKNOWN mm;
           calls := scoring_calls comm_b_decoders |}
    end.
Proof.
  unfold run, decodeCommB, bind, read, write.
  cbn [frame calls]. fold (skipped mm).
  destruct (skipped mm); [reflexivity|].
  rewrite for_each_scan. cbn [frame calls app].
  fold start. cbv zeta.
  destruct (bestDecoder _) as [fn|]; [|reflexivity].
  destruct (truthy _); [reflexivity|].
  unfold invoke. cbn [frame calls].
  destruct (Call fn mm true). reflexivity.
Qed.

Lemma run_unique_best (mm : modesMessage) (fn : CommBDecoderFn) :
  skipped mm = false -> unique_best mm fn ->
  Run mm = {| frame := snd (Call fn mm true);
              calls := scoring_calls comm_b_decoders ++ [(fn, true)] |}.
Proof.
  intros Hgate [Hpos Halone]. rewrite run_unfold, Hgate. cbv zeta.
  pose proof (best_is_max _ _ _ _ _ _ (summary_table mm) fn
                (comm_b_decoders_complete fn)) as Hle.
  destruct (bestDecoder _) as [fn0|] eqn:Hb.
  - destruct (best_is_seen _ _ _ _ _ _ (summary_table mm) fn0 Hb) as (_ & Hs & _).
    assert (fn0 = fn) as ->.
    { destruct (decoder_eq_dec fn0 fn) as [|Hneq]; [assumption|].
      specialize (Halone fn0 Hneq). lia. }
    destruct (truthy _) eqn:Ha; [|reflexivity].
    destruct (ambiguous_tie _ _ _ _ _ _ (summary_table mm) fn Hb Ha)
      as (fn' & _ & Hneq & Heq).
    specialize (Halone fn' Hneq). lia.
  - rewrite (none_is_zero _ _ _ _ _ _ (summary_table mm) Hb) in Hle. lia.
Qed.

Lemma run_tie (mm : modesMessage) (fn1 fn2 : CommBDecoderFn) :
  skipped mm = false -> fn1 <> fn2 ->
  0 < Score fn1 mm -> Score fn1 mm = Score fn2 mm ->
  (forall fn, Score fn mm <= Score fn1 mm) ->
  Run mm = {| frame := set_commb_format COMMB_AMBIGUOUS mm;
              calls := scoring_calls comm_b_decoders |}.
Proof.
  intros Hgate Hneq Hpos Heq Hmax. rewrite run_unfold, Hgate. cbv zeta.
  pose proof (best_is_max _ _ _ _ _ _ (summary_table mm) fn1
                (comm_b_decoders_complete fn1)) as Hle.
  destruct (bestDecoder _) as [fn0|] eqn:Hb.
  - destruct (best_is_seen _ _ _ _ _ _ (summary_table mm) fn0 Hb) as (_ & Hs & _).
    destruct (truthy _) eqn:Ha; [reflexivity|].
    pose proof (Hmax fn0) as H0.
    pose proof (unambiguous_alone _ _ _ _ _ _ (summary_table mm) fn0 Hb Ha) as Halone.
    destruct (decoder_eq_dec fn1 fn0) as [<- | H1].
    + specialize (Halone fn2 (comm_b_decoders_complete _) ltac:(congruence)).
      lia.
    + specialize (Halone fn1 (comm_b_decoders_complete _) H1). lia.
  - rewrite (none_is_zero _ _ _ _ _ _ (summary_table mm) Hb) in Hle. lia.
Qed.

Lemma run_all_rejected (mm : modesMessage) :
  skipped mm = false -> (forall fn, Score fn mm <= 0) ->
  Run mm = {| frame := set_commb_format COMMB_UNKNOWN mm;
              calls := scoring_calls comm_b_decoders |}.
Proof.
  intros Hgate Hrej. rewrite run_unfold, Hgate. cbv zeta.
  destruct (bestDecoder _) as [fn0|] eqn:Hb; [|reflexivity].
  destruct (best_is_seen _ _ _ _ _ _ (summary_table mm) fn0 Hb) as (_ & Hs & Hpos).
  specialize (Hrej fn0). lia.
Qed.

(** Some score is positive and no decoder is alone at the top: a tie. *)
Lemma run_no_unique_best (mm : modesMessage) :
  skipped mm = false -> (exists fn, 0 < Score fn mm) ->
  (forall fn, ~ unique_best mm fn) ->
  Run mm = {| frame := set_commb_format COMMB_AMBIGUOUS mm;
              calls := scoring_calls comm_b_decoders |}.
Proof.
  intros Hgate [fn Hpos] Hnone. rewrite run_unfold, Hgate. cbv zeta.
  pose proof (best_is_max _ _ _ _ _ _ (summary_table mm) fn
                (comm_b_decoders_complete fn)) as Hle.
  destruct (bestDecoder _) as [fn0|] eqn:Hb.
  - destruct (truthy _) eqn:Ha; [reflexivity|].
    exfalso. apply (Hnone fn0).
    destruct (best_is_seen _ _ _ _ _ _ (summary_table mm) fn0 Hb) as (_ & Hs & Hp).
    split; [lia|].
    intros fn' Hneq.
    apply (unambiguous_alone _ _ _ _ _ _ (summary_table mm) fn0 Hb Ha fn'
             (comm_b_decoders_complete fn') Hneq).
  - rewrite (none_is_zero _ _ _ _ _ _ (summary_table mm) Hb) in Hle. lia.
Qed.

(** The four ways decodeCommB ends. *)
Lemma run_cases (mm : modesMessage) :
  Run mm = {| frame := set_commb_format COMMB_NOT_DECODED mm; calls := [] |}
  \/ Run mm = {| frame := set_commb_format COMMB_UNKNOWN mm;
                 calls := scoring_calls comm_b_decoders |}
  \/ Run mm = {| frame := set_commb_format COMMB_AMBIGUOUS mm;
                 calls := scoring_calls comm_b_decoders |}
  \/ exists fn, unique_best mm fn /\
       Run mm = {| frame := snd (Call fn mm true);
                   calls := scoring_calls comm_b_decoders ++ [(fn, true)] |}.
Proof.
  rewrite run_unfold. destruct (skipped mm); [auto|]. cbv zeta.
  destruct (bestDecoder _) as [fn0|] eqn:Hb; [|auto].
  destruct (truthy _) eqn:Ha; [auto|].
  right; right; right. exists fn0. split; [|reflexivity].
  destruct (best_is_seen _ _ _ _ _ _ (summary_table mm) fn0 Hb) as (_ & Hs & Hpos).
  split; [lia|].
  intros fn' Hneq.
  apply (unambiguous_alone _ _ _ _ _ _ (summary_table mm) fn0 Hb Ha fn'
           (comm_b_decoders_complete fn') Hneq).
Qed.

End Classifier.

(** ** The classifier *)

Section ClassifierClaims.

Variable ais_charset : Z -> ascii.
Variable tan : double -> double.
Variable MRAR_SOURCE_RESERVED : Z.

Local Notation "'Call'" := (call ais_charset tan MRAR_SOURCE_RESERVED).
Local Notation "'Score'" := (score_of ais_charset tan MRAR_SOURCE_RESERVED).
Local Notation "'Run'" := (run ais_charset tan MRAR_SOURCE_RESERVED).
Local Notation "'Unique_best'" :=
  (unique_best ais_charset tan MRAR_SOURCE_RESERVED).

Lemma not_skipped (mm : modesMessage) :
  DR mm = 0 -> UM mm = 0 -> correctedbits mm = 0 -> skipped mm = false.
Proof. unfold skipped. intros -> -> ->. reflexivity. Qed.

(** The gate of decodeCommB is closed exactly when DR or UM is nonzero or a
    bit was corrected. *)
Lemma skipped_iff (mm : modesMessage) :
  skipped mm = true <-> DR mm <> 0 \/ UM mm <> 0 \/ 0 < correctedbits mm.
Proof.
  unfold skipped.
  destruct (Z.eqb_spec (DR mm) 0) as [HDR | HDR],
    (Z.eqb_spec (UM mm) 0) as [HUM | HUM],
    (Z.gtb_spec (correctedbits mm) 0) as [Hcb | Hcb];
    simpl; split; intros Hgate;
    try reflexivity; try discriminate; try lia; auto.
Qed.

(** C1. On a frame with DR = 0, UM = 0 and correctedbits = 0 decodeCommB
    calls every decoder of the table with store = false, in the table's
    order, and then: when one decoder alone has the highest score and that
    score is positive, it calls that decoder once more with store = true,
    and the frame it leaves is the frame that call returns, tagged with the
    decoder's commb_format; when two decoders tie at the highest score and
    it is positive, it makes no further call and sets commb_format to
    AMBIGUOUS; when every score is zero or less, it makes no further call
    and sets commb_format to UNKNOWN. *)
Theorem decodeCommB_picks_unique_best (mm : modesMessage) :
  DR mm = 0 -> UM mm = 0 -> correctedbits mm = 0 ->
  (exists more, calls (Run mm) = scoring_calls comm_b_decoders ++ more) /\
  (forall fn, Unique_best mm fn ->
     calls (Run mm) = scoring_calls comm_b_decoders ++ [(fn, true)] /\
     frame (Run mm) = snd (Call fn mm true) /\
     commb_format (frame (Run mm)) = tag_of fn) /\
  (forall fn1 fn2, fn1 <> fn2 ->
     0 < Score fn1 mm -> Score fn1 mm = Score fn2 mm ->
     (forall fn, Score fn mm <= Score fn1 mm) ->
     calls (Run mm) = scoring_calls comm_b_decoders /\
     frame (Run mm) = set_commb_format COMMB_AMBIGUOUS mm) /\
  ((forall fn, Score fn mm <= 0) ->
     calls (Run mm) = scoring_calls comm_b_decoders /\
     frame (Run mm) = set_commb_format COMMB_UNKNOWN mm).
Proof.
  intros HDR HUM Hcb. pose proof (not_skipped mm HDR HUM Hcb) as Hgate.
  split; [|split; [|split]].
  - destruct (run_cases ais_charset tan MRAR_SOURCE_RESERVED mm)
      as [H | [H | [H | (fn & _ & H)]]]; rewrite H; cbn [calls].
    + rewrite run_unfold, Hgate in H. cbv zeta in H.
      destruct (bestDecoder _); [destruct (truthy _)|]; discriminate H.
    + exists []. rewrite app_nil_r. reflexivity.
    + exists []. rewrite app_nil_r. reflexivity.
    + exists [(fn, true)]. reflexivity.
  - intros fn Hbest.
    rewrite (run_unique_best _ _ _ mm fn Hgate Hbest). cbn [calls frame].
    repeat split. apply call_store. apply Hbest.
  - intros fn1 fn2 Hneq Hpos Heq Hmax.
    rewrite (run_tie _ _ _ mm fn1 fn2 Hgate Hneq Hpos Heq Hmax).
    split; reflexivity.
  - intros Hrej. rewrite (run_all_rejected _ _ _ mm Hgate Hrej).
    split; reflexivity.
Qed.

(** C2. On a frame with DR nonzero, UM nonzero or correctedbits above zero
    decodeCommB calls no decoder, and the frame it leaves is the frame it
    was given with commb_format set to NOT_DECODED: no other member is
    written. *)
Theorem decodeCommB_gate (mm : modesMessage) :
  DR mm <> 0 \/ UM mm <> 0 \/ 0 < correctedbits mm ->
  calls (Run mm) = [] /\
  frame (Run mm) = set_commb_format COMMB_NOT_DECODED mm.
Proof.
  intros Hgate. rewrite run_unfold.
  replace (skipped mm) with true; [split; reflexivity|].
  unfold skipped.
  destruct (Z.eqb_spec (DR mm) 0), (Z.eqb_spec (UM mm) 0),
    (Z.gtb_spec (correctedbits mm) 0); simpl; try reflexivity; lia.
Qed.

(** C6. A call of any decoder of the table with store = false returns the
    frame it was given: commb_format, the callsign, the navigation block,
    the kinematics, the meteorological block and every validity flag are as
    they were. *)
Theorem scoring_call_writes_nothing (fn : CommBDecoderFn) (mm : modesMessage) :
  snd (Call fn mm false) = mm.
Proof. rewrite call_scoring. reflexivity. Qed.

(** C10. decodeCommB assigns commb_format on every call. The frame it
    leaves is the frame it was given with commb_format set to NOT_DECODED,
    to UNKNOWN or to AMBIGUOUS, or it is the frame the store call of the
    winning decoder returns, which carries that decoder's tag; and no
    decoder's tag is one of the first three. Which of the four it is, the
    gate and the scores settle: NOT_DECODED when DR or UM is nonzero or a
    bit was corrected; otherwise, when one decoder alone has the highest
    score and that score is positive, decodeCommB calls that decoder once
    more with store = true on the frame as it was given, that call gives
    the score of the scoring call again and reaches the decoder's
    commb_format assignment, and the frame it returns is the frame
    decodeCommB leaves; AMBIGUOUS when some score is positive and no
    decoder is alone at the top; UNKNOWN when no score is positive. A
    decoder's store call on any frame it gives a positive score returns that
    score and a frame with its tag. *)
Theorem decodeCommB_assigns_commb_format (mm : modesMessage) :
  let gated := DR mm <> 0 \/ UM mm <> 0 \/ 0 < correctedbits mm in
  (frame (Run mm) = set_commb_format COMMB_NOT_DECODED mm \/
   frame (Run mm) = set_commb_format COMMB_UNKNOWN mm \/
   frame (Run mm) = set_commb_format COMMB_AMBIGUOUS mm \/
   exists fn, Unique_best mm fn /\
     frame (Run mm) = snd (Call fn mm true) /\
     commb_format (frame (Run mm)) = tag_of fn) /\
  (forall fn, tag_of fn <> COMMB_NOT_DECODED /\ tag_of fn <> COMMB_UNKNOWN /\
              tag_of fn <> COMMB_AMBIGUOUS) /\
  (gated -> frame (Run mm) = set_commb_format COMMB_NOT_DECODED mm) /\
  (~ gated -> forall fn, Unique_best mm fn ->
     calls (Run mm) = scoring_calls comm_b_decoders ++ [(fn, true)] /\
     frame (Run mm) = snd (Call fn mm true) /\
     fst (Call fn mm true) = Score fn mm /\
     commb_format (frame (Run mm)) = tag_of fn) /\
  (~ gated -> (exists fn, 0 < Score fn mm) ->
     (forall fn, ~ Unique_best mm fn) ->
     frame (Run mm) = set_commb_format COMMB_AMBIGUOUS mm) /\
  (~ gated -> (forall fn, Score fn mm <= 0) ->
     frame (Run mm) = set_commb_format COMMB_UNKNOWN mm) /\
  (forall fn, 0 < Score fn mm ->
     fst (Call fn mm true) = Score fn mm /\
     commb_format (snd (Call fn mm true)) = tag_of fn).
Proof.
  cbv zeta.
  assert (Hopen : ~ (DR mm <> 0 \/ UM mm <> 0 \/ 0 < correctedbits mm) ->
                  skipped mm = false).
  { intros Hn. destruct (skipped mm) eqn:Hs; [|reflexivity].
    apply skipped_iff in Hs. contradiction. }
  split; [|split; [|split; [|split; [|split; [|split]]]]].
  - destruct (run_cases ais_charset tan MRAR_SOURCE_RESERVED mm)
      as [H | [H | [H | (fn & Hbest & H)]]]; rewrite H; cbn [frame]; auto.
    right; right; right. exists fn. repeat split; try apply Hbest.
    apply call_store. apply Hbest.
  - intros fn. destruct fn; cbn [tag_of]; repeat split; discriminate.
  - intros Hgate. apply skipped_iff in Hgate.
    rewrite run_unfold, Hgate. reflexivity.
  - intros Hgate fn Hbest.
    rewrite (run_unique_best _ _ _ mm fn (Hopen Hgate) Hbest).
    cbn [calls frame].
    destruct (call_store ais_charset tan MRAR_SOURCE_RESERVED fn mm)
      as [Hscore Htag]; [apply Hbest|].
    repeat split; assumption.
  - intros Hgate Hpos Hnone.
    rewrite (run_no_unique_best _ _ _ mm (Hopen Hgate) Hpos Hnone).
    reflexivity.
  - intros Hgate Hrej.
    rewrite (run_all_rejected _ _ _ mm (Hopen Hgate) Hrej). reflexivity.
  - intros fn Hpos. apply call_store. exact Hpos.
Qed.

End ClassifierClaims.

(** ** BDS0,5 *)

Ltac z_cases :=
  repeat (cbn [negb andb orb];
    match goal with
    | |- context [?a =? ?b] => destruct (Z.eqb_spec a b)
    | |- context [?a <? ?b] => destruct (Z.ltb_spec a b)
    | |- context [?a <=? ?b] => destruct (Z.leb_spec a b)
    | |- context [?a >? ?b] => destruct (Z.gtb_spec a b)
    end);
  cbn [negb andb orb fst snd].

Lemma decodeBDS05_score (mm : modesMessage) (store : bool) :
  fst (decodeBDS05 mm store) = if BDS05_accepts mm then 100 else 0.
Proof.
  unfold decodeBDS05, BDS05_accepts, insert_M_bit, truthy. cbv zeta.
  z_cases; try reflexivity; lia.
Qed.

Section DecoderClaims.

Variable ais_charset : Z -> ascii.
Variable tan : double -> double.
Variable MRAR_SOURCE_RESERVED : Z.

Local Notation "'Call'" := (call ais_charset tan MRAR_SOURCE_RESERVED).
Local Notation "'Score'" := (score_of ais_charset tan MRAR_SOURCE_RESERVED).
Local Notation "'Run'" := (run ais_charset tan MRAR_SOURCE_RESERVED).
Local Notation "'Unique_best'" :=
  (unique_best ais_charset tan MRAR_SOURCE_RESERVED).

Lemma other_scores_below_80 (fn : CommBDecoderFn) mm store :
  fn <> addr_decodeBDS05 -> fst (Call fn mm store) < 80.
Proof.
  intros Hfn.
  destruct (call_shaped ais_charset tan MRAR_SOURCE_RESERVED fn mm)
    as [H0 | (s & mm' & Hs & _ & He)].
  - rewrite H0. simpl. lia.
  - rewrite He. simpl. destruct fn; try lia. congruence.
Qed.

Lemma BDS05_unique_best (mm : modesMessage) :
  BDS05_accepts mm = true -> Unique_best mm addr_decodeBDS05.
Proof.
  intros Hacc.
  assert (H100 : Score addr_decodeBDS05 mm = 100).
  { unfold score_of. cbn [call]. rewrite decodeBDS05_score, Hacc.
    reflexivity. }
  split; [lia|].
  intros fn Hfn. rewrite H100.
  pose proof (other_scores_below_80 fn mm false Hfn) as H.
  unfold score_of. lia.
Qed.

(** C3. The BDS0,5 decoder returns 100 when msgtype is 20, the typecode in
    bits 1..5 is between 9 and 18, bit 21 is 0, AC12 in bits 9..20 is
    nonzero and, with a zero M bit inserted, equals the frame's AC, and lat
    (bits 23..39) and lon (bits 40..56) are both nonzero; otherwise it
    returns 0. Every other decoder returns less than 80 on every frame. So
    whenever BDS0,5 accepts, it alone has the highest score, and
    decodeCommB, once past its DR/UM/correctedbits gate, classifies the
    frame AIRBORNE_POSITION. *)
Theorem BDS05_dominates :
  (forall mm store,
     fst (decodeBDS05 mm store) = if BDS05_accepts mm then 100 else 0) /\
  (forall fn mm store, fn <> addr_decodeBDS05 -> fst (Call fn mm store) < 80) /\
  (forall mm, BDS05_accepts mm = true -> Unique_best mm addr_decodeBDS05) /\
  (forall mm,
     DR mm = 0 -> UM mm = 0 -> correctedbits mm = 0 ->
     BDS05_accepts mm = true ->
     commb_format (frame (Run mm)) = COMMB_AIRBORNE_POSITION).
Proof.
  split; [exact decodeBDS05_score|].
  split; [exact other_scores_below_80|].
  split; [exact BDS05_unique_best|].
  intros mm HDR HUM Hcb Hacc.
  pose proof (BDS05_unique_best mm Hacc) as Hbest.
  rewrite (run_unique_best _ _ _ mm _ (not_skipped mm HDR HUM Hcb) Hbest).
  cbn [frame]. apply (call_store _ _ _ addr_decodeBDS05). apply Hbest.
Qed.

(** ** BDS2,0 *)

Lemma ident_char_not_padding (c : ascii) :
  is_ident_char c = true -> is_padding c = false.
Proof.
  unfold is_ident_char, is_padding. cbv zeta.
  change (char_code "A") with 65. change (char_code "Z") with 90.
  change (char_code "0") with 48. change (char_code "9") with 57.
  change (char_code " ") with 32. change (char_code "@") with 64.
  generalize (char_code c). intros z. z_cases; try reflexivity; try lia.
  all: discriminate.
Qed.

Lemma callsign_loop_spec (cs : list ascii) :
  forall score valid,
    callsign_loop cs score valid =
    if forallb is_callsign_char cs then
      Some (score + 6 * Z.of_nat (List.length (filter is_ident_char cs)),
            valid && negb (existsb is_padding cs))
    else None.
Proof.
  induction cs as [|c rest IH]; intros score valid.
  - simpl. rewrite andb_true_r. do 2 f_equal. lia.
  - cbn [callsign_loop forallb filter existsb]. cbv zeta.
    unfold is_callsign_char at 1.
    change (_ || _ || (char_code c =? char_code " ")) with (is_ident_char c).
    change (char_code c =? char_code "@") with (is_padding c).
    destruct (is_ident_char c) eqn:Hi.
    + rewrite (ident_char_not_padding c Hi), IH. cbn [orb andb].
      destruct (forallb _ rest); [|reflexivity].
      cbn [List.length]. do 2 f_equal. lia.
    + destruct (is_padding c); cbn [orb andb]; [|reflexivity].
      rewrite IH. destruct (forallb _ rest); [|reflexivity].
      rewrite andb_false_r. reflexivity.
Qed.

(** C9. The BDS2,0 decoder accepts a payload exactly when its first byte is
    0x20 and each of the eight characters that bits 9..56 select in the AIS
    table is an uppercase letter, a digit, a space or '@'; otherwise it
    returns 0 and leaves the frame alone. An accepted payload scores 8 plus
    6 for every character that is a letter, a digit or a space. The store
    pass of an accepted payload tags the frame AIRCRAFT_IDENT; when a
    character is '@' it writes nothing else, so callsign and callsign_valid
    are as they were, and when none is it writes the eight characters and
    sets callsign_valid. *)
Theorem BDS20_identification (mm : modesMessage) :
  let cs := callsign_chars ais_charset (MB mm) in
  let accepted := (MBi (MB mm) 0 =? 0x20) && forallb is_callsign_char cs in
  let mm' := snd (decodeBDS20 ais_charset mm true) in
  (forall store,
     fst (decodeBDS20 ais_charset mm store) =
     if accepted
     then 8 + 6 * Z.of_nat (List.length (filter is_ident_char cs))
     else 0) /\
  (accepted = false ->
     forall store, decodeBDS20 ais_charset mm store = (0, mm)) /\
  (accepted = true -> commb_format mm' = COMMB_AIRCRAFT_IDENT) /\
  (accepted = true -> existsb is_padding cs = true ->
     mm' = set_commb_format COMMB_AIRCRAFT_IDENT mm /\
     callsign mm' = callsign mm /\ callsign_valid mm' = callsign_valid mm) /\
  (accepted = true -> existsb is_padding cs = false ->
     callsign mm' = string_of_list_ascii cs /\ callsign_valid mm' = true).
Proof.
  cbv zeta. unfold decodeBDS20. cbv zeta.
  fold (callsign_chars ais_charset (MB mm)).
  rewrite callsign_loop_spec.
  destruct (Z.eqb_spec (MBi (MB mm) 0) 32) as [H20 | H20]; cbn [negb andb];
    [destruct (forallb _ _)|]; cbn [fst snd andb].
  - unfold BDS20_store. cbv zeta.
    split; [reflexivity|]. split; [discriminate|].
    split; [intros _; destruct (existsb _ _); reflexivity|].
    split; intros _ ->; cbn [negb]; repeat split.
  - split; [reflexivity|]. split; [reflexivity|].
    repeat split; discriminate.
  - split; [reflexivity|]. split; [reflexivity|].
    repeat split; discriminate.
Qed.

End DecoderClaims.

(** ** BDS4,0 *)

(** Case analysis on the conditions of a decoder that is known to have
    returned a positive score. *)
Ltac run_accepted :=
  cbv zeta;
  repeat match goal with
  | |- 0 < fst (0, _) -> _ =>
      let H := fresh in intros H; cbn [fst] in H; lia
  | |- context [if ?c then _ else _] => destruct c
  end.

Lemma decodeBDS40_accepted (mm : modesMessage) :
  0 < fst (decodeBDS40 mm true) ->
  exists mcp_alt fms_alt baro_setting,
    snd (decodeBDS40 mm true)
    = BDS40_store (getbit (MB mm) 1) (getbit (MB mm) 14) (getbit (MB mm) 27)
        (getbit (MB mm) 48) (getbit (MB mm) 54) mcp_alt fms_alt baro_setting
        (getbits (MB mm) 49 51) (getbits (MB mm) 55 56) mm.
Proof.
  unfold decodeBDS40. run_accepted.
  all: intros _; eexists _, _, _; reflexivity.
Qed.

Lemma BDS40_store_altitude_source
  mcp_valid fms_valid baro_valid mode_valid source_valid
  mcp_alt fms_alt baro_setting mode_raw source_raw mm :
  altitude_source
    (nav (BDS40_store mcp_valid fms_valid baro_valid mode_valid source_valid
            mcp_alt fms_alt baro_setting mode_raw source_raw mm))
  = if truthy source_valid then
      match source_raw with
      | 0 => NAV_ALT_UNKNOWN
      | 1 => NAV_ALT_AIRCRAFT
      | 2 => NAV_ALT_MCP
      | 3 => NAV_ALT_FMS
      | _ => NAV_ALT_INVALID
      end
    else NAV_ALT_INVALID.
Proof.
  unfold BDS40_store. cbv zeta.
  destruct (truthy mcp_valid), (truthy fms_valid), (truthy baro_valid),
    (truthy mode_valid), (truthy source_valid); try reflexivity.
  all: split_ifs; reflexivity.
Qed.

Lemma BDS40_store_modes
  mcp_valid fms_valid baro_valid mode_valid source_valid
  mcp_alt fms_alt baro_setting mode_raw source_raw mm :
  truthy mode_valid = true ->
  let n := nav (BDS40_store mcp_valid fms_valid baro_valid mode_valid
                  source_valid mcp_alt fms_alt baro_setting mode_raw
                  source_raw mm) in
  modes_valid n = true /\
  modes n =
  Z.lor (Z.lor (if truthy (Z.land mode_raw 4) then NAV_MODE_VNAV else 0)
               (if truthy (Z.land mode_raw 2) then NAV_MODE_ALT_HOLD else 0))
        (if truthy (Z.land mode_raw 1) then NAV_MODE_APPROACH else 0).
Proof.
  intros Hmode. unfold BDS40_store. cbv zeta. rewrite Hmode.
  destruct (truthy mcp_valid), (truthy fms_valid), (truthy baro_valid),
    (truthy source_valid).
  all: split; [split_ifs; reflexivity|].
  all: generalize (Z.lor
        (Z.lor (if truthy (Z.land mode_raw 4) then NAV_MODE_VNAV else 0)
           (if truthy (Z.land mode_raw 2) then NAV_MODE_ALT_HOLD else 0))
        (if truthy (Z.land mode_raw 1) then NAV_MODE_APPROACH else 0)).
  all: intros z; split_ifs; reflexivity.
Qed.

(** C5, as the code has it. In the BDS4,0 decoder the mode validity flag is
    bit 48 and the mode bitfield is bits 49..51 (three bits, 0..7); the
    target altitude source validity flag is bit 54 and its raw value is
    bits 55..56, which range over 0..3. The store pass of an accepted
    payload maps a valid source of 0, 1, 2, 3 to UNKNOWN, AIRCRAFT, MCP,
    FMS (two bits hold no 4 or more) and a source whose flag is clear to
    INVALID; when the mode flag is set it sets modes_valid and the mode
    flags that bits 49..51 select. *)
Theorem BDS40_source_and_mode_bits (mm : modesMessage) :
  0 < fst (decodeBDS40 mm true) ->
  let n := nav (snd (decodeBDS40 mm true)) in
  altitude_source n = coded_altitude_source (MB mm) /\
  0 <= getbits (MB mm) 55 56 <= 3 /\
  0 <= getbits (MB mm) 49 51 <= 7 /\
  (truthy (getbit (MB mm) 48) = true ->
     modes_valid n = true /\ modes n = coded_modes (MB mm)).
Proof.
  intros Hacc. cbv zeta.
  destruct (decodeBDS40_accepted mm Hacc) as (mcp_alt & fms_alt & baro & ->).
  pose proof (getbits_range (MB mm) 55 56) as Hsource.
  pose proof (getbits_range (MB mm) 49 51) as Hmode.
  change (2 ^ Z.of_nat (Z.to_nat (56 - 55 + 1))) with 4 in Hsource.
  change (2 ^ Z.of_nat (Z.to_nat (51 - 49 + 1))) with 8 in Hmode.
  split; [|split; [lia | split; [lia|]]].
  - rewrite BDS40_store_altitude_source. unfold coded_altitude_source.
    destruct (truthy _); [|reflexivity].
    assert (getbits (MB mm) 55 56 = 0 \/ getbits (MB mm) 55 56 = 1 \/
            getbits (MB mm) 55 56 = 2 \/ getbits (MB mm) 55 56 = 3)
      as [-> | [-> | [-> | ->]]] by lia; reflexivity.
  - intros Hvalid. apply BDS40_store_modes. exact Hvalid.
Qed.

(** ** BDS4,4 *)

Lemma BDS44_fields_valid (R : Z) (mm : modesMessage) score locals :
  BDS44_fields R mm = Some (score, locals) ->
  truthy (getbit (MB mm) 5) = true /\ truthy (getbit (MB mm) 24) = true.
Proof.
  unfold BDS44_fields. cbv zeta.
  destruct (_ || _); [discriminate|].
  destruct (truthy (getbit (MB mm) 5)), (truthy (getbit (MB mm) 24));
    cbn [negb orb]; try discriminate.
  intros _. split; reflexivity.
Qed.

Lemma BDS44_clamp (R : Z) (mm : modesMessage) (store : bool) score locals :
  BDS44_fields R mm = Some (score, locals) ->
  getbits (MB mm) 1 4 = MRAR_SOURCE_DMEDME ->
  truthy (getbit (MB mm) 5) = true ->
  truthy (getbit (MB mm) 24) = true ->
  0 < score ->
  fst (decodeBDS44 R mm store) = 1.
Proof.
  intros Hf Hsrc Hwind Hsat Hpos. unfold decodeBDS44. cbv zeta.
  rewrite Hf. destruct locals as [[[[[ws wd] sat] asp] tu] hu].
  rewrite Hsrc, Hwind, Hsat, Z.eqb_refl.
  replace (score >? 0) with true by (symmetry; apply Z.gtb_lt; lia).
  reflexivity.
Qed.

(** The first payload byte of a DME/DME report with a valid wind: 0x38 to
    0x3F. *)
Section DMEDME.

Variable mm : modesMessage.
Hypothesis Hsource : getbits (MB mm) 1 4 = MRAR_SOURCE_DMEDME.
Hypothesis Hwind : truthy (getbit (MB mm) 5) = true.

Lemma DMEDME_bits :
  getbit (MB mm) 1 = 0 /\ getbit (MB mm) 2 = 0 /\
  getbit (MB mm) 3 = 1 /\ getbit (MB mm) 4 = 1 /\ getbit (MB mm) 5 = 1.
Proof.
  pose proof Hsource as H. rewrite getbits_1_4 in H.
  unfold MRAR_SOURCE_DMEDME in H.
  apply truthy_getbit in Hwind.
  pose proof (getbit_range (MB mm) 1). pose proof (getbit_range (MB mm) 2).
  pose proof (getbit_range (MB mm) 3). pose proof (getbit_range (MB mm) 4).
  lia.
Qed.

Lemma DMEDME_byte0 : 56 <= MBi (MB mm) 0 <= 63.
Proof.
  rewrite byte0_bits, getbits_1_8, Hsource.
  destruct DMEDME_bits as (_ & _ & _ & _ & ->).
  pose proof (getbit_range (MB mm) 6). pose proof (getbit_range (MB mm) 7).
  pose proof (getbit_range (MB mm) 8).
  unfold MRAR_SOURCE_DMEDME. lia.
Qed.

Lemma DMEDME_not_empty store : decodeEmptyResponse mm store = (0, mm).
Proof.
  unfold decodeEmptyResponse. cbv zeta. pose proof DMEDME_byte0.
  replace (_ || _) with false; [reflexivity|].
  symmetry. z_cases; try reflexivity; lia.
Qed.

Lemma DMEDME_not_BDS10 store : decodeBDS10 mm store = (0, mm).
Proof.
  unfold decodeBDS10. cbv zeta. pose proof DMEDME_byte0.
  destruct (Z.eqb_spec (MBi (MB mm) 0) 16); [lia | reflexivity].
Qed.

Lemma DMEDME_not_BDS20 ais_charset store :
  decodeBDS20 ais_charset mm store = (0, mm).
Proof.
  unfold decodeBDS20. cbv zeta. pose proof DMEDME_byte0.
  destruct (Z.eqb_spec (MBi (MB mm) 0) 32); [lia | reflexivity].
Qed.

Lemma DMEDME_not_BDS30 store : decodeBDS30 mm store = (0, mm).
Proof.
  unfold decodeBDS30. cbv zeta. pose proof DMEDME_byte0.
  destruct (Z.eqb_spec (MBi (MB mm) 0) 48); [lia | reflexivity].
Qed.

Lemma DMEDME_not_BDS40 store : decodeBDS40 mm store = (0, mm).
Proof.
  destruct DMEDME_bits as (H1 & _ & H3 & _).
  pose proof (getbits_2_13_lower (MB mm)) as Hraw. rewrite H3 in Hraw.
  unfold decodeBDS40. cbv zeta. rewrite H1.
  destruct (Z.eqb_spec (getbits (MB mm) 2 13) 0); [lia|].
  change (truthy 0) with false. cbn [negb andb].
  destruct (_ && _); reflexivity.
Qed.

Lemma DMEDME_not_BDS50 tan store : decodeBDS50 tan mm store = (0, mm).
Proof.
  destruct DMEDME_bits as (H1 & _).
  unfold decodeBDS50. cbv zeta. rewrite H1. reflexivity.
Qed.

Lemma DMEDME_not_BDS60 store : decodeBDS60 mm store = (0, mm).
Proof.
  destruct DMEDME_bits as (H1 & _).
  unfold decodeBDS60. cbv zeta. rewrite H1. reflexivity.
Qed.

Lemma DMEDME_not_BDS05 store : decodeBDS05 mm store = (0, mm).
Proof.
  unfold decodeBDS05. cbv zeta. rewrite getbits_1_5, Hsource.
  destruct DMEDME_bits as (_ & _ & _ & _ & ->).
  destruct (negb _); reflexivity.
Qed.

End DMEDME.

Section BDS44Claims.

Variable ais_charset : Z -> ascii.
Variable tan : double -> double.
Variable MRAR_SOURCE_RESERVED : Z.

Local Notation "'Call'" := (call ais_charset tan MRAR_SOURCE_RESERVED).
Local Notation "'Score'" := (score_of ais_charset tan MRAR_SOURCE_RESERVED).
Local Notation "'Run'" := (run ais_charset tan MRAR_SOURCE_RESERVED).
Local Notation "'Unique_best'" :=
  (unique_best ais_charset tan MRAR_SOURCE_RESERVED).

Lemma DMEDME_GICB_unique_best (mm : modesMessage) :
  getbits (MB mm) 1 4 = MRAR_SOURCE_DMEDME ->
  0 < Score addr_decodeBDS44 mm ->
  2 <= Score addr_decodeBDS17 mm ->
  Unique_best mm addr_decodeBDS17.
Proof.
  intros Hsrc H44 H17.
  assert (Hfields : exists score locals,
             BDS44_fields MRAR_SOURCE_RESERVED mm = Some (score, locals)).
  { unfold score_of in H44. cbn [call] in H44. unfold decodeBDS44 in H44.
    cbv zeta in H44.
    destruct (BDS44_fields MRAR_SOURCE_RESERVED mm) as [[score locals]|].
    - eauto.
    - cbn [fst] in H44. lia. }
  destruct Hfields as (score & locals & Hfields).
  destruct (BDS44_fields_valid _ _ _ _ Hfields) as [Hwind Hsat].
  pose proof (BDS44_fields_bound _ _ _ _ Hfields) as Hscore.
  split; [lia|].
  intros fn Hfn. unfold score_of at 1.
  destruct fn; cbn [call]; try congruence.
  - rewrite (DMEDME_not_empty mm Hsrc Hwind). cbn [fst]. lia.
  - rewrite (DMEDME_not_BDS10 mm Hsrc Hwind). cbn [fst]. lia.
  - rewrite (DMEDME_not_BDS20 mm Hsrc Hwind). cbn [fst]. lia.
  - rewrite (DMEDME_not_BDS30 mm Hsrc Hwind). cbn [fst]. lia.
  - rewrite (DMEDME_not_BDS40 mm Hsrc Hwind). cbn [fst]. lia.
  - rewrite (BDS44_clamp _ mm false score locals Hfields Hsrc Hwind Hsat)
      by lia.
    lia.
  - rewrite (DMEDME_not_BDS50 mm Hsrc Hwind). cbn [fst]. lia.
  - rewrite (DMEDME_not_BDS60 mm Hsrc Hwind). cbn [fst]. lia.
  - rewrite (DMEDME_not_BDS05 mm Hsrc Hwind). cbn [fst]. lia.
Qed.

(** C7. In the BDS4,4 decoder, when the source tag is DME/DME, the wind and
    SAT validity bits are set and the score computed from the fields is
    positive, the score returned is 1. So when a payload that BDS4,4 accepts
    with a DME/DME source also scores 2 or more as a GICB capability
    report, BDS1,7 alone has the highest score, and decodeCommB, once past
    its DR/UM/correctedbits gate, classifies the frame GICB_CAPS. *)
Theorem BDS44_DMEDME_gives_way_to_GICB :
  (forall mm store score locals,
     BDS44_fields MRAR_SOURCE_RESERVED mm = Some (score, locals) ->
     getbits (MB mm) 1 4 = MRAR_SOURCE_DMEDME ->
     truthy (getbit (MB mm) 5) = true ->
     truthy (getbit (MB mm) 24) = true ->
     0 < score ->
     fst (decodeBDS44 MRAR_SOURCE_RESERVED mm store) = 1) /\
  (forall mm,
     getbits (MB mm) 1 4 = MRAR_SOURCE_DMEDME ->
     0 < Score addr_decodeBDS44 mm ->
     2 <= Score addr_decodeBDS17 mm ->
     Unique_best mm addr_decodeBDS17) /\
  (forall mm,
     DR mm = 0 -> UM mm = 0 -> correctedbits mm = 0 ->
     getbits (MB mm) 1 4 = MRAR_SOURCE_DMEDME ->
     0 < Score addr_decodeBDS44 mm ->
     2 <= Score addr_decodeBDS17 mm ->
     commb_format (frame (Run mm)) = COMMB_GICB_CAPS).
Proof.
  split; [exact (BDS44_clamp MRAR_SOURCE_RESERVED)|].
  split; [exact DMEDME_GICB_unique_best|].
  intros mm HDR HUM Hcb Hsrc H44 H17.
  pose proof (DMEDME_GICB_unique_best mm Hsrc H44 H17) as Hbest.
  rewrite (run_unique_best _ _ _ mm _ (not_skipped mm HDR HUM Hcb) Hbest).
  cbn [frame]. apply (call_store _ _ _ addr_decodeBDS17). apply Hbest.
Qed.

End BDS44Claims.

(** *** Wind and temperature points *)

Lemma below_512 (P : Z -> bool) :
  forallb (fun n => P (Z.of_nat n)) (seq 0 512) = true ->
  forall z, 0 <= z < 512 -> P z = true.
Proof.
  intros Hall z Hz. rewrite forallb_forall in Hall.
  specialize (Hall (Z.to_nat z)). rewrite Z2Nat.id in Hall by lia.
  apply Hall. apply in_seq. lia.
Qed.

(** The float comparison of decodeBDS44 on the wind speed is the integer
    one. *)
Lemma wind_speed_le_250 (raw : Z) :
  0 <= raw < 512 ->
  fle (float_of_int raw) (float_of_int 250) = (raw <=? 250).
Proof.
  intros Hraw. apply Bool.eqb_prop.
  apply (below_512
           (fun z => Bool.eqb (fle (float_of_int z) (float_of_int 250))
                              (z <=? 250))); [|exact Hraw].
  vm_compute. reflexivity.
Qed.

(** Its comparisons with 0, -80 and 60 are those of the temperature in
    quarter degrees, [sat_raw - 512 * sat_sign], with 0, -320 and 240. *)
Lemma sat_of_comparisons (sat_sign sat_raw : Z) :
  0 <= sat_sign <= 1 -> 0 <= sat_raw < 512 ->
  let quarters := sat_raw - 512 * sat_sign in
  feq (sat_of sat_sign sat_raw) (float_of_int 0) = (quarters =? 0) /\
  (fge (sat_of sat_sign sat_raw) (float_of_int (-80))
   && fle (sat_of sat_sign sat_raw) (float_of_int 60))
  = ((-320 <=? quarters) && (quarters <=? 240)).
Proof.
  intros Hsign Hraw. cbv zeta.
  assert (Hagree : sat_comparisons_agree sat_sign sat_raw = true).
  { assert (sat_sign = 0 \/ sat_sign = 1) as [-> | ->] by lia.
    - apply (below_512 (sat_comparisons_agree 0)); [|exact Hraw].
      vm_compute. reflexivity.
    - apply (below_512 (sat_comparisons_agree 1)); [|exact Hraw].
      vm_compute. reflexivity. }
  unfold sat_comparisons_agree in Hagree.
  apply andb_true_iff in Hagree. destruct Hagree as [H0 Hrange].
  apply Bool.eqb_prop in H0, Hrange. split; assumption.
Qed.

Lemma BDS44_wind_points (wind_valid windspeed_raw winddir_raw score : Z) :
  truthy wind_valid = true -> 0 <= windspeed_raw < 512 ->
  option_map (fun r => fst (fst r))
    (BDS44_wind wind_valid windspeed_raw winddir_raw score)
  = option_map (Z.add score) (wind_points windspeed_raw).
Proof.
  intros Hvalid Hraw. unfold BDS44_wind, wind_points. cbv zeta.
  rewrite Hvalid, (wind_speed_le_250 _ Hraw).
  destruct (windspeed_raw =? 0); [reflexivity|].
  destruct (windspeed_raw <=? 250); reflexivity.
Qed.

Lemma BDS44_sat_points (sat_valid sat_sign sat_raw score : Z) :
  truthy sat_valid = true -> 0 <= sat_sign <= 1 -> 0 <= sat_raw < 512 ->
  option_map fst (BDS44_sat sat_valid sat_sign sat_raw score)
  = option_map (Z.add score) (sat_points (sat_raw - 512 * sat_sign)).
Proof.
  intros Hvalid Hsign Hraw. unfold BDS44_sat, sat_points. cbv zeta.
  rewrite Hvalid. fold (sat_of sat_sign sat_raw).
  destruct (sat_of_comparisons sat_sign sat_raw Hsign Hraw) as [-> ->].
  destruct (_ =? 0); [reflexivity|].
  destruct (_ && _); reflexivity.
Qed.

(** A boolean property checked on 0 .. n-1 holds below n. *)
Lemma below (n : nat) (P : Z -> bool) :
  forallb (fun k => P (Z.of_nat k)) (seq 0 n) = true ->
  forall z, 0 <= z < Z.of_nat n -> P z = true.
Proof.
  intros Hall z Hz. rewrite forallb_forall in Hall.
  specialize (Hall (Z.to_nat z)). rewrite Z2Nat.id in Hall by lia.
  apply Hall. apply in_seq. lia.
Qed.

(** The pressure block adds what [asp_points] says. *)
Lemma BDS44_asp_points (asp_valid asp_raw score : Z) :
  0 <= asp_raw < 2048 ->
  option_map fst (BDS44_asp asp_valid asp_raw score)
  = option_map (Z.add score) (asp_points asp_valid asp_raw).
Proof.
  intros Hraw. unfold BDS44_asp, asp_points. cbv zeta.
  destruct (truthy asp_valid); [|reflexivity].
  assert (Hagree : asp_comparisons_agree asp_raw = true).
  { apply (below 2048 asp_comparisons_agree); [|exact Hraw].
    vm_compute. reflexivity. }
  unfold asp_comparisons_agree in Hagree. apply Bool.eqb_prop in Hagree.
  rewrite Hagree. clear Hagree. destruct (_ && _); reflexivity.
Qed.

(** Past the structural vetoes, the score decodeBDS44 computes from the
    fields is the sum of what the wind, the temperature and the other
    fields add, and a veto of any of them is a veto of the whole. *)
Lemma BDS44_fields_points (R : Z) (mm : modesMessage) :
  let msg := MB mm in
  let source := getbits msg 1 4 in
  let wind_speed := getbits msg 6 14 in
  let sat_quarters := getbits msg 26 34 - 512 * getbit msg 25 in
  source <> MRAR_SOURCE_INVALID -> source < R ->
  truthy (getbit msg 5) = true -> truthy (getbit msg 24) = true ->
  (truthy (getbit msg 35) = false -> getbits msg 36 46 = 0) ->
  (truthy (getbit msg 47) = false -> getbits msg 48 49 = 0) ->
  (truthy (getbit msg 50) = false -> getbits msg 51 56 = 0) ->
  option_map fst (BDS44_fields R mm)
  = match wind_points wind_speed, sat_points sat_quarters,
          other_points msg with
    | Some wind, Some sat, Some other => Some (wind + sat + other)
    | _, _, _ => None
    end.
Proof.
  cbv zeta. intros Hsrc0 HsrcR Hwind Hsat Hasp Hturb Hhum.
  pose proof (getbits_range (MB mm) 6 14) as Hws.
  pose proof (getbits_range (MB mm) 26 34) as Hraw.
  pose proof (getbits_range (MB mm) 36 46) as Hpr.
  pose proof (getbit_range (MB mm) 25) as Hsign.
  change (2 ^ Z.of_nat (Z.to_nat (14 - 6 + 1))) with 512 in Hws.
  change (2 ^ Z.of_nat (Z.to_nat (34 - 26 + 1))) with 512 in Hraw.
  change (2 ^ Z.of_nat (Z.to_nat (46 - 36 + 1))) with 2048 in Hpr.
  pose proof (BDS44_wind_points (getbit (MB mm) 5) _
                (getbits (MB mm) 15 23) 0 Hwind Hws) as Hw.
  pose proof (fun s => BDS44_sat_points (getbit (MB mm) 24) _ _ s
                         Hsat Hsign Hraw) as Hs.
  pose proof (fun s => BDS44_asp_points (getbit (MB mm) 35) _ s Hpr) as Ha.
  unfold BDS44_fields, other_points. cbv zeta.
  replace ((getbits (MB mm) 1 4 =? MRAR_SOURCE_INVALID)
           || (getbits (MB mm) 1 4 >=? R)) with false.
  2:{ symmetry. apply orb_false_iff. split.
      - apply Z.eqb_neq. exact Hsrc0.
      - rewrite Z.geb_leb. apply Z.leb_gt. exact HsrcR. }
  rewrite Hwind, Hsat. cbn [negb orb].
  replace (negb (truthy (getbit (MB mm) 35)) && (getbits (MB mm) 36 46 <>? 0))
    with false.
  2:{ destruct (truthy (getbit (MB mm) 35)); [reflexivity|].
      rewrite (Hasp eq_refl). reflexivity. }
  replace (negb (truthy (getbit (MB mm) 47)) && (getbits (MB mm) 48 49 <>? 0))
    with false.
  2:{ destruct (truthy (getbit (MB mm) 47)); [reflexivity|].
      rewrite (Hturb eq_refl). reflexivity. }
  replace (negb (truthy (getbit (MB mm) 50)) && (getbits (MB mm) 51 56 <>? 0))
    with false.
  2:{ destruct (truthy (getbit (MB mm) 50)); [reflexivity|].
      rewrite (Hhum eq_refl). reflexivity. }
  destruct (BDS44_wind _ _ _ _) as [[[s1 ws] wd]|];
    destruct (wind_points _) as [wind|]; try discriminate Hw;
    [|reflexivity].
  cbn [option_map fst] in Hw. injection Hw as ->.
  specialize (Hs (0 + wind)).
  destruct (BDS44_sat _ _ _ _) as [[s2 sat]|];
    destruct (sat_points _) as [satp|]; try discriminate Hs;
    [|reflexivity].
  cbn [option_map fst] in Hs. injection Hs as ->.
  specialize (Ha (0 + wind + satp)).
  destruct (BDS44_asp _ _ _) as [[s3 asp]|];
    destruct (asp_points _ _) as [aspp|]; try discriminate Ha;
    [|reflexivity].
  cbn [option_map fst] in Ha. injection Ha as ->.
  destruct (truthy (getbit (MB mm) 47)), (truthy (getbit (MB mm) 50));
    cbn [option_map fst]; f_equal; lia.
Qed.

(** C8, as the code has it. In the BDS4,4 decoder, for every payload that
    passes the structural vetoes (a source tag that is neither invalid nor
    reserved, wind and temperature both valid, zeros in every other field
    whose status bit is clear), the score computed from the fields is the
    sum of what the wind adds, what the temperature adds and what the
    pressure, turbulence and humidity fields add. A valid wind adds exactly
    2 when its speed is 0 and exactly 19 when its speed is from 1 to 250 kt;
    a valid static air temperature adds exactly 2 when it is exactly 0 C and
    exactly 11 when it is any other value from -80 C to +60 C. The decoder
    returns that sum, or 1 when the source is DME/DME. A valid wind speed
    above 250 kt or a valid temperature outside -80 C .. +60 C vetoes: the
    decoder returns 0 and leaves the frame alone. *)
Theorem BDS44_wind_and_SAT_points (MRAR_SOURCE_RESERVED : Z)
  (mm : modesMessage) (store : bool) :
  let msg := MB mm in
  let source := getbits msg 1 4 in
  let wind_speed := getbits msg 6 14 in
  let sat_quarters := getbits msg 26 34 - 512 * getbit msg 25 in
  source <> MRAR_SOURCE_INVALID -> source < MRAR_SOURCE_RESERVED ->
  truthy (getbit msg 5) = true -> truthy (getbit msg 24) = true ->
  (truthy (getbit msg 35) = false -> getbits msg 36 46 = 0) ->
  (truthy (getbit msg 47) = false -> getbits msg 48 49 = 0) ->
  (truthy (getbit msg 50) = false -> getbits msg 51 56 = 0) ->
  (forall wind sat other,
     wind_points wind_speed = Some wind ->
     sat_points sat_quarters = Some sat ->
     other_points msg = Some other ->
     option_map fst (BDS44_fields MRAR_SOURCE_RESERVED mm)
     = Some (wind + sat + other) /\
     fst (decodeBDS44 MRAR_SOURCE_RESERVED mm store)
     = if source =? MRAR_SOURCE_DMEDME then 1 else wind + sat + other) /\
  (wind_points wind_speed = None \/ sat_points sat_quarters = None ->
   decodeBDS44 MRAR_SOURCE_RESERVED mm store = (0, mm)) /\
  (forall score,
     option_map (fun r => fst (fst r))
       (BDS44_wind (getbit msg 5) wind_speed (getbits msg 15 23) score)
     = option_map (Z.add score) (wind_points wind_speed)) /\
  (forall score,
     option_map fst
       (BDS44_sat (getbit msg 24) (getbit msg 25) (getbits msg 26 34) score)
     = option_map (Z.add score) (sat_points sat_quarters)).
Proof.
  cbv zeta. intros Hsrc0 HsrcR Hwind Hsat Hasp Hturb Hhum.
  pose proof (BDS44_fields_points MRAR_SOURCE_RESERVED mm
                Hsrc0 HsrcR Hwind Hsat Hasp Hturb Hhum) as Hf.
  cbv zeta in Hf.
  pose proof (getbits_range (MB mm) 6 14) as Hws.
  pose proof (getbits_range (MB mm) 26 34) as Hraw.
  pose proof (getbit_range (MB mm) 25) as Hsign.
  change (2 ^ Z.of_nat (Z.to_nat (14 - 6 + 1))) with 512 in Hws.
  change (2 ^ Z.of_nat (Z.to_nat (34 - 26 + 1))) with 512 in Hraw.
  split; [|split; [|split]].
  - intros wind sat other Hw Hs Ho. rewrite Hw, Hs, Ho in Hf.
    split; [exact Hf|].
    assert (Hpos : 0 < wind + sat + other).
    { unfold wind_points in Hw. unfold sat_points in Hs.
      unfold other_points, asp_points in Ho.
      destruct (_ =? 0) in Hw; [|destruct (_ <=? 250) in Hw];
        try discriminate Hw; injection Hw as <-;
      (destruct (_ =? 0) in Hs; [|destruct (_ && _) in Hs];
        try discriminate Hs; injection Hs as <-);
      (destruct (truthy (getbit (MB mm) 35)) in Ho;
        [destruct (_ && _) in Ho|]; try discriminate Ho;
        cbn [option_map] in Ho; injection Ho as <-;
        destruct (truthy (getbit (MB mm) 47)), (truthy (getbit (MB mm) 50));
        lia). }
    unfold decodeBDS44. cbv zeta.
    destruct (BDS44_fields _ mm) as [[score [[[[[ws wd] sat'] asp] tu] hu]]|];
      [|discriminate Hf].
    cbn [option_map fst] in Hf. injection Hf as ->.
    rewrite Hwind, Hsat.
    replace (wind + sat + other >? 0) with true
      by (symmetry; apply Z.gtb_lt; exact Hpos).
    rewrite !andb_true_r.
    destruct (_ =? MRAR_SOURCE_DMEDME); reflexivity.
  - intros Hveto.
    assert (Hnone : BDS44_fields MRAR_SOURCE_RESERVED mm = None).
    { destruct Hveto as [Hv | Hv]; rewrite Hv in Hf.
      - destruct (BDS44_fields _ mm); [discriminate Hf | reflexivity].
      - destruct (wind_points _);
          (destruct (BDS44_fields _ mm); [discriminate Hf | reflexivity]). }
    unfold decodeBDS44. cbv zeta. rewrite Hnone. reflexivity.
  - intros score.
    apply (BDS44_wind_points (getbit (MB mm) 5) _ (getbits (MB mm) 15 23)
             score Hwind Hws).
  - intros score.
    apply (BDS44_sat_points (getbit (MB mm) 24) _ _ score Hsat Hsign Hraw).
Qed.

(** ** BDS5,0 *)

(** C4 fails on the code. decodeBDS50 takes the difference of the two
    validity bits, which is 0 or 1, where the claim has the difference of
    the two speeds: a payload with GS 600 kt and TAS 200 kt scores what the
    same payload with GS 200 kt scores. *)
Theorem BDS50_ignores_GS_TAS_difference (tan : double -> double) :
  v0 (gs (snd (decodeBDS50 tan frame_gs600_tas200 true))) = 600 /\
  tas (snd (decodeBDS50 tan frame_gs600_tas200 true)) = 200 /\
  v0 (gs (snd (decodeBDS50 tan frame_gs200_tas200 true))) = 200 /\
  tas (snd (decodeBDS50 tan frame_gs200_tas200 true)) = 200 /\
  fst (decodeBDS50 tan frame_gs600_tas200 false) = 46 /\
  fst (decodeBDS50 tan frame_gs200_tas200 false) = 46.
Proof. repeat split; vm_compute; reflexivity. Qed.

(** * The properties at the sample frames *)

Lemma sample_unique_best (mm : modesMessage) (fn : CommBDecoderFn) :
  (0 <? score_of ais_charset_icao tan_unused MRAR_SOURCE_RESERVED_5 fn mm) = true ->
  forallb
    (fun fn' =>
       if decoder_eq_dec fn' fn then true
       else score_of ais_charset_icao tan_unused MRAR_SOURCE_RESERVED_5 fn' mm
            <? score_of ais_charset_icao tan_unused MRAR_SOURCE_RESERVED_5 fn mm)
    comm_b_decoders = true ->
  unique_best ais_charset_icao tan_unused MRAR_SOURCE_RESERVED_5 mm fn.
Proof.
  intros Hpos Hall. split; [apply Z.ltb_lt; exact Hpos|].
  intros fn' Hneq. rewrite forallb_forall in Hall.
  specialize (Hall fn' (comm_b_decoders_complete fn')).
  destruct (decoder_eq_dec fn' fn); [contradiction|].
  apply Z.ltb_lt. exact Hall.
Qed.

(** C1 at three frames: an aircraft identification that only BDS2,0 accepts,
    a payload that BDS5,0 and BDS6,0 both give 46, and a payload of ones
    that every decoder rejects. *)
Lemma decodeCommB_picks_unique_best_witness :
  (DR frame_ident = 0 /\ UM frame_ident = 0 /\ correctedbits frame_ident = 0) /\
  commb_format
    (frame (run ais_charset_icao tan_unused MRAR_SOURCE_RESERVED_5 frame_ident))
  = COMMB_AIRCRAFT_IDENT /\
  frame (run ais_charset_icao tan_unused MRAR_SOURCE_RESERVED_5 frame_tie)
  = set_commb_format COMMB_AMBIGUOUS frame_tie /\
  frame (run ais_charset_icao tan_unused MRAR_SOURCE_RESERVED_5 frame_ones)
  = set_commb_format COMMB_UNKNOWN frame_ones.
Proof.
  split; [repeat split|]. split; [|split].
  - destruct (decodeCommB_picks_unique_best ais_charset_icao tan_unused
                MRAR_SOURCE_RESERVED_5 frame_ident eq_refl eq_refl eq_refl)
      as (_ & Hunique & _).
    apply (Hunique addr_decodeBDS20).
    apply sample_unique_best; vm_compute; reflexivity.
  - destruct (decodeCommB_picks_unique_best ais_charset_icao tan_unused
                MRAR_SOURCE_RESERVED_5 frame_tie eq_refl eq_refl eq_refl)
      as (_ & _ & Htie & _).
    apply (Htie addr_decodeBDS50 addr_decodeBDS60).
    + discriminate.
    + vm_compute. reflexivity.
    + vm_compute. reflexivity.
    + intros fn. destruct fn; vm_compute; discriminate.
  - destruct (decodeCommB_picks_unique_best ais_charset_icao tan_unused
                MRAR_SOURCE_RESERVED_5 frame_ones eq_refl eq_refl eq_refl)
      as (_ & _ & _ & Hrejected).
    apply Hrejected.
    intros fn. destruct fn; vm_compute; discriminate.
Defined.

(** C2 at the identification frame with one corrected bit. *)
Lemma decodeCommB_gate_witness :
  0 < correctedbits frame_corrected /\
  calls (run ais_charset_icao tan_unused MRAR_SOURCE_RESERVED_5 frame_corrected)
  = [] /\
  frame (run ais_charset_icao tan_unused MRAR_SOURCE_RESERVED_5 frame_corrected)
  = set_commb_format COMMB_NOT_DECODED frame_corrected.
Proof.
  split; [reflexivity|].
  apply decodeCommB_gate. right; right. reflexivity.
Defined.

(** C3 at an airborne position inside a DF20 with the same altitude code. *)
Lemma BDS05_dominates_witness :
  BDS05_accepts frame_position = true /\
  commb_format
    (frame (run ais_charset_icao tan_unused MRAR_SOURCE_RESERVED_5
              frame_position))
  = COMMB_AIRBORNE_POSITION.
Proof.
  split; [vm_compute; reflexivity|].
  destruct (BDS05_dominates ais_charset_icao tan_unused MRAR_SOURCE_RESERVED_5)
    as (_ & _ & _ & Hclassified).
  apply (Hclassified frame_position);
    first [reflexivity | vm_compute; reflexivity].
Defined.

(** C5 as the specification states it fails at a payload with bit 48 set,
    2 in bits 49..51 and bit 54 clear: read that way the source is MCP,
    while decodeBDS40 accepts the payload (20 points) and stores INVALID. *)
Lemma BDS40_source_is_not_bit_48 :
  fst (decodeBDS40 frame_vertical_intent true) = 20 /\
  claimed_altitude_source (MB frame_vertical_intent) = NAV_ALT_MCP /\
  altitude_source (nav (snd (decodeBDS40 frame_vertical_intent true)))
  = NAV_ALT_INVALID.
Proof. repeat split; vm_compute; reflexivity. Qed.

(** C5 as the code has it, at a payload with bit 54 set and 3 in bits
    55..56. *)
Lemma BDS40_source_and_mode_bits_witness :
  0 < fst (decodeBDS40 frame_vertical_intent_fms true) /\
  altitude_source (nav (snd (decodeBDS40 frame_vertical_intent_fms true)))
  = NAV_ALT_FMS /\
  modes (nav (snd (decodeBDS40 frame_vertical_intent_fms true)))
  = NAV_MODE_ALT_HOLD.
Proof.
  assert (Haccepted : 0 < fst (decodeBDS40 frame_vertical_intent_fms true))
    by (vm_compute; reflexivity).
  split; [exact Haccepted|].
  destruct (BDS40_source_and_mode_bits frame_vertical_intent_fms Haccepted)
    as (Hsource & _ & _ & Hmodes).
  split.
  - rewrite Hsource. vm_compute. reflexivity.
  - destruct Hmodes as [_ Hmodes]; [vm_compute; reflexivity|].
    rewrite Hmodes. vm_compute. reflexivity.
Defined.

(** C7 at a GICB capability report whose first bits read as a DME/DME
    source with a valid wind. *)
Lemma BDS44_DMEDME_gives_way_to_GICB_witness :
  getbits (MB frame_gicb) 1 4 = MRAR_SOURCE_DMEDME /\
  fst (decodeBDS44 MRAR_SOURCE_RESERVED_5 frame_gicb false) = 1 /\
  score_of ais_charset_icao tan_unused MRAR_SOURCE_RESERVED_5
    addr_decodeBDS17 frame_gicb = 7 /\
  commb_format
    (frame (run ais_charset_icao tan_unused MRAR_SOURCE_RESERVED_5 frame_gicb))
  = COMMB_GICB_CAPS.
Proof.
  destruct (BDS44_DMEDME_gives_way_to_GICB ais_charset_icao tan_unused
              MRAR_SOURCE_RESERVED_5) as (Hclamp & _ & Hgicb).
  split; [vm_compute; reflexivity|]. split; [|split].
  - eapply (Hclamp frame_gicb false 24);
      first [vm_compute; reflexivity | reflexivity].
  - vm_compute. reflexivity.
  - apply (Hgicb frame_gicb);
      first [reflexivity | vm_compute; reflexivity | vm_compute; discriminate].
Defined.

(** C8 as the specification states it fails at a report with a valid wind
    of 0 kt: the wind adds 2, not 19, and the report scores 16; and at a
    report with a valid temperature of exactly 0 C, which adds 2, not 11. *)
Lemma BDS44_calm_wind_adds_2 :
  (truthy (getbit (MB frame_calm) 5) = true /\
   getbits (MB frame_calm) 6 14 = 0 /\
   option_map (fun r => fst (fst r))
     (BDS44_wind (getbit (MB frame_calm) 5) (getbits (MB frame_calm) 6 14)
        (getbits (MB frame_calm) 15 23) 0) = Some 2 /\
   fst (decodeBDS44 MRAR_SOURCE_RESERVED_5 frame_calm false) = 16) /\
  (truthy (getbit (MB frame_zero_sat) 24) = true /\
   getbits (MB frame_zero_sat) 26 34 = 0 /\
   option_map fst
     (BDS44_sat (getbit (MB frame_zero_sat) 24) (getbit (MB frame_zero_sat) 25)
        (getbits (MB frame_zero_sat) 26 34) 0) = Some 2).
Proof. repeat split; vm_compute; reflexivity. Qed.

(** C8 as the code has it, at a report from source 1 with a wind of 50 kt,
    a temperature of exactly 0 C and no other field: 19 for the wind, 2 for
    the temperature and 3 for the three fields that are not valid, 24 in
    all. *)
Lemma BDS44_wind_and_SAT_points_witness :
  (getbits (MB frame_zero_sat) 1 4 = 1 /\
   truthy (getbit (MB frame_zero_sat) 5) = true /\
   truthy (getbit (MB frame_zero_sat) 24) = true) /\
  getbits (MB frame_zero_sat) 6 14 = 50 /\
  getbits (MB frame_zero_sat) 26 34 - 512 * getbit (MB frame_zero_sat) 25 = 0 /\
  other_points (MB frame_zero_sat) = Some 3 /\
  fst (decodeBDS44 MRAR_SOURCE_RESERVED_5 frame_zero_sat false) = 19 + 2 + 3.
Proof.
  split; [repeat split; vm_compute; reflexivity|].
  split; [vm_compute; reflexivity|].
  split; [vm_compute; reflexivity|].
  split; [vm_compute; reflexivity|].
  assert (Hpoints :
    forall wind sat other,
      wind_points (getbits (MB frame_zero_sat) 6 14) = Some wind ->
      sat_points (getbits (MB frame_zero_sat) 26 34
                  - 512 * getbit (MB frame_zero_sat) 25) = Some sat ->
      other_points (MB frame_zero_sat) = Some other ->
      fst (decodeBDS44 MRAR_SOURCE_RESERVED_5 frame_zero_sat false)
      = wind + sat + other).
  { intros wind sat other Hw Hs Ho.
    apply (BDS44_wind_and_SAT_points MRAR_SOURCE_RESERVED_5 frame_zero_sat false);
      first [ exact Hw | exact Hs | exact Ho
            | vm_compute; reflexivity | vm_compute; discriminate ]. }
  apply Hpoints; vm_compute; reflexivity.
Defined.

(** C9 at a BDS2,0 payload of zeros: eight '@', 8 points, classified, and
    no callsign. *)
Lemma BDS20_identification_witness :
  fst (decodeBDS20 ais_charset_icao frame_ident_padding false) = 8 /\
  snd (decodeBDS20 ais_charset_icao frame_ident_padding true)
  = set_commb_format COMMB_AIRCRAFT_IDENT frame_ident_padding /\
  callsign_valid (snd (decodeBDS20 ais_charset_icao frame_ident_padding true))
  = false.
Proof.
  destruct (BDS20_identification ais_charset_icao frame_ident_padding)
    as (Hscore & _ & _ & Hpadding & _).
  split; [rewrite Hscore; vm_compute; reflexivity|].
  destruct Hpadding as (Hframe & _ & Hvalid);
    [vm_compute; reflexivity | vm_compute; reflexivity |].
  split; [exact Hframe | rewrite Hvalid; reflexivity].
Defined.

(** C10 at the identification frame, where BDS2,0 alone has the highest
    score: the frame decodeCommB leaves is the one the store call of BDS2,0
    returns, that call scores 56 again, and the frame is tagged
    AIRCRAFT_IDENT and carries the callsign. *)
Lemma decodeCommB_assigns_commb_format_witness :
  ~ (DR frame_ident <> 0 \/ UM frame_ident <> 0 \/ 0 < correctedbits frame_ident) /\
  unique_best ais_charset_icao tan_unused MRAR_SOURCE_RESERVED_5
    frame_ident addr_decodeBDS20 /\
  calls (run ais_charset_icao tan_unused MRAR_SOURCE_RESERVED_5 frame_ident)
  = scoring_calls comm_b_decoders ++ [(addr_decodeBDS20, true)] /\
  frame (run ais_charset_icao tan_unused MRAR_SOURCE_RESERVED_5 frame_ident)
  = snd (decodeBDS20 ais_charset_icao frame_ident true) /\
  fst (decodeBDS20 ais_charset_icao frame_ident true) = 56 /\
  commb_format
    (frame (run ais_charset_icao tan_unused MRAR_SOURCE_RESERVED_5 frame_ident))
  = COMMB_AIRCRAFT_IDENT /\
  callsign
    (frame (run ais_charset_icao tan_unused MRAR_SOURCE_RESERVED_5 frame_ident))
  = "KLM1023 "%string.
Proof.
  assert (Hopen : ~ (DR frame_ident <> 0 \/ UM frame_ident <> 0
                     \/ 0 < correctedbits frame_ident)).
  { intros [H | [H | H]]; [apply H; reflexivity | apply H; reflexivity
                           | discriminate H]. }
  assert (Hbest : unique_best ais_charset_icao tan_unused MRAR_SOURCE_RESERVED_5
                    frame_ident addr_decodeBDS20)
    by (apply sample_unique_best; vm_compute; reflexivity).
  destruct (decodeCommB_assigns_commb_format ais_charset_icao tan_unused
              MRAR_SOURCE_RESERVED_5 frame_ident)
    as (_ & _ & _ & Hunique & _).
  destruct (Hunique Hopen addr_decodeBDS20 Hbest)
    as (Hcalls & Hframe & Hscore & Htag).
  split; [exact Hopen|]. split; [exact Hbest|].
  split; [exact Hcalls|]. split; [exact Hframe|].
  split; [|split; [exact Htag|]].
  - cbn [call] in Hscore. rewrite Hscore. vm_compute. reflexivity.
  - rewrite Hframe. vm_compute. reflexivity.
Defined.

(** * Further properties of the classifier and of the decoders *)

(** ** Case analysis on two frames with the same inputs *)

Ltac path_step :=
  first [ progress cbn [negb andb orb] |
  match goal with
  | |- agree _ _ _ (0, _) (0, _) => left; split; reflexivity
  | |- context [?a =? ?b] => destruct (Z.eqb_spec a b)
  | |- context [?a <? ?b] => destruct (Z.ltb_spec a b)
  | |- context [?a <=? ?b] => destruct (Z.leb_spec a b)
  | |- context [?a >? ?b] => destruct (Z.gtb_spec a b)
  | |- context [if ?c then _ else _] => destruct c eqn:?
  end ].

Ltac accept :=
  lazymatch goal with
  | |- agree _ _ _ (?s, ?F ?m) _ =>
      right; exists s, F; split; [|split; reflexivity]
  end.

Ltac use_equations :=
  repeat match goal with
  | H : truthy (getbit ?m ?n) = _ |- context [truthy (getbit ?m ?n)] =>
      rewrite H
  end.

Ltac same_hyp :=
  match goal with H : ?A |- ?B => constr_eq A B; exact H end.

Ltac close_fact :=
  first [ same_hyp
        | lazymatch goal with
          | |- true = true => reflexivity
          | |- false = false => reflexivity
          | |- _ <= _ <= _ => lia
          | |- _ <= _ => lia
          | |- _ < _ => lia
          | |- @eq Z _ (if ?a >? ?b then _ else _) =>
              destruct (Z.gtb_spec a b); lia
          | |- @eq Z _ _ => lia
          | |- _ \/ _ => lia
          | |- truthy ?x = false =>
              match goal with
              | H : negb (truthy x) = true |- _ =>
                  apply negb_true_iff; exact H
              end
          | |- true = false -> _ => discriminate
          | |- false = true -> _ => discriminate
          | |- _ = _ -> _ => intros _; first [same_hyp | lia]
          | |- @eq (modesMessage -> modesMessage) _ _ => reflexivity
          end
        | exfalso; lia ].

(** ** The store blocks *)

Lemma inputs_MB mm mm2 : inputs mm2 = inputs mm -> MB mm2 = MB mm.
Proof. unfold inputs. congruence. Qed.

Lemma inputs_set_commb_format tag m :
  inputs (set_commb_format tag m) = inputs m.
Proof. destruct m. reflexivity. Qed.

Lemma set_commb_format_twice tag tag' m :
  set_commb_format tag (set_commb_format tag' m) = set_commb_format tag m.
Proof. destruct m. reflexivity. Qed.

Lemma set_commb_format_writer tag : writer (set_commb_format tag).
Proof.
  split; intros m.
  - apply inputs_set_commb_format.
  - apply set_commb_format_twice.
Qed.

(** The store blocks write decoded members only, and what they write does
    not depend on what the frame held. *)
Ltac store_flags :=
  repeat match goal with
  | |- context [if truthy ?a then _ else _] => destruct (truthy a)
  end.

Lemma BDS20_store_writer cs valid : writer (BDS20_store cs valid).
Proof.
  split; intros m; destruct m; cbv beta delta [BDS20_store];
    destruct valid; vm_compute; reflexivity.
Qed.

Lemma BDS40_store_writer a b c d e f g h i j :
  writer (BDS40_store a b c d e f g h i j).
Proof.
  split; intros m; destruct m.
  - cbv beta delta [BDS40_store]. store_flags; split_ifs; reflexivity.
  - destruct a as [|a|a], b as [|b|b], c as [|c|c], d as [|d|d], e as [|e|e];
      try (destruct j as [|[[?|?|]|[?|?|]|]|?]);
      vm_compute; reflexivity.
Qed.

Lemma BDS50_store_writer a b c d e f g h i j :
  writer (BDS50_store a b c d e f g h i j).
Proof.
  split; intros m; destruct m; cbv beta delta [BDS50_store];
    store_flags; vm_compute; reflexivity.
Qed.

Lemma BDS60_store_writer a b c d e f g h i j :
  writer (BDS60_store a b c d e f g h i j).
Proof.
  split; intros m; destruct m; cbv beta delta [BDS60_store];
    store_flags; vm_compute; reflexivity.
Qed.

Lemma BDS44_store_writer a b c d e f g h i j k l :
  writer (BDS44_store a b c d e f g h i j k l).
Proof.
  split; intros m; destruct m; cbv beta delta [BDS44_store];
    store_flags; vm_compute; reflexivity.
Qed.

Lemma decodeBDS40_agree (mm mm2 : modesMessage) :
  inputs mm2 = inputs mm ->
  agree mm mm2 (BDS40_accepted (MB mm))
    (decodeBDS40 mm true) (decodeBDS40 mm2 true).
Proof.
  intros Hin. assert (HMB : MB mm2 = MB mm) by (unfold inputs in Hin; congruence).
  unfold decodeBDS40. rewrite HMB. cbv zeta.
  destruct (truthy (getbit (MB mm) 1)) eqn:H1,
           (truthy (getbit (MB mm) 14)) eqn:H14,
           (truthy (getbit (MB mm) 27)) eqn:H27,
           (truthy (getbit (MB mm) 48)) eqn:H48,
           (truthy (getbit (MB mm) 54)) eqn:H54.
  all: repeat path_step.
  all: accept.
  all: unfold BDS40_accepted, BDS40_qnh; cbv zeta; use_equations.
  all: cbn [negb andb orb].
  all: repeat lazymatch goal with |- _ /\ _ => split end.
  all: close_fact.
Qed.

Section S.
Variable tan : double -> double.

Lemma decodeBDS50_agree (mm mm2 : modesMessage) :
  inputs mm2 = inputs mm ->
  agree mm mm2 (BDS50_accepted (MB mm))
    (decodeBDS50 tan mm true) (decodeBDS50 tan mm2 true).
Proof.
  intros Hin. assert (HMB : MB mm2 = MB mm) by (unfold inputs in Hin; congruence).
  pose proof (getbit_range (MB mm) 24). pose proof (getbit_range (MB mm) 46).
  unfold decodeBDS50. rewrite HMB. cbv zeta.
  destruct (truthy (getbit (MB mm) 1)) eqn:H1,
           (truthy (getbit (MB mm) 12)) eqn:H12,
           (truthy (getbit (MB mm) 24)) eqn:H24,
           (truthy (getbit (MB mm) 35)) eqn:H35,
           (truthy (getbit (MB mm) 46)) eqn:H46.
  all: repeat path_step.
  all: accept.
  all: unfold BDS50_accepted, BDS50_roll, BDS50_track_rate, angle_of; cbv zeta.
  all: use_equations.
  all: cbn [negb andb orb].
  all: repeat lazymatch goal with |- _ /\ _ => split end.
  all: close_fact.
Qed.

Lemma decodeBDS60_agree (mm mm2 : modesMessage) :
  inputs mm2 = inputs mm ->
  agree mm mm2 (BDS60_accepted (MB mm))
    (decodeBDS60 mm true) (decodeBDS60 mm2 true).
Proof.
  intros Hin. assert (HMB : MB mm2 = MB mm) by (unfold inputs in Hin; congruence).
  unfold decodeBDS60. rewrite HMB. cbv zeta.
  destruct (truthy (getbit (MB mm) 1)) eqn:H1,
           (truthy (getbit (MB mm) 13)) eqn:H13,
           (truthy (getbit (MB mm) 24)) eqn:H24,
           (truthy (getbit (MB mm) 35)) eqn:H35,
           (truthy (getbit (MB mm) 46)) eqn:H46.
  all: repeat path_step.
  all: accept.
  all: unfold BDS60_accepted, BDS60_mach, BDS60_rate, angle_of; cbv zeta.
  all: use_equations.
  all: cbn [negb andb orb].
  all: repeat lazymatch goal with |- _ /\ _ => split end.
  all: close_fact.
Qed.
End S.

Lemma agree_weaken mm mm2 (P Q : Z -> (modesMessage -> modesMessage) -> Prop) r r2 :
  (forall s f, P s f -> Q s f) -> agree mm mm2 P r r2 -> agree mm mm2 Q r r2.
Proof.
  intros HPQ [H0 | (s & f & HP & H)]; [left; exact H0|].
  right. exists s, f. split; [apply HPQ; exact HP | exact H].
Qed.

Lemma decodeEmptyResponse_agree (mm mm2 : modesMessage) :
  inputs mm2 = inputs mm ->
  agree mm mm2
    (fun s f => s = 56 /\ f = set_commb_format COMMB_EMPTY_RESPONSE)
    (decodeEmptyResponse mm true) (decodeEmptyResponse mm2 true).
Proof.
  intros Hin. apply inputs_MB in Hin.
  unfold decodeEmptyResponse. rewrite Hin. cbv zeta.
  destruct (negb _); [left; split; reflexivity|].
  destruct (existsb _ _); [left; split; reflexivity|].
  right. eexists _, _. split; [split; reflexivity|]. split; reflexivity.
Qed.

Lemma decodeBDS10_agree (mm mm2 : modesMessage) :
  inputs mm2 = inputs mm ->
  agree mm mm2
    (fun s f => s = 56 /\ f = set_commb_format COMMB_DATALINK_CAPS)
    (decodeBDS10 mm true) (decodeBDS10 mm2 true).
Proof.
  intros Hin. apply inputs_MB in Hin.
  unfold decodeBDS10. rewrite Hin. cbv zeta.
  destruct (negb _); [left; split; reflexivity|].
  destruct (negb _); [left; split; reflexivity|].
  right. eexists _, _. split; [split; reflexivity|]. split; reflexivity.
Qed.

Lemma decodeBDS30_agree (mm mm2 : modesMessage) :
  inputs mm2 = inputs mm ->
  agree mm mm2
    (fun s f => s = 56 /\ f = set_commb_format COMMB_ACAS_RA)
    (decodeBDS30 mm true) (decodeBDS30 mm2 true).
Proof.
  intros Hin. apply inputs_MB in Hin.
  unfold decodeBDS30. rewrite Hin. cbv zeta.
  destruct (negb _); [left; split; reflexivity|].
  right. eexists _, _. split; [split; reflexivity|]. split; reflexivity.
Qed.

Lemma decodeBDS05_agree (mm mm2 : modesMessage) :
  inputs mm2 = inputs mm ->
  agree mm mm2
    (fun s f => s = 100 /\ f = set_commb_format COMMB_AIRBORNE_POSITION)
    (decodeBDS05 mm true) (decodeBDS05 mm2 true).
Proof.
  intros Hin.
  assert (HMB : MB mm2 = MB mm) by (unfold inputs in Hin; congruence).
  assert (Hmt : msgtype mm2 = msgtype mm) by (unfold inputs in Hin; congruence).
  assert (HAC : AC mm2 = AC mm) by (unfold inputs in Hin; congruence).
  unfold decodeBDS05. rewrite HMB, Hmt, HAC. cbv zeta.
  repeat match goal with
  | |- agree _ _ _ (0, _) (0, _) => left; split; reflexivity
  | |- context [if ?c then _ else _] => destruct c
  end.
  right. eexists _, _. split; [split; reflexivity|]. split; reflexivity.
Qed.

(** The score of decodeBDS17 on a payload whose reserved bits are zero. *)
Ltac range_step v lo hi :=
  assert (lo <= v <= hi) by (unfold v; split_ifs; lia); clearbody v.

Lemma decodeBDS17_score_range (mm : modesMessage) (store : bool) :
  -34 <= fst (decodeBDS17 mm store) <= 10.
Proof.
  enough (H : forall s, s = fst (decodeBDS17 mm store) -> -34 <= s <= 10)
    by (apply H; reflexivity).
  intros s.
  destruct (getbits (MB mm) 25 56 <>? 0) eqn:Hreserved.
  - unfold decodeBDS17. rewrite Hreserved. cbv iota. cbn [fst]. lia.
  - cbv beta delta [decodeBDS17]. repeat name_let.
    subst msg. rewrite Hreserved. cbv iota. cbn [fst].
    range_step score0 (score - 2) (score + 1).
    range_step score1 (score0 - 2) score0.
    range_step score2 (score1 - 2) score1.
    range_step score3 (score2 - 2) score2.
    range_step score4 (score3 - 1) score3.
    range_step score5 (score4 - 1) score4.
    range_step score6 (score5 - 2) score5.
    range_step score7 (score6 - 2) score6.
    range_step score8 (score7 - 2) score7.
    range_step score9 (score8 - 12) (score8 + 6).
    range_step score10 (score9 - 6) (score9 + 3).
    subst score. lia.
Qed.

Lemma decodeBDS17_agree (mm mm2 : modesMessage) :
  inputs mm2 = inputs mm ->
  agree mm mm2
    (fun s f => -34 <= s <= 10 /\ getbits (MB mm) 25 56 = 0 /\
                f = set_commb_format COMMB_GICB_CAPS)
    (decodeBDS17 mm true) (decodeBDS17 mm2 true).
Proof.
  intros Hin. apply inputs_MB in Hin.
  destruct (getbits (MB mm) 25 56 <>? 0) eqn:Hreserved.
  - left. unfold decodeBDS17. rewrite Hin, Hreserved. split; reflexivity.
  - right.
    exists (fst (decodeBDS17 mm true)), (set_commb_format COMMB_GICB_CAPS).
    split; [split; [apply decodeBDS17_score_range | split; [|reflexivity]]|].
    + apply negb_false_iff, Z.eqb_eq in Hreserved. exact Hreserved.
    + split.
      * unfold decodeBDS17. rewrite Hreserved. reflexivity.
      * unfold decodeBDS17. rewrite Hin, Hreserved. reflexivity.
Qed.

Section WithTable.

Variable ais_charset : Z -> ascii.
Variable tan : double -> double.
Variable MRAR_SOURCE_RESERVED : Z.

Lemma decodeBDS20_agree (mm mm2 : modesMessage) :
  inputs mm2 = inputs mm ->
  agree mm mm2
    (fun s f => 8 <= s <= 56 /\
                exists valid,
                  f = BDS20_store (callsign_chars ais_charset (MB mm)) valid)
    (decodeBDS20 ais_charset mm true) (decodeBDS20 ais_charset mm2 true).
Proof.
  intros Hin. apply inputs_MB in Hin.
  unfold decodeBDS20. rewrite Hin. cbv zeta.
  fold (callsign_chars ais_charset (MB mm)).
  destruct (negb _); [left; split; reflexivity|].
  rewrite callsign_loop_spec.
  destruct (forallb _ _); [|left; split; reflexivity].
  right. eexists _, _. split; [|split; reflexivity].
  split; [|eexists; reflexivity].
  pose proof (filter_length_le is_ident_char
                (callsign_chars ais_charset (MB mm))) as Hlen.
  change (List.length (callsign_chars ais_charset (MB mm))) with 8%nat in Hlen.
  lia.
Qed.

Lemma BDS44_fields_inputs (mm mm2 : modesMessage) :
  MB mm2 = MB mm ->
  BDS44_fields MRAR_SOURCE_RESERVED mm2 = BDS44_fields MRAR_SOURCE_RESERVED mm.
Proof. intros H. unfold BDS44_fields. rewrite H. reflexivity. Qed.

Lemma BDS44_wind_valid_bound v raw dir s s' ws wd :
  truthy v = true ->
  BDS44_wind v raw dir s = Some (s', ws, wd) -> s + 2 <= s' <= s + 19.
Proof.
  intros Hv. unfold BDS44_wind. cbv zeta. rewrite Hv.
  destruct (raw =? 0); [intros [= <- _ _]; lia|].
  destruct (fle _ _); [intros [= <- _ _]; lia | discriminate].
Qed.

Lemma BDS44_sat_valid_bound v sign raw s s' sat :
  truthy v = true ->
  BDS44_sat v sign raw s = Some (s', sat) -> s + 2 <= s' <= s + 11.
Proof.
  intros Hv. unfold BDS44_sat. cbv zeta. rewrite Hv.
  destruct (feq _ _); [intros [= <- _]; lia|].
  destruct (_ && _); [intros [= <- _]; lia | discriminate].
Qed.

Lemma BDS44_fields_range (mm : modesMessage) score locals :
  BDS44_fields MRAR_SOURCE_RESERVED mm = Some (score, locals) ->
  7 <= score <= 52.
Proof.
  intros Hf. destruct (BDS44_fields_valid _ _ _ _ Hf) as [Hwind Hsat].
  revert Hf. unfold BDS44_fields. cbv zeta.
  destruct (_ || _); [discriminate|].
  destruct (_ || _); [discriminate|].
  destruct (_ && _); [discriminate|].
  destruct (_ && _); [discriminate|].
  destruct (_ && _); [discriminate|].
  destruct (BDS44_wind _ _ _ _) as [[[s1 ws] wd]|] eqn:Hw; [|discriminate].
  destruct (BDS44_sat _ _ _ _) as [[s2 sat]|] eqn:Hs; [|discriminate].
  destruct (BDS44_asp _ _ _) as [[s3 asp]|] eqn:Ha; [|discriminate].
  apply (BDS44_wind_valid_bound _ _ _ _ _ _ _ Hwind) in Hw.
  apply (BDS44_sat_valid_bound _ _ _ _ _ _ Hsat) in Hs.
  apply BDS44_asp_bound in Ha.
  destruct (truthy (getbit _ 47)), (truthy (getbit _ 50));
    intros [= <- _]; lia.
Qed.

Lemma BDS44_fields_structure (mm : modesMessage) score locals :
  BDS44_fields MRAR_SOURCE_RESERVED mm = Some (score, locals) ->
  (getbits (MB mm) 1 4 <> MRAR_SOURCE_INVALID /\
   getbits (MB mm) 1 4 < MRAR_SOURCE_RESERVED) /\
  (truthy (getbit (MB mm) 35) = false -> getbits (MB mm) 36 46 = 0) /\
  (truthy (getbit (MB mm) 47) = false -> getbits (MB mm) 48 49 = 0) /\
  (truthy (getbit (MB mm) 50) = false -> getbits (MB mm) 51 56 = 0).
Proof.
  unfold BDS44_fields. cbv zeta.
  destruct (Z.eqb_spec (getbits (MB mm) 1 4) MRAR_SOURCE_INVALID);
    [discriminate|].
  rewrite Z.geb_leb.
  destruct (Z.leb_spec MRAR_SOURCE_RESERVED (getbits (MB mm) 1 4));
    [discriminate|].
  cbn [orb].
  destruct (_ || _); [discriminate|].
  destruct (truthy (getbit (MB mm) 35));
    (destruct (Z.eqb_spec (getbits (MB mm) 36 46) 0); cbn [negb andb];
     try discriminate);
  (destruct (truthy (getbit (MB mm) 47));
    (destruct (Z.eqb_spec (getbits (MB mm) 48 49) 0); cbn [negb andb];
     try discriminate));
  (destruct (truthy (getbit (MB mm) 50));
    (destruct (Z.eqb_spec (getbits (MB mm) 51 56) 0); cbn [negb andb];
     try discriminate));
  intros _; repeat split; try assumption; intros; try discriminate;
    assumption.
Qed.

Lemma decodeBDS44_agree (mm mm2 : modesMessage) :
  inputs mm2 = inputs mm ->
  agree mm mm2 (BDS44_accepted MRAR_SOURCE_RESERVED (MB mm))
    (decodeBDS44 MRAR_SOURCE_RESERVED mm true)
    (decodeBDS44 MRAR_SOURCE_RESERVED mm2 true).
Proof.
  intros Hin. apply inputs_MB in Hin.
  unfold decodeBDS44. rewrite (BDS44_fields_inputs mm mm2 Hin), Hin. cbv zeta.
  destruct (BDS44_fields _ mm) as [[score [[[[[ws wd] sat] asp] tu] hu]]|] eqn:Hf;
    [|left; split; reflexivity].
  pose proof (BDS44_fields_range _ _ _ Hf) as Hrange.
  destruct (BDS44_fields_valid _ _ _ _ Hf) as [Hwind Hsat].
  destruct (BDS44_fields_structure _ _ _ Hf) as (Hsrc & Hasp & Hturb & Hhum).
  right. eexists _, _. split; [|split; reflexivity].
  unfold BDS44_accepted.
  split; [exact Hsrc|]. split; [split; assumption|].
  split; [exact Hasp|]. split; [exact Hturb|]. split; [exact Hhum|].
  split; [|eexists _, _, _, _, _, _; reflexivity].
  rewrite Hwind, Hsat.
  replace (score >? 0) with true by (symmetry; apply Z.gtb_lt; lia).
  rewrite !andb_true_r.
  destruct (_ =? MRAR_SOURCE_DMEDME); [reflexivity | exact Hrange].
Qed.

Local Notation "'Call'" := (call ais_charset tan MRAR_SOURCE_RESERVED).
Local Notation "'Score'" := (score_of ais_charset tan MRAR_SOURCE_RESERVED).
Local Notation "'Run'" := (run ais_charset tan MRAR_SOURCE_RESERVED).

(** Every decoder of the table reads the frame through [inputs] only, and
    its store pass is a [writer]. *)
Lemma call_agree (fn : CommBDecoderFn) (mm mm2 : modesMessage) :
  inputs mm2 = inputs mm ->
  agree mm mm2 (fun _ f => writer f) (Call fn mm true) (Call fn mm2 true).
Proof.
  intros Hin. destruct fn; cbn [call].
  - eapply agree_weaken; [|apply (decodeEmptyResponse_agree mm mm2 Hin)].
    cbv beta. intros s f (_ & ->). apply set_commb_format_writer.
  - eapply agree_weaken; [|apply (decodeBDS10_agree mm mm2 Hin)].
    cbv beta. intros s f (_ & ->). apply set_commb_format_writer.
  - eapply agree_weaken; [|apply (decodeBDS17_agree mm mm2 Hin)].
    cbv beta. intros s f (_ & _ & ->). apply set_commb_format_writer.
  - eapply agree_weaken; [|apply (decodeBDS20_agree mm mm2 Hin)].
    cbv beta. intros s f (_ & valid & ->). apply BDS20_store_writer.
  - eapply agree_weaken; [|apply (decodeBDS30_agree mm mm2 Hin)].
    cbv beta. intros s f (_ & ->). apply set_commb_format_writer.
  - eapply agree_weaken; [|apply (decodeBDS40_agree mm mm2 Hin)].
    unfold BDS40_accepted. cbv zeta.
    intros s f (_ & _ & _ & _ & _ & _ & _ & _ & _ & ->).
    apply BDS40_store_writer.
  - eapply agree_weaken; [|apply (decodeBDS44_agree mm mm2 Hin)].
    intros s f (_ & _ & _ & _ & _ & _ & ws & wd & sat & asp & tu & hu & ->).
    apply BDS44_store_writer.
  - eapply agree_weaken; [|apply (decodeBDS50_agree tan mm mm2 Hin)].
    unfold BDS50_accepted. cbv zeta.
    intros s f (_ & _ & _ & _ & _ & _ & ->).
    apply BDS50_store_writer.
  - eapply agree_weaken; [|apply (decodeBDS60_agree mm mm2 Hin)].
    unfold BDS60_accepted. cbv zeta.
    intros s f (_ & _ & _ & _ & _ & _ & ->).
    apply BDS60_store_writer.
  - eapply agree_weaken; [|apply (decodeBDS05_agree mm mm2 Hin)].
    cbv beta. intros s f (_ & ->). apply set_commb_format_writer.
Qed.

End WithTable.

(** From the two-frame form to the one-frame form, for both values of
    [store]. *)
Lemma cases_of_agree (d : modesMessage -> bool -> Z * modesMessage)
  tag bound (P : Z -> (modesMessage -> modesMessage) -> Prop) mm :
  shaped d tag bound ->
  agree mm mm P (d mm true) (d mm true) ->
  (forall store, d mm store = (0, mm)) \/
  exists s f, P s f /\ forall store, d mm store = (s, if store then f mm else mm).
Proof.
  intros Hshaped Hagree.
  destruct (Hshaped mm) as [H0 | (s' & mm' & _ & _ & He)]; [left; exact H0|].
  destruct Hagree as [[Ht _] | (s & f & HP & Ht & _)].
  - left. intros store. rewrite He. rewrite (He true) in Ht.
    injection Ht as -> ->. destruct store; reflexivity.
  - right. exists s, f. split; [exact HP|].
    intros store. rewrite He. rewrite (He true) in Ht.
    injection Ht as -> ->. reflexivity.
Qed.

Lemma decodeBDS40_cases (mm : modesMessage) :
  (forall store, decodeBDS40 mm store = (0, mm)) \/
  exists s f, BDS40_accepted (MB mm) s f /\
    forall store, decodeBDS40 mm store = (s, if store then f mm else mm).
Proof.
  apply (cases_of_agree _ _ _ _ _ decodeBDS40_shaped).
  apply decodeBDS40_agree. reflexivity.
Qed.

Lemma decodeBDS60_cases (mm : modesMessage) :
  (forall store, decodeBDS60 mm store = (0, mm)) \/
  exists s f, BDS60_accepted (MB mm) s f /\
    forall store, decodeBDS60 mm store = (s, if store then f mm else mm).
Proof.
  apply (cases_of_agree _ _ _ _ _ decodeBDS60_shaped).
  apply decodeBDS60_agree. reflexivity.
Qed.

Section Extras.

Variable ais_charset : Z -> ascii.
Variable tan : double -> double.
Variable MRAR_SOURCE_RESERVED : Z.

Local Notation "'Call'" := (call ais_charset tan MRAR_SOURCE_RESERVED).
Local Notation "'Score'" := (score_of ais_charset tan MRAR_SOURCE_RESERVED).
Local Notation "'Run'" := (run ais_charset tan MRAR_SOURCE_RESERVED).
Local Notation "'Unique_best'" :=
  (unique_best ais_charset tan MRAR_SOURCE_RESERVED).

Lemma decodeBDS50_cases (mm : modesMessage) :
  (forall store, decodeBDS50 tan mm store = (0, mm)) \/
  exists s f, BDS50_accepted (MB mm) s f /\
    forall store, decodeBDS50 tan mm store = (s, if store then f mm else mm).
Proof.
  apply (cases_of_agree _ _ _ _ _ (decodeBDS50_shaped tan)).
  apply decodeBDS50_agree. reflexivity.
Qed.

Lemma decodeBDS44_cases (mm : modesMessage) :
  (forall store, decodeBDS44 MRAR_SOURCE_RESERVED mm store = (0, mm)) \/
  exists s f, BDS44_accepted MRAR_SOURCE_RESERVED (MB mm) s f /\
    forall store,
      decodeBDS44 MRAR_SOURCE_RESERVED mm store
      = (s, if store then f mm else mm).
Proof.
  apply (cases_of_agree _ _ _ _ _ (decodeBDS44_shaped MRAR_SOURCE_RESERVED)).
  apply decodeBDS44_agree. reflexivity.
Qed.

(** The score of a scoring call is the score of the store call. *)
Lemma score_of_store (fn : CommBDecoderFn) (mm : modesMessage) :
  Score fn mm = fst (Call fn mm true).
Proof.
  unfold score_of.
  destruct (call_shaped ais_charset tan MRAR_SOURCE_RESERVED fn mm)
    as [H0 | (s & mm' & _ & _ & He)].
  - rewrite !H0. reflexivity.
  - rewrite !He. reflexivity.
Qed.

Lemma score_inputs (fn : CommBDecoderFn) (mm mm2 : modesMessage) :
  inputs mm2 = inputs mm -> Score fn mm2 = Score fn mm.
Proof.
  intros Hin. rewrite !score_of_store.
  destruct (call_agree ais_charset tan MRAR_SOURCE_RESERVED fn mm mm2 Hin)
    as [[-> ->] | (s & f & _ & -> & ->)]; reflexivity.
Qed.

Lemma scan_inputs (mm mm2 : modesMessage) (fns : list CommBDecoderFn) :
  inputs mm2 = inputs mm ->
  forall b, scan ais_charset tan MRAR_SOURCE_RESERVED mm2 fns b
            = scan ais_charset tan MRAR_SOURCE_RESERVED mm fns b.
Proof.
  intros Hin. induction fns as [|fn rest IH]; intros b; [reflexivity|].
  cbn [scan fold_left]. rewrite (score_inputs fn mm mm2 Hin). apply IH.
Qed.

Lemma skipped_inputs (mm mm2 : modesMessage) :
  inputs mm2 = inputs mm -> skipped mm2 = skipped mm.
Proof.
  unfold inputs, skipped. intros [= _ _ -> -> -> _]. reflexivity.
Qed.

Lemma store_inputs (fn : CommBDecoderFn) (mm : modesMessage) :
  inputs (snd (Call fn mm true)) = inputs mm.
Proof.
  destruct (call_agree ais_charset tan MRAR_SOURCE_RESERVED fn mm mm eq_refl)
    as [[-> _] | (s & f & [Hf _] & -> & _)]; cbn [snd]; [reflexivity|].
  apply Hf.
Qed.

Lemma run_inputs (mm : modesMessage) : inputs (frame (Run mm)) = inputs mm.
Proof.
  destruct (run_cases ais_charset tan MRAR_SOURCE_RESERVED mm)
    as [H | [H | [H | (fn & _ & H)]]]; rewrite H; cbn [frame];
    first [apply inputs_set_commb_format | apply store_inputs].
Qed.

(** X1. decodeCommB never writes a member of the frame that it or a decoder
    reads: msgtype, MB, DR, UM, correctedbits and AC are after the call what
    they were before it, whatever the outcome. *)
Theorem decodeCommB_keeps_inputs (mm : modesMessage) :
  msgtype (frame (Run mm)) = msgtype mm /\
  MB (frame (Run mm)) = MB mm /\
  DR (frame (Run mm)) = DR mm /\
  UM (frame (Run mm)) = UM mm /\
  correctedbits (frame (Run mm)) = correctedbits mm /\
  AC (frame (Run mm)) = AC mm.
Proof.
  pose proof (run_inputs mm) as H.
  unfold inputs in H. injection H as H1 H2 H3 H4 H5 H6.
  repeat split; assumption.
Qed.

(** X2. decodeCommB is idempotent: called again on the frame it left, it
    leaves that frame exactly as it is. The gate and every score depend on
    the members it does not write, and the store pass of a decoder writes
    values that depend on the payload only. *)
Theorem decodeCommB_idempotent (mm : modesMessage) :
  frame (Run (frame (Run mm))) = frame (Run mm).
Proof.
  pose proof (run_inputs mm) as Hin.
  rewrite (run_unfold _ _ _ (frame (Run mm))).
  rewrite (skipped_inputs _ _ Hin), (scan_inputs _ _ _ Hin).
  rewrite (run_unfold _ _ _ mm) in *.
  destruct (skipped mm); cbn [frame] in *; [apply set_commb_format_twice|].
  cbv zeta in *.
  destruct (bestDecoder _) as [fn|];
    [destruct (truthy _)|]; cbn [frame] in *;
    try apply set_commb_format_twice.
  destruct (call_agree ais_charset tan MRAR_SOURCE_RESERVED fn mm
              (snd (Call fn mm true)) Hin)
    as [[H1 H2] | (s & f & [_ Hidem] & H1 & H2)].
  - rewrite H2. reflexivity.
  - rewrite H2. rewrite H1. cbn [snd]. apply Hidem.
Qed.

(** X3. What decodeCommB decides depends only on msgtype, MB, DR, UM,
    correctedbits and AC: on two frames that agree on these six members
    every decoder gives the same score, decodeCommB makes the same calls and
    it sets the same commb_format, whatever decoded values (stale ones, for
    instance) the two frames hold elsewhere. *)
Theorem decodeCommB_reads_inputs_only (mm mm2 : modesMessage) :
  msgtype mm2 = msgtype mm -> MB mm2 = MB mm -> DR mm2 = DR mm ->
  UM mm2 = UM mm -> correctedbits mm2 = correctedbits mm -> AC mm2 = AC mm ->
  (forall fn, Score fn mm2 = Score fn mm) /\
  calls (Run mm2) = calls (Run mm) /\
  commb_format (frame (Run mm2)) = commb_format (frame (Run mm)).
Proof.
  intros H1 H2 H3 H4 H5 H6.
  assert (Hin : inputs mm2 = inputs mm) by (unfold inputs; congruence).
  split; [intros fn; apply score_inputs; exact Hin|].
  rewrite (run_unfold _ _ _ mm2), (run_unfold _ _ _ mm).
  rewrite (skipped_inputs _ _ Hin), (scan_inputs _ _ _ Hin).
  destruct (skipped mm); [split; reflexivity|]. cbv zeta.
  destruct (bestDecoder _) as [fn|] eqn:Hb;
    [destruct (truthy _)|]; cbn [frame calls]; try (split; reflexivity).
  split; [reflexivity|].
  destruct (best_is_seen _ _ _ _ _ _
              (summary_table ais_charset tan MRAR_SOURCE_RESERVED mm) fn Hb)
    as (_ & Hs & Hpos).
  destruct (call_store ais_charset tan MRAR_SOURCE_RESERVED fn mm) as [_ ->];
    [lia|].
  destruct (call_store ais_charset tan MRAR_SOURCE_RESERVED fn mm2) as [_ ->];
    [rewrite (score_inputs fn mm mm2 Hin); lia | reflexivity].
Qed.

End Extras.

Lemma bit_cases (msg : payload) (n : Z) : getbit msg n = 0 \/ getbit msg n = 1.
Proof. pose proof (getbit_range msg n). lia. Qed.

Lemma BDS40_qnh_range (baro_raw : Z) :
  0 <= baro_raw < 4096 ->
  fge (BDS40_qnh baro_raw) (float_of_int 900)
  && fle (BDS40_qnh baro_raw) (float_of_int 1100)
  = ((1000 <=? baro_raw) && (baro_raw <=? 3000)).
Proof.
  intros Hraw. apply Bool.eqb_prop.
  apply (below 4096 BDS40_qnh_agrees); [|exact Hraw].
  vm_compute. reflexivity.
Qed.

Lemma BDS50_roll_range (sign raw : Z) :
  0 <= sign <= 1 -> 0 <= raw < 512 ->
  fge (BDS50_roll sign raw) (float_of_int (-40))
  && flt (BDS50_roll sign raw) (float_of_int 40)
  = ((-10240 <=? 45 * (raw - 512 * sign))
     && (45 * (raw - 512 * sign) <? 10240)).
Proof.
  intros Hsign Hraw. apply Bool.eqb_prop.
  assert (sign = 0 \/ sign = 1) as [-> | ->] by lia.
  - apply (below 512 (BDS50_roll_agrees 0)); [|exact Hraw].
    vm_compute. reflexivity.
  - apply (below 512 (BDS50_roll_agrees 1)); [|exact Hraw].
    vm_compute. reflexivity.
Qed.

Lemma BDS50_track_rate_range (sign raw : Z) :
  0 <= sign <= 1 -> 0 <= raw < 512 ->
  fge (double_of_float (BDS50_track_rate sign raw)) (double_of_int (-10))
  && fle (double_of_float (BDS50_track_rate sign raw)) (double_of_int 10)
  = ((-320 <=? raw - 512 * sign) && (raw - 512 * sign <=? 320)).
Proof.
  intros Hsign Hraw. apply Bool.eqb_prop.
  assert (sign = 0 \/ sign = 1) as [-> | ->] by lia.
  - apply (below 512 (BDS50_track_rate_agrees 0)); [|exact Hraw].
    vm_compute. reflexivity.
  - apply (below 512 (BDS50_track_rate_agrees 1)); [|exact Hraw].
    vm_compute. reflexivity.
Qed.

Lemma BDS60_mach_range (raw : Z) :
  0 <= raw < 1024 ->
  fge (double_of_float (BDS60_mach raw)) (literal 1 10)
  && fle (double_of_float (BDS60_mach raw)) (literal 9 10)
  = ((25 <=? raw) && (raw <=? 225)).
Proof.
  intros Hraw. apply Bool.eqb_prop.
  apply (below 1024 BDS60_mach_agrees); [|exact Hraw].
  vm_compute. reflexivity.
Qed.

Lemma angle_of_range (sign raw : Z) :
  0 <= sign <= 1 -> 0 <= raw < 1024 -> angle_in_circle sign raw = true.
Proof.
  intros Hsign Hraw.
  assert (sign = 0 \/ sign = 1) as [-> | ->] by lia.
  - apply (below 1024 (angle_in_circle 0)); [|exact Hraw].
    vm_compute. reflexivity.
  - apply (below 1024 (angle_in_circle 1)); [|exact Hraw].
    vm_compute. reflexivity.
Qed.

(** ** BDS4,0 *)

Lemma BDS40_store_values a b c d e mcp_alt fms_alt baro_setting i j :
  forall mm,
  let n := nav mm in
  let n' := nav (BDS40_store a b c d e mcp_alt fms_alt baro_setting i j mm) in
  (if truthy a
   then mcp_altitude_valid n' = true /\ mcp_altitude n' = mcp_alt
   else mcp_altitude_valid n' = mcp_altitude_valid n /\
        mcp_altitude n' = mcp_altitude n) /\
  (if truthy b
   then fms_altitude_valid n' = true /\ fms_altitude n' = fms_alt
   else fms_altitude_valid n' = fms_altitude_valid n /\
        fms_altitude n' = fms_altitude n) /\
  (if truthy c
   then qnh_valid n' = true /\ qnh n' = baro_setting
   else qnh_valid n' = qnh_valid n /\ qnh n' = qnh n).
Proof.
  intros mm. destruct mm. cbv zeta. cbv beta delta [BDS40_store].
  destruct (truthy a), (truthy b), (truthy c), (truthy d), (truthy e);
    try (destruct j as [|[[?|?|]|[?|?|]|]|?]);
    repeat split; reflexivity.
Qed.

(** X4. decodeBDS40 either returns 0 and leaves the frame alone, or it returns
    a score from 7 to 46: no accepted payload scores 0 or less, so a zero
    score always means the payload was rejected. *)
Theorem decodeBDS40_score_range (mm : modesMessage) (store : bool) :
  decodeBDS40 mm store = (0, mm) \/ 7 <= fst (decodeBDS40 mm store) <= 46.
Proof.
  destruct (decodeBDS40_cases mm) as [H0 | (s & f & HP & He)].
  - left. apply H0.
  - right. rewrite He. cbn [fst]. apply HP.
Qed.

(** X5. The selected altitudes of a BDS4,0 payload that decodeBDS40 accepts.
    When the MCP status bit (bit 1) is set, the store pass sets
    mcp_altitude_valid and stores 16 times the raw field of bits 2..13, and
    that altitude is from 1000 to 50000 ft; when the bit is clear, the raw
    field is zero and the store pass leaves mcp_altitude_valid and
    mcp_altitude as they were. The same holds for the FMS altitude with
    status bit 14 and raw bits 15..26. *)
Theorem decodeBDS40_stores_altitudes (mm : modesMessage) :
  0 < fst (decodeBDS40 mm true) ->
  let msg := MB mm in
  let n := nav mm in
  let n' := nav (snd (decodeBDS40 mm true)) in
  (if truthy (getbit msg 1)
   then mcp_altitude_valid n' = true /\
        mcp_altitude n' = 16 * getbits msg 2 13 /\
        1000 <= mcp_altitude n' <= 50000
   else getbits msg 2 13 = 0 /\
        mcp_altitude_valid n' = mcp_altitude_valid n /\
        mcp_altitude n' = mcp_altitude n) /\
  (if truthy (getbit msg 14)
   then fms_altitude_valid n' = true /\
        fms_altitude n' = 16 * getbits msg 15 26 /\
        1000 <= fms_altitude n' <= 50000
   else getbits msg 15 26 = 0 /\
        fms_altitude_valid n' = fms_altitude_valid n /\
        fms_altitude n' = fms_altitude n).
Proof.
  intros Hacc. cbv zeta.
  destruct (decodeBDS40_cases mm) as [H0 | (s & f & HP & He)].
  { rewrite H0 in Hacc. cbn [fst] in Hacc. lia. }
  rewrite He. cbn [snd].
  unfold BDS40_accepted in HP. cbv zeta in HP.
  destruct HP as (_ & _ & Hmcp & Hfms & _ & _ & _ & _ & _ & ->).
  pose proof (BDS40_store_values (getbit (MB mm) 1) (getbit (MB mm) 14)
    (getbit (MB mm) 27) (getbit (MB mm) 48) (getbit (MB mm) 54)
    (if truthy (getbit (MB mm) 1) then getbits (MB mm) 2 13 * 16 else 0)
    (if truthy (getbit (MB mm) 14) then getbits (MB mm) 15 26 * 16 else 0)
    (if truthy (getbit (MB mm) 27)
     then BDS40_qnh (getbits (MB mm) 28 39) else fzero)
    (getbits (MB mm) 49 51) (getbits (MB mm) 55 56) mm) as Hstore.
  cbv zeta in Hstore. destruct Hstore as (Hsm & Hsf & _).
  split.
  - destruct (truthy (getbit (MB mm) 1)).
    + destruct Hsm as [-> ->]. repeat split; lia.
    + destruct Hsm as [-> ->]. repeat split. exact Hmcp.
  - destruct (truthy (getbit (MB mm) 14)).
    + destruct Hsf as [-> ->]. repeat split; lia.
    + destruct Hsf as [-> ->]. repeat split. exact Hfms.
Qed.

(** X6. The pressure setting of a BDS4,0 payload that decodeBDS40 accepts.
    When the status bit 27 is set, the raw field of bits 28..39 is from 1000
    to 3000 (the float comparisons of 800 + raw * 0.1 with 900 and 1100
    let through exactly these raw values), and the store pass sets qnh_valid
    and stores that float; when the bit is clear, the raw field is zero and the
    store pass leaves qnh_valid and qnh as they were. *)
Theorem decodeBDS40_stores_qnh (mm : modesMessage) :
  0 < fst (decodeBDS40 mm true) ->
  let baro_raw := getbits (MB mm) 28 39 in
  let n := nav mm in
  let n' := nav (snd (decodeBDS40 mm true)) in
  if truthy (getbit (MB mm) 27)
  then 1000 <= baro_raw <= 3000 /\
       qnh_valid n' = true /\ qnh n' = BDS40_qnh baro_raw
  else baro_raw = 0 /\ qnh_valid n' = qnh_valid n /\ qnh n' = qnh n.
Proof.
  intros Hacc. cbv zeta.
  destruct (decodeBDS40_cases mm) as [H0 | (s & f & HP & He)].
  { rewrite H0 in Hacc. cbn [fst] in Hacc. lia. }
  rewrite He. cbn [snd].
  unfold BDS40_accepted in HP. cbv zeta in HP.
  destruct HP as (_ & _ & _ & _ & Hbaro & _ & _ & _ & _ & ->).
  pose proof (BDS40_store_values (getbit (MB mm) 1) (getbit (MB mm) 14)
    (getbit (MB mm) 27) (getbit (MB mm) 48) (getbit (MB mm) 54)
    (if truthy (getbit (MB mm) 1) then getbits (MB mm) 2 13 * 16 else 0)
    (if truthy (getbit (MB mm) 14) then getbits (MB mm) 15 26 * 16 else 0)
    (if truthy (getbit (MB mm) 27)
     then BDS40_qnh (getbits (MB mm) 28 39) else fzero)
    (getbits (MB mm) 49 51) (getbits (MB mm) 55 56) mm) as Hstore.
  cbv zeta in Hstore. destruct Hstore as (_ & _ & Hsq).
  pose proof (getbits_range (MB mm) 28 39) as Hraw.
  change (2 ^ Z.of_nat (Z.to_nat (39 - 28 + 1))) with 4096 in Hraw.
  destruct (truthy (getbit (MB mm) 27)).
  - destruct Hsq as [-> ->]. destruct Hbaro as [_ Hbaro].
    rewrite (BDS40_qnh_range _ Hraw) in Hbaro.
    apply andb_true_iff in Hbaro. destruct Hbaro as [Hlo Hhi].
    apply Z.leb_le in Hlo, Hhi. repeat split; assumption.
  - destruct Hsq as [-> ->]. repeat split. exact Hbaro.
Qed.

(** ** BDS5,0 *)

Lemma BDS50_store_values a b c d e r t g tr ta :
  forall mm,
  let mm' := BDS50_store a b c d e r t g tr ta mm in
  (truthy a = true -> roll_valid mm' = true /\ roll mm' = r) /\
  (truthy b = true ->
     heading_valid mm' = true /\ heading mm' = t /\
     heading_type mm' = HEADING_GROUND_TRACK) /\
  (truthy c = true ->
     gs_valid mm' = true /\
     gs mm' = {| v0 := g; v2 := g; selected := g |}) /\
  (if truthy d
   then track_rate_valid mm' = true /\ track_rate mm' = tr
   else track_rate_valid mm' = track_rate_valid mm /\
        track_rate mm' = track_rate mm) /\
  (truthy e = true -> tas_valid mm' = true /\ tas mm' = ta).
Proof.
  intros mm. destruct mm. cbv zeta. cbv beta delta [BDS50_store].
  destruct (truthy a), (truthy b), (truthy c), (truthy d), (truthy e);
    repeat split; try discriminate; reflexivity.
Qed.

Section BDS50.

Variable tan : double -> double.

(** X7. decodeBDS50 either returns 0 and leaves the frame alone, or the
    status bits of roll (1), track (12), ground speed (24) and true airspeed
    (46) are all set; the score is then 46 when the track angle rate is not
    valid (bit 35 clear), and 56 or 50 when it is. So the branches of the
    code that give one point for an absent roll, track, ground speed or
    airspeed are never taken by an accepted payload. *)
Theorem decodeBDS50_needs_four_fields (mm : modesMessage) (store : bool) :
  let msg := MB mm in
  let score := fst (decodeBDS50 tan mm store) in
  decodeBDS50 tan mm store = (0, mm) \/
  (truthy (getbit msg 1) = true /\ truthy (getbit msg 12) = true /\
   truthy (getbit msg 24) = true /\ truthy (getbit msg 46) = true) /\
  (if truthy (getbit msg 35) then score = 56 \/ score = 50 else score = 46).
Proof.
  cbv zeta.
  destruct (decodeBDS50_cases tan mm) as [H0 | (s & f & HP & He)].
  - left. apply H0.
  - right. rewrite He. cbn [fst].
    unfold BDS50_accepted in HP. cbv zeta in HP.
    destruct HP as (Hflags & _ & _ & _ & _ & Hs & _).
    split; assumption.
Qed.

(** X8. What the store pass of an accepted BDS5,0 payload writes for the
    track and the two speeds: heading_valid with the track angle of bits
    13..23, which lies in [0, 360), and heading_type GROUND_TRACK; gs_valid
    with twice the raw ground speed of bits 25..34 in all three members of
    gs, a speed from 50 to 700 kt; tas_valid with twice the raw airspeed of
    bits 47..56, also from 50 to 700 kt. *)
Theorem decodeBDS50_stores_track_and_speeds (mm : modesMessage) :
  0 < fst (decodeBDS50 tan mm true) ->
  let msg := MB mm in
  let mm' := snd (decodeBDS50 tan mm true) in
  (heading_valid mm' = true /\
   heading mm' = angle_of (getbit msg 13) (getbits msg 14 23) /\
   heading_type mm' = HEADING_GROUND_TRACK /\
   angle_in_circle (getbit msg 13) (getbits msg 14 23) = true) /\
  (gs_valid mm' = true /\
   gs mm' = {| v0 := 2 * getbits msg 25 34; v2 := 2 * getbits msg 25 34;
               selected := 2 * getbits msg 25 34 |} /\
   50 <= 2 * getbits msg 25 34 <= 700) /\
  (tas_valid mm' = true /\ tas mm' = 2 * getbits msg 47 56 /\
   50 <= tas mm' <= 700).
Proof.
  intros Hacc. cbv zeta.
  destruct (decodeBDS50_cases tan mm) as [H0 | (s & f & HP & He)].
  { rewrite H0 in Hacc. cbn [fst] in Hacc. lia. }
  rewrite He. cbn [snd].
  unfold BDS50_accepted in HP. cbv zeta in HP.
  destruct HP as ((H1 & H12 & H24 & H46) & _ & Hgs & Htas & _ & _ & ->).
  match goal with
  | |- context [BDS50_store ?a ?b ?c ?d ?e ?r ?t ?g ?tr ?ta mm] =>
      pose proof (BDS50_store_values a b c d e r t g tr ta mm) as Hstore
  end.
  cbv zeta in Hstore. destruct Hstore as (_ & Hh & Hg & _ & Ht).
  destruct (Hh H12) as (-> & -> & ->).
  destruct (Hg H24) as (-> & ->).
  destruct (Ht H46) as (-> & ->).
  pose proof (getbit_range (MB mm) 13) as Hsign.
  pose proof (getbits_range (MB mm) 14 23) as Hraw.
  change (2 ^ Z.of_nat (Z.to_nat (23 - 14 + 1))) with 1024 in Hraw.
  replace (getbits (MB mm) 25 34 * 2) with (2 * getbits (MB mm) 25 34) in *
    by lia.
  replace (getbits (MB mm) 47 56 * 2) with (2 * getbits (MB mm) 47 56) in *
    by lia.
  repeat split; try reflexivity; try lia.
  apply angle_of_range; assumption.
Qed.

(** X9. The roll angle and the track angle rate of an accepted BDS5,0
    payload. The store pass sets roll_valid and stores the roll angle of
    bits 2..11, and that angle is at least -40 and less than 40 degrees
    (with q the signed raw value, -10240 <= 45 q < 10240, the angle being
    45 q / 256). When the track angle rate is valid (bit 35), the store pass
    sets track_rate_valid and stores the rate of bits 36..45, which is from
    -10 to 10 degrees per second (-320 <= q <= 320, the rate being q / 32);
    when it is not, sign and raw field are zero and the store pass leaves
    track_rate_valid and track_rate as they were. *)
Theorem decodeBDS50_roll_and_track_rate (mm : modesMessage) :
  0 < fst (decodeBDS50 tan mm true) ->
  let msg := MB mm in
  let mm' := snd (decodeBDS50 tan mm true) in
  let roll_q := getbits msg 3 11 - 512 * getbit msg 2 in
  let rate_q := getbits msg 37 45 - 512 * getbit msg 36 in
  (roll_valid mm' = true /\
   roll mm' = BDS50_roll (getbit msg 2) (getbits msg 3 11) /\
   -10240 <= 45 * roll_q < 10240) /\
  (if truthy (getbit msg 35)
   then track_rate_valid mm' = true /\
        track_rate mm' = BDS50_track_rate (getbit msg 36) (getbits msg 37 45) /\
        -320 <= rate_q <= 320
   else rate_q = 0 /\
        track_rate_valid mm' = track_rate_valid mm /\
        track_rate mm' = track_rate mm).
Proof.
  intros Hacc. cbv zeta.
  destruct (decodeBDS50_cases tan mm) as [H0 | (s & f & HP & He)].
  { rewrite H0 in Hacc. cbn [fst] in Hacc. lia. }
  rewrite He. cbn [snd].
  unfold BDS50_accepted in HP. cbv zeta in HP.
  destruct HP as ((H1 & H12 & H24 & H46) & Hroll & _ & _ & Hrate & _ & ->).
  match goal with
  | |- context [BDS50_store ?a ?b ?c ?d ?e ?r ?t ?g ?tr ?ta mm] =>
      pose proof (BDS50_store_values a b c d e r t g tr ta mm) as Hstore
  end.
  cbv zeta in Hstore. destruct Hstore as (Hr & _ & _ & Htr & _).
  destruct (Hr H1) as (-> & ->).
  pose proof (getbit_range (MB mm) 2) as Hsign.
  pose proof (getbits_range (MB mm) 3 11) as Hraw.
  change (2 ^ Z.of_nat (Z.to_nat (11 - 3 + 1))) with 512 in Hraw.
  pose proof (getbit_range (MB mm) 36) as Hsign'.
  pose proof (getbits_range (MB mm) 37 45) as Hraw'.
  change (2 ^ Z.of_nat (Z.to_nat (45 - 37 + 1))) with 512 in Hraw'.
  rewrite (BDS50_roll_range _ _ Hsign Hraw) in Hroll.
  apply andb_true_iff in Hroll. destruct Hroll as [Hlo Hhi].
  apply Z.leb_le in Hlo. apply Z.ltb_lt in Hhi.
  split; [repeat split; assumption|].
  destruct (truthy (getbit (MB mm) 35)).
  - destruct Htr as (-> & ->).
    rewrite (BDS50_track_rate_range _ _ Hsign' Hraw') in Hrate.
    apply andb_true_iff in Hrate. destruct Hrate as [Hlo' Hhi'].
    apply Z.leb_le in Hlo', Hhi'. repeat split; assumption.
  - destruct Htr as (-> & ->). destruct Hrate as [Hz Hs].
    unfold truthy in Hs. apply negb_false_iff, Z.eqb_eq in Hs.
    repeat split. lia.
Qed.

End BDS50.

(** ** BDS6,0 *)

Lemma BDS60_store_values a b c d e h i m br ir :
  forall mm,
  let mm' := BDS60_store a b c d e h i m br ir mm in
  (truthy a = true ->
     heading_valid mm' = true /\ heading mm' = h /\
     heading_type mm' = HEADING_MAGNETIC) /\
  (truthy b = true -> ias_valid mm' = true /\ ias mm' = i) /\
  (truthy c = true -> mach_valid mm' = true /\ mach mm' = m) /\
  (if truthy d
   then baro_rate_valid mm' = true /\ baro_rate mm' = br
   else baro_rate_valid mm' = baro_rate_valid mm /\
        baro_rate mm' = baro_rate mm) /\
  (if truthy e
   then geom_rate_valid mm' = true /\ geom_rate mm' = ir
   else geom_rate_valid mm' = geom_rate_valid mm /\
        geom_rate mm' = geom_rate mm).
Proof.
  intros mm. destruct mm. cbv zeta. cbv beta delta [BDS60_store].
  destruct (truthy a), (truthy b), (truthy c), (truthy d), (truthy e);
    repeat split; try discriminate; reflexivity.
Qed.

(** X10. decodeBDS60 either returns 0 and leaves the frame alone, or heading
    (bit 1), IAS (bit 13) and Mach (bit 24) are valid together with at least
    one of the two vertical rates (bits 35 and 46), and the score is 46 with
    one rate; with both rates it is 56 when they differ by at most
    2000 ft/min and 44 when they differ by more. *)
Theorem decodeBDS60_score (mm : modesMessage) (store : bool) :
  let msg := MB mm in
  let baro_rate := BDS60_rate (getbit msg 36) (getbits msg 37 45) in
  let inertial_rate := BDS60_rate (getbit msg 47) (getbits msg 48 56) in
  decodeBDS60 mm store = (0, mm) \/
  (truthy (getbit msg 1) = true /\ truthy (getbit msg 13) = true /\
   truthy (getbit msg 24) = true /\
   truthy (getbit msg 35) || truthy (getbit msg 46) = true) /\
  fst (decodeBDS60 mm store)
  = if truthy (getbit msg 35) && truthy (getbit msg 46)
    then if Z.abs (baro_rate - inertial_rate) >? 2000 then 44 else 56
    else 46.
Proof.
  cbv zeta.
  destruct (decodeBDS60_cases mm) as [H0 | (s & f & HP & He)].
  - left. apply H0.
  - right. rewrite He. cbn [fst].
    unfold BDS60_accepted in HP. cbv zeta in HP.
    destruct HP as (Hflags & _ & _ & _ & _ & Hs & _).
    split; assumption.
Qed.

(** X11. What the store pass of an accepted BDS6,0 payload writes:
    heading_valid with the heading of bits 2..12, which lies in [0, 360),
    and heading_type MAGNETIC; ias_valid with the raw IAS of bits 14..23,
    from 50 to 700 kt; mach_valid with the Mach number of bits 25..34, whose
    raw value is from 25 to 225 (the double comparisons of the float with
    0.1 and 0.9 let through exactly these); for a valid barometric rate (bit 35)
    baro_rate_valid and 32 times the signed raw value of bits 36..45, from
    -6000 to 6000 ft/min, and for a rate that is not valid a zero raw field
    and baro_rate_valid and baro_rate as they were; the same for the
    inertial rate (bit 46, bits 47..56), which goes to geom_rate. *)
Theorem decodeBDS60_stores_speeds_and_rates (mm : modesMessage) :
  0 < fst (decodeBDS60 mm true) ->
  let msg := MB mm in
  let mm' := snd (decodeBDS60 mm true) in
  (heading_valid mm' = true /\
   heading mm' = angle_of (getbit msg 2) (getbits msg 3 12) /\
   heading_type mm' = HEADING_MAGNETIC /\
   angle_in_circle (getbit msg 2) (getbits msg 3 12) = true) /\
  (ias_valid mm' = true /\ ias mm' = getbits msg 14 23 /\
   50 <= ias mm' <= 700) /\
  (mach_valid mm' = true /\ mach mm' = BDS60_mach (getbits msg 25 34) /\
   25 <= getbits msg 25 34 <= 225) /\
  (if truthy (getbit msg 35)
   then baro_rate_valid mm' = true /\
        baro_rate mm' = 32 * (getbits msg 37 45 - 512 * getbit msg 36) /\
        -6000 <= baro_rate mm' <= 6000
   else getbits msg 37 45 = 0 /\
        baro_rate_valid mm' = baro_rate_valid mm /\
        baro_rate mm' = baro_rate mm) /\
  (if truthy (getbit msg 46)
   then geom_rate_valid mm' = true /\
        geom_rate mm' = 32 * (getbits msg 48 56 - 512 * getbit msg 47) /\
        -6000 <= geom_rate mm' <= 6000
   else getbits msg 48 56 = 0 /\
        geom_rate_valid mm' = geom_rate_valid mm /\
        geom_rate mm' = geom_rate mm).
Proof.
  intros Hacc. cbv zeta.
  destruct (decodeBDS60_cases mm) as [H0 | (s & f & HP & He)].
  { rewrite H0 in Hacc. cbn [fst] in Hacc. lia. }
  rewrite He. cbn [snd].
  unfold BDS60_accepted in HP. cbv zeta in HP.
  destruct HP as ((H1 & H13 & H24 & _) & Hias & (_ & Hmach) & Hbaro & Hin & _ & ->).
  match goal with
  | |- context [BDS60_store ?a ?b ?c ?d ?e ?h ?i ?m ?br ?ir mm] =>
      pose proof (BDS60_store_values a b c d e h i m br ir mm) as Hstore
  end.
  cbv zeta in Hstore. destruct Hstore as (Hh & Hi & Hm & Hb & Hg).
  destruct (Hh H1) as (-> & -> & ->).
  destruct (Hi H13) as (-> & ->).
  destruct (Hm H24) as (-> & ->).
  pose proof (getbit_range (MB mm) 2) as Hsign.
  pose proof (getbits_range (MB mm) 3 12) as Hraw.
  change (2 ^ Z.of_nat (Z.to_nat (12 - 3 + 1))) with 1024 in Hraw.
  pose proof (getbits_range (MB mm) 25 34) as Hmraw.
  change (2 ^ Z.of_nat (Z.to_nat (34 - 25 + 1))) with 1024 in Hmraw.
  rewrite (BDS60_mach_range _ Hmraw) in Hmach.
  apply andb_true_iff in Hmach. destruct Hmach as [Hlo Hhi].
  apply Z.leb_le in Hlo, Hhi.
  assert (Hrate : forall sign raw,
            0 <= sign <= 1 -> BDS60_rate sign raw = 32 * (raw - 512 * sign)).
  { intros sign raw Hs. unfold BDS60_rate, truthy.
    assert (sign = 0 \/ sign = 1) as [-> | ->] by lia; cbn [Z.eqb negb]; lia. }
  pose proof (Hrate _ (getbits (MB mm) 37 45) (getbit_range (MB mm) 36)) as Hb'.
  pose proof (Hrate _ (getbits (MB mm) 48 56) (getbit_range (MB mm) 47)) as Hg'.
  split; [repeat split; try reflexivity; apply angle_of_range; assumption|].
  split; [repeat split; try reflexivity; lia|].
  split; [repeat split; try reflexivity; lia|].
  split.
  - destruct (truthy (getbit (MB mm) 35)).
    + destruct Hb as (-> & ->). rewrite <- Hb'. repeat split; lia.
    + destruct Hb as (-> & ->). repeat split. exact Hbaro.
  - destruct (truthy (getbit (MB mm) 46)).
    + destruct Hg as (-> & ->). rewrite <- Hg'. repeat split; lia.
    + destruct Hg as (-> & ->). repeat split. exact Hin.
Qed.

(** ** BDS4,4 *)

Lemma BDS44_store_values src a b c d e ws wd sat asp tu hu :
  forall mm,
  let mm' := BDS44_store src a b c d e ws wd sat asp tu hu mm in
  (mrar_source_valid mm' = true /\ mrar_source mm' = src) /\
  (truthy a = true ->
     wind_valid mm' = true /\ wind_speed mm' = ws /\ wind_dir mm' = wd) /\
  (truthy b = true -> temperature_valid mm' = true /\ temperature mm' = sat) /\
  (truthy c = false ->
     pressure_valid mm' = pressure_valid mm /\ pressure mm' = pressure mm) /\
  (truthy d = false ->
     turbulence_valid mm' = turbulence_valid mm /\
     turbulence mm' = turbulence mm) /\
  (truthy e = false ->
     humidity_valid mm' = humidity_valid mm /\ humidity mm' = humidity mm).
Proof.
  intros mm. destruct mm. cbv zeta. cbv beta delta [BDS44_store].
  destruct (truthy a), (truthy b), (truthy c), (truthy d), (truthy e);
    repeat split; try discriminate; reflexivity.
Qed.

Section BDS44.

Variable MRAR_SOURCE_RESERVED : Z.

(** X12. decodeBDS44 either returns 0 and leaves the frame alone, or the
    source tag is neither invalid nor reserved, wind and temperature are both
    valid, and the score is 1 when the source is DME/DME and from 7 to 52
    otherwise. *)
Theorem decodeBDS44_score_range (mm : modesMessage) (store : bool) :
  let msg := MB mm in
  let score := fst (decodeBDS44 MRAR_SOURCE_RESERVED mm store) in
  decodeBDS44 MRAR_SOURCE_RESERVED mm store = (0, mm) \/
  (getbits msg 1 4 <> MRAR_SOURCE_INVALID /\
   getbits msg 1 4 < MRAR_SOURCE_RESERVED) /\
  (truthy (getbit msg 5) = true /\ truthy (getbit msg 24) = true) /\
  (if getbits msg 1 4 =? MRAR_SOURCE_DMEDME then score = 1
   else 7 <= score <= 52).
Proof.
  cbv zeta.
  destruct (decodeBDS44_cases MRAR_SOURCE_RESERVED mm)
    as [H0 | (s & f & HP & He)].
  - left. apply H0.
  - right. rewrite He. cbn [fst].
    destruct HP as (Hsrc & Hvalid & _ & _ & _ & Hs & _).
    repeat split; try apply Hsrc; try apply Hvalid. exact Hs.
Qed.

(** X13. What the store pass of an accepted BDS4,4 payload writes and what
    it leaves: it sets mrar_source_valid and stores the source tag of bits
    1..4, and it sets wind_valid and temperature_valid; for each of
    pressure (bit 35), turbulence (bit 47) and humidity (bit 50) whose
    status bit is clear, the raw field is zero and the validity flag and the
    value in the frame are as they were. *)
Theorem decodeBDS44_stores_report (mm : modesMessage) :
  0 < fst (decodeBDS44 MRAR_SOURCE_RESERVED mm true) ->
  let msg := MB mm in
  let mm' := snd (decodeBDS44 MRAR_SOURCE_RESERVED mm true) in
  (mrar_source_valid mm' = true /\ mrar_source mm' = getbits msg 1 4) /\
  (wind_valid mm' = true /\ temperature_valid mm' = true) /\
  (truthy (getbit msg 35) = false ->
     getbits msg 36 46 = 0 /\
     pressure_valid mm' = pressure_valid mm /\ pressure mm' = pressure mm) /\
  (truthy (getbit msg 47) = false ->
     getbits msg 48 49 = 0 /\
     turbulence_valid mm' = turbulence_valid mm /\
     turbulence mm' = turbulence mm) /\
  (truthy (getbit msg 50) = false ->
     getbits msg 51 56 = 0 /\
     humidity_valid mm' = humidity_valid mm /\ humidity mm' = humidity mm).
Proof.
  intros Hacc. cbv zeta.
  destruct (decodeBDS44_cases MRAR_SOURCE_RESERVED mm)
    as [H0 | (s & f & HP & He)].
  { rewrite H0 in Hacc. cbn [fst] in Hacc. lia. }
  rewrite He. cbn [snd].
  destruct HP as (_ & (Hwind & Hsat) & Hasp & Hturb & Hhum & _
                  & ws & wd & sat & asp & tu & hu & ->).
  pose proof (BDS44_store_values (getbits (MB mm) 1 4) (getbit (MB mm) 5)
                (getbit (MB mm) 24) (getbit (MB mm) 35) (getbit (MB mm) 47)
                (getbit (MB mm) 50) ws wd sat asp tu hu mm) as Hstore.
  cbv zeta in Hstore.
  destruct Hstore as ((Hsv & Hs) & Hw & Ht & Hp & Htu & Hh).
  split; [split; assumption|].
  split; [split; [apply (Hw Hwind) | apply (Ht Hsat)]|].
  split; [intros Hc; split; [apply Hasp | apply Hp]; exact Hc|].
  split; [intros Hc; split; [apply Hturb | apply Htu]; exact Hc|].
  intros Hc; split; [apply Hhum | apply Hh]; exact Hc.
Qed.

End BDS44.

(** ** BDS1,7 *)



Lemma decodeBDS17_needs_plausible_ES (mm : modesMessage) (store : bool) :
  ES_bits_plausible (MB mm) = false -> fst (decodeBDS17 mm store) <= 0.
Proof.
  intros Hes.
  enough (H : forall s, s = fst (decodeBDS17 mm store) -> s <= 0)
    by (apply H; reflexivity).
  intros s.
  destruct (getbits (MB mm) 25 56 <>? 0) eqn:Hreserved.
  - unfold decodeBDS17. rewrite Hreserved. cbv iota. cbn [fst]. lia.
  - cbv beta delta [decodeBDS17]. repeat name_let.
    subst msg. rewrite Hreserved. cbv iota. cbn [fst].
    range_step score0 (score - 2) (score + 1).
    range_step score1 (score0 - 2) score0.
    range_step score2 (score1 - 2) score1.
    range_step score3 (score2 - 2) score2.
    range_step score4 (score3 - 1) score3.
    range_step score5 (score4 - 1) score4.
    range_step score6 (score5 - 2) score5.
    range_step score7 (score6 - 2) score6.
    range_step score8 (score7 - 2) score7.
    assert (H9 : score9 = score8 - 12).
    { revert Hes. unfold score9, ES_bits_plausible, bit. cbv zeta beta.
      destruct (truthy (getbit (MB mm) 1)), (truthy (getbit (MB mm) 2)),
        (truthy (getbit (MB mm) 3)), (truthy (getbit (MB mm) 4)),
        (truthy (getbit (MB mm) 5)), (truthy (getbit (MB mm) 6));
        cbn [negb andb orb]; intros Hes; try discriminate Hes; reflexivity. }
    clearbody score9.
    range_step score10 (score9 - 6) (score9 + 3).
    subst score. lia.
Qed.

(** X14. decodeBDS17. Its score is from -34 to 10 on every payload. A
    positive score needs zero reserved bits 25..56 and one of the three
    plausible patterns of the extended squitter bits 1..6. With a nonzero
    reserved bit it returns 0 and leaves the frame alone; with zero reserved
    bits its store pass tags the frame GICB_CAPS whatever the score is, zero
    and negative scores included. *)
Theorem decodeBDS17_score_and_store (mm : modesMessage) :
  (forall store, -34 <= fst (decodeBDS17 mm store) <= 10) /\
  (forall store, 0 < fst (decodeBDS17 mm store) ->
     getbits (MB mm) 25 56 = 0 /\ ES_bits_plausible (MB mm) = true) /\
  (getbits (MB mm) 25 56 <> 0 ->
     forall store, decodeBDS17 mm store = (0, mm)) /\
  (getbits (MB mm) 25 56 = 0 ->
     snd (decodeBDS17 mm true) = set_commb_format COMMB_GICB_CAPS mm).
Proof.
  split; [intros store; apply decodeBDS17_score_range|].
  split; [|split].
  - intros store Hpos. split.
    + destruct (Z.eqb_spec (getbits (MB mm) 25 56) 0) as [H0 | Hn];
        [exact H0|].
      exfalso. revert Hpos. unfold decodeBDS17.
      replace (getbits (MB mm) 25 56 <>? 0) with true
        by (symmetry; apply negb_true_iff, Z.eqb_neq; exact Hn).
      cbv iota. cbn [fst]. lia.
    + destruct (ES_bits_plausible (MB mm)) eqn:Hes; [reflexivity|].
      pose proof (decodeBDS17_needs_plausible_ES mm store Hes). lia.
  - intros Hn store. unfold decodeBDS17.
    replace (getbits (MB mm) 25 56 <>? 0) with true
      by (symmetry; apply negb_true_iff, Z.eqb_neq; exact Hn).
    reflexivity.
  - intros H0. unfold decodeBDS17. rewrite H0. reflexivity.
Qed.

(** ** BDS0,5 *)

Lemma insert_M_bit_round_trip (ac12 : Z) :
  0 <= ac12 < 4096 ->
  Z.lor (Z.shiftl (Z.shiftr (insert_M_bit ac12) 7) 6)
        (Z.land (insert_M_bit ac12) 0x3F) = ac12 /\
  Z.testbit (insert_M_bit ac12) 6 = false /\
  insert_M_bit ac12 < 8192 /\
  (ac12 <> 0 -> 0 < insert_M_bit ac12).
Proof.
  intros H.
  assert (Hrt : M_bit_round_trip ac12 = true).
  { apply (below 4096 M_bit_round_trip); [|exact H].
    vm_compute. reflexivity. }
  unfold M_bit_round_trip in Hrt. cbv zeta in Hrt.
  apply andb_true_iff in Hrt. destruct Hrt as [Hrt Hlt].
  apply andb_true_iff in Hrt. destruct Hrt as [Hinv Hbit].
  apply Z.eqb_eq in Hinv. apply negb_true_iff in Hbit. apply Z.ltb_lt in Hlt.
  split; [exact Hinv|]. split; [exact Hbit|]. split; [exact Hlt|].
  intros Hnz.
  assert (Hnn : 0 <= insert_M_bit ac12).
  { unfold insert_M_bit. apply Z.lor_nonneg. split.
    - apply Z.shiftl_nonneg. apply Z.land_nonneg. right. clear. lia.
    - apply Z.land_nonneg. right. clear. lia. }
  destruct (Z.eq_dec (insert_M_bit ac12) 0) as [Hz | Hz];
    [|clear - Hnn Hz; lia].
  rewrite Hz in Hinv.
  change (Z.lor (Z.shiftl (Z.shiftr 0 7) 6) (Z.land 0 63)) with 0 in Hinv.
  clear - Hinv Hnz. congruence.
Qed.

(** X15. The altitude code of a frame decodeBDS05 accepts: the frame is a
    DF20, its AC is the payload's AC12 (bits 9..20) with a zero M bit
    inserted, so bit 6 of AC is clear and AC is above 0 and below 8192, and
    AC12 is recovered from AC by taking the M bit out again. *)
Theorem decodeBDS05_altitude_code (mm : modesMessage) (store : bool) :
  0 < fst (decodeBDS05 mm store) ->
  let ac12 := getbits (MB mm) 9 20 in
  msgtype mm = 20 /\
  AC mm = insert_M_bit ac12 /\
  Z.testbit (AC mm) 6 = false /\
  0 < AC mm < 8192 /\
  ac12 = Z.lor (Z.shiftl (Z.shiftr (AC mm) 7) 6) (Z.land (AC mm) 0x3F).
Proof.
  rewrite decodeBDS05_score. cbv zeta.
  destruct (BDS05_accepts mm) eqn:Hacc; [intros _ | lia].
  unfold BDS05_accepts in Hacc. cbv zeta in Hacc.
  repeat (apply andb_true_iff in Hacc; destruct Hacc as [Hacc ?]).
  apply Z.eqb_eq in Hacc.
  match goal with H : (AC mm =? _) = true |- _ => apply Z.eqb_eq in H; rename H into HAC end.
  match goal with H : (getbits (MB mm) 9 20 <>? 0) = true |- _ =>
    apply negb_true_iff, Z.eqb_neq in H; rename H into Hnz end.
  pose proof (getbits_range (MB mm) 9 20) as Hraw.
  change (2 ^ Z.of_nat (Z.to_nat (20 - 9 + 1))) with 4096 in Hraw.
  destruct (insert_M_bit_round_trip _ Hraw) as (Hinv & Hbit & Hlt & Hpos).
  specialize (Hpos Hnz).
  rewrite HAC.
  split; [exact Hacc|]. split; [reflexivity|]. split; [exact Hbit|].
  split; [split; assumption | symmetry; exact Hinv].
Qed.

Lemma getbits_2_13_lower_34 (msg : payload) :
  1024 * getbit msg 3 + 512 * getbit msg 4 <= getbits msg 2 13.
Proof. expand_getbits. getbit_ranges msg. lia. Qed.

Lemma gate_open (mm : modesMessage) :
  DR mm = 0 -> UM mm = 0 -> correctedbits mm <= 0 -> skipped mm = false.
Proof.
  intros HDR HUM Hcb. destruct (skipped mm) eqn:Hs; [|reflexivity].
  apply skipped_iff in Hs. lia.
Qed.

(** ** A first byte of 0x10, 0x20 or 0x30 *)

Section IdentifierByte.

Variable mm : modesMessage.
Hypothesis Hbyte :
  MBi (MB mm) 0 = 0x10 \/ MBi (MB mm) 0 = 0x20 \/ MBi (MB mm) 0 = 0x30.

Lemma identifier_bits :
  getbit (MB mm) 1 = 0 /\ getbit (MB mm) 2 = 0 /\ getbit (MB mm) 5 = 0 /\
  getbit (MB mm) 6 = 0 /\ (getbit (MB mm) 3 = 1 \/ getbit (MB mm) 4 = 1).
Proof.
  pose proof Hbyte as H. rewrite byte0_bits, getbits_1_8, getbits_1_4 in H.
  pose proof (getbit_range (MB mm) 1). pose proof (getbit_range (MB mm) 2).
  pose proof (getbit_range (MB mm) 3). pose proof (getbit_range (MB mm) 4).
  pose proof (getbit_range (MB mm) 5). pose proof (getbit_range (MB mm) 6).
  pose proof (getbit_range (MB mm) 7). pose proof (getbit_range (MB mm) 8).
  lia.
Qed.

Lemma identifier_not_empty store : decodeEmptyResponse mm store = (0, mm).
Proof.
  unfold decodeEmptyResponse. cbv zeta.
  replace (_ || _) with false; [reflexivity|].
  symmetry. z_cases; try reflexivity; lia.
Qed.

Lemma identifier_not_BDS17 store : fst (decodeBDS17 mm store) <= 0.
Proof.
  apply decodeBDS17_needs_plausible_ES.
  destruct identifier_bits as (H1 & H2 & H5 & H6 & H34).
  unfold ES_bits_plausible. cbv zeta. rewrite H1, H2, H5, H6.
  destruct (bit_cases (MB mm) 3) as [H3 | H3],
    (bit_cases (MB mm) 4) as [H4 | H4]; rewrite H3, H4;
    try reflexivity; lia.
Qed.

Lemma identifier_not_BDS40 store : decodeBDS40 mm store = (0, mm).
Proof.
  destruct identifier_bits as (H1 & _ & _ & _ & H34).
  pose proof (getbits_2_13_lower_34 (MB mm)) as Hraw.
  pose proof (getbit_range (MB mm) 3). pose proof (getbit_range (MB mm) 4).
  unfold decodeBDS40. cbv zeta. rewrite H1.
  destruct (Z.eqb_spec (getbits (MB mm) 2 13) 0); [lia|].
  change (truthy 0) with false. cbn [negb andb].
  destruct (_ && _); reflexivity.
Qed.

Lemma identifier_not_BDS50 tan store : decodeBDS50 tan mm store = (0, mm).
Proof.
  destruct identifier_bits as (H1 & _).
  unfold decodeBDS50. cbv zeta. rewrite H1. reflexivity.
Qed.

Lemma identifier_not_BDS60 store : decodeBDS60 mm store = (0, mm).
Proof.
  destruct identifier_bits as (H1 & _).
  unfold decodeBDS60. cbv zeta. rewrite H1. reflexivity.
Qed.

Lemma identifier_not_BDS44 R store : decodeBDS44 R mm store = (0, mm).
Proof.
  destruct identifier_bits as (_ & _ & H5 & _).
  unfold decodeBDS44, BDS44_fields. cbv zeta. rewrite H5.
  destruct (_ || _); reflexivity.
Qed.

Lemma identifier_not_BDS05 store : decodeBDS05 mm store = (0, mm).
Proof.
  destruct identifier_bits as (H1 & H2 & H5 & _).
  pose proof (getbit_range (MB mm) 3). pose proof (getbit_range (MB mm) 4).
  unfold decodeBDS05. cbv zeta. rewrite getbits_1_5, getbits_1_4, H1, H2, H5.
  destruct (negb _); [reflexivity|].
  destruct (Z.ltb_spec (2 * (8 * 0 + 4 * 0 + 2 * getbit (MB mm) 3
                              + getbit (MB mm) 4) + 0) 9); [reflexivity | lia].
Qed.

End IdentifierByte.

Section Classes.

Variable ais_charset : Z -> ascii.
Variable tan : double -> double.
Variable MRAR_SOURCE_RESERVED : Z.

Local Notation "'Call'" := (call ais_charset tan MRAR_SOURCE_RESERVED).
Local Notation "'Score'" := (score_of ais_charset tan MRAR_SOURCE_RESERVED).
Local Notation "'Run'" := (run ais_charset tan MRAR_SOURCE_RESERVED).
Local Notation "'Unique_best'" :=
  (unique_best ais_charset tan MRAR_SOURCE_RESERVED).

(** With such a first byte only BDS1,0, BDS2,0 and BDS3,0 can give a
    positive score. *)
Lemma identifier_others (mm : modesMessage) (fn : CommBDecoderFn) :
  MBi (MB mm) 0 = 0x10 \/ MBi (MB mm) 0 = 0x20 \/ MBi (MB mm) 0 = 0x30 ->
  fn <> addr_decodeBDS10 -> fn <> addr_decodeBDS20 -> fn <> addr_decodeBDS30 ->
  Score fn mm <= 0.
Proof.
  intros Hbyte H10 H20 H30. unfold score_of.
  destruct fn; cbn [call]; try congruence.
  - rewrite (identifier_not_empty mm Hbyte). cbn [fst]. lia.
  - apply (identifier_not_BDS17 mm Hbyte).
  - rewrite (identifier_not_BDS40 mm Hbyte). cbn [fst]. lia.
  - rewrite (identifier_not_BDS44 mm Hbyte). cbn [fst]. lia.
  - rewrite (identifier_not_BDS50 mm Hbyte). cbn [fst]. lia.
  - rewrite (identifier_not_BDS60 mm Hbyte). cbn [fst]. lia.
  - rewrite (identifier_not_BDS05 mm Hbyte). cbn [fst]. lia.
Qed.

Lemma score_BDS10 (mm : modesMessage) :
  Score addr_decodeBDS10 mm
  = if (MBi (MB mm) 0 =? 0x10) && (getbits (MB mm) 10 14 =? 0) then 56 else 0.
Proof.
  unfold score_of. cbn [call]. unfold decodeBDS10. cbv zeta.
  destruct (_ =? 16); cbn [negb andb]; [|reflexivity].
  destruct (_ =? 0); reflexivity.
Qed.

Lemma score_BDS30 (mm : modesMessage) :
  Score addr_decodeBDS30 mm = if MBi (MB mm) 0 =? 0x30 then 56 else 0.
Proof.
  unfold score_of. cbn [call]. unfold decodeBDS30. cbv zeta.
  destruct (_ =? 48); reflexivity.
Qed.

Lemma score_BDS20 (mm : modesMessage) :
  Score addr_decodeBDS20 mm
  = if (MBi (MB mm) 0 =? 0x20)
       && forallb is_callsign_char (callsign_chars ais_charset (MB mm))
    then 8 + 6 * Z.of_nat (List.length
                  (filter is_ident_char (callsign_chars ais_charset (MB mm))))
    else 0.
Proof.
  unfold score_of. cbn [call]. unfold decodeBDS20. cbv zeta.
  fold (callsign_chars ais_charset (MB mm)).
  rewrite callsign_loop_spec.
  destruct (_ =? 32); cbn [negb andb]; [|reflexivity].
  destruct (forallb _ _); reflexivity.
Qed.

(** X16. On a frame that passes the gate, a first payload byte of 0x10, 0x20
    or 0x30 settles the class, and never ambiguously. With 0x10 the frame
    is left as given with commb_format DATALINK_CAPS when the reserved bits
    10..14 are zero, and UNKNOWN when they are not. With 0x20 it is the
    frame the store call of decodeBDS20 returns when all eight characters
    are letters, digits, spaces or '@', and the frame as given with UNKNOWN
    when one is not. With 0x30 it is the frame as given with ACAS_RA. *)
Theorem identifier_byte_settles_the_class (mm : modesMessage) :
  DR mm = 0 -> UM mm = 0 -> correctedbits mm <= 0 ->
  let msg := MB mm in
  (MBi msg 0 = 0x10 ->
     frame (Run mm)
     = set_commb_format
         (if getbits msg 10 14 =? 0 then COMMB_DATALINK_CAPS
          else COMMB_UNKNOWN) mm) /\
  (MBi msg 0 = 0x20 ->
     frame (Run mm)
     = if forallb is_callsign_char (callsign_chars ais_charset msg)
       then snd (decodeBDS20 ais_charset mm true)
       else set_commb_format COMMB_UNKNOWN mm) /\
  (MBi msg 0 = 0x30 ->
     frame (Run mm) = set_commb_format COMMB_ACAS_RA mm).
Proof.
  intros HDR HUM Hcb. cbv zeta.
  pose proof (gate_open mm HDR HUM Hcb) as Hgate.
  split; [|split].
  - intros Hb.
    pose proof (identifier_others mm) as Hothers.
    specialize (fun fn => Hothers fn (or_introl Hb)).
    pose proof (score_BDS10 mm) as H10. pose proof (score_BDS20 mm) as H20.
    pose proof (score_BDS30 mm) as H30.
    rewrite Hb in H10, H20, H30.
    change (16 =? 32) with false in H20. change (16 =? 48) with false in H30.
    change (16 =? 16) with true in H10. cbn [andb] in H10, H20. cbv iota in H10, H20, H30.
    destruct (getbits (MB mm) 10 14 =? 0).
    + rewrite (run_unique_best _ _ _ mm addr_decodeBDS10 Hgate).
      * cbn [frame call]. unfold decodeBDS10. cbv zeta. rewrite Hb.
        change (16 <>? 16) with false. cbv iota.
        destruct (_ <>? 0) eqn:Hr; [|reflexivity].
        exfalso. unfold score_of in H10. cbn [call] in H10.
        unfold decodeBDS10 in H10. cbv zeta in H10. rewrite Hb in H10.
        change (16 <>? 16) with false in H10. cbv iota in H10.
        rewrite Hr in H10. cbn [fst] in H10. lia.
      * split; [lia|]. intros fn Hneq. rewrite H10.
        destruct (decoder_eq_dec fn addr_decodeBDS20) as [-> | Hn20]; [lia|].
        destruct (decoder_eq_dec fn addr_decodeBDS30) as [-> | Hn30]; [lia|].
        specialize (Hothers fn Hneq Hn20 Hn30). lia.
    + rewrite (run_all_rejected _ _ _ mm Hgate); [reflexivity|].
      intros fn.
      destruct (decoder_eq_dec fn addr_decodeBDS10) as [-> | Hn10]; [lia|].
      destruct (decoder_eq_dec fn addr_decodeBDS20) as [-> | Hn20]; [lia|].
      destruct (decoder_eq_dec fn addr_decodeBDS30) as [-> | Hn30]; [lia|].
      apply Hothers; assumption.
  - intros Hb.
    pose proof (identifier_others mm) as Hothers.
    specialize (fun fn => Hothers fn (or_intror (or_introl Hb))).
    pose proof (score_BDS10 mm) as H10. pose proof (score_BDS20 mm) as H20.
    pose proof (score_BDS30 mm) as H30.
    rewrite Hb in H10, H20, H30.
    change (32 =? 32) with true in H20. change (32 =? 48) with false in H30.
    change (32 =? 16) with false in H10. cbn [andb] in H10, H20. cbv iota in H10, H20, H30.
    destruct (forallb _ _).
    + rewrite (run_unique_best _ _ _ mm addr_decodeBDS20 Hgate);
        [reflexivity|].
      split; [lia|]. intros fn Hneq. rewrite H20.
      destruct (decoder_eq_dec fn addr_decodeBDS10) as [-> | Hn10]; [lia|].
      destruct (decoder_eq_dec fn addr_decodeBDS30) as [-> | Hn30]; [lia|].
      specialize (Hothers fn Hn10 Hneq Hn30). lia.
    + rewrite (run_all_rejected _ _ _ mm Hgate); [reflexivity|].
      intros fn.
      destruct (decoder_eq_dec fn addr_decodeBDS10) as [-> | Hn10]; [lia|].
      destruct (decoder_eq_dec fn addr_decodeBDS20) as [-> | Hn20]; [lia|].
      destruct (decoder_eq_dec fn addr_decodeBDS30) as [-> | Hn30]; [lia|].
      apply Hothers; assumption.
  - intros Hb.
    pose proof (identifier_others mm) as Hothers.
    specialize (fun fn => Hothers fn (or_intror (or_intror Hb))).
    pose proof (score_BDS10 mm) as H10. pose proof (score_BDS20 mm) as H20.
    pose proof (score_BDS30 mm) as H30.
    rewrite Hb in H10, H20, H30.
    change (48 =? 32) with false in H20. change (48 =? 48) with true in H30.
    change (48 =? 16) with false in H10. cbn [andb] in H10, H20. cbv iota in H10, H20, H30.
    rewrite (run_unique_best _ _ _ mm addr_decodeBDS30 Hgate).
    + cbn [frame call]. unfold decodeBDS30. cbv zeta. rewrite Hb.
      reflexivity.
    + split; [lia|]. intros fn Hneq. rewrite H30.
      destruct (decoder_eq_dec fn addr_decodeBDS10) as [-> | Hn10]; [lia|].
      destruct (decoder_eq_dec fn addr_decodeBDS20) as [-> | Hn20]; [lia|].
      specialize (Hothers fn Hn10 Hn20 Hneq). lia.
Qed.

End Classes.

(** ** Empty responses *)

Lemma MBi_byte (msg : payload) (i : Z) (b : byte) :
  MBi msg i = Z.of_N (Byte.to_N b) -> byte_at msg i = b.
Proof.
  unfold MBi. intros H. apply N2Z.inj in H.
  pose proof (Byte.of_to_N (byte_at msg i)) as H1.
  pose proof (Byte.of_to_N b) as H2.
  rewrite H in H1. congruence.
Qed.

Lemma empty_payload (msg : payload) (b : byte) :
  MBi msg 0 = Z.of_N (Byte.to_N b) ->
  (forall i, 1 <= i <= 6 -> MBi msg i = 0) ->
  msg = bytes b x00 x00 x00 x00 x00 x00.
Proof.
  intros H0 Hrest.
  apply MBi_byte in H0.
  pose proof (MBi_byte msg 1 x00 (Hrest 1 ltac:(lia))) as H1.
  pose proof (MBi_byte msg 2 x00 (Hrest 2 ltac:(lia))) as H2.
  pose proof (MBi_byte msg 3 x00 (Hrest 3 ltac:(lia))) as H3.
  pose proof (MBi_byte msg 4 x00 (Hrest 4 ltac:(lia))) as H4.
  pose proof (MBi_byte msg 5 x00 (Hrest 5 ltac:(lia))) as H5.
  pose proof (MBi_byte msg 6 x00 (Hrest 6 ltac:(lia))) as H6.
  destruct msg. simpl in H0, H1, H2, H3, H4, H5, H6.
  unfold bytes. congruence.
Qed.

Section Empty.

Variable ais_charset : Z -> ascii.
Variable tan : double -> double.
Variable MRAR_SOURCE_RESERVED : Z.

Local Notation "'Call'" := (call ais_charset tan MRAR_SOURCE_RESERVED).
Local Notation "'Score'" := (score_of ais_charset tan MRAR_SOURCE_RESERVED).
Local Notation "'Run'" := (run ais_charset tan MRAR_SOURCE_RESERVED).
Local Notation "'Unique_best'" :=
  (unique_best ais_charset tan MRAR_SOURCE_RESERVED).

(** On the payload [b0] 00 00 00 00 00 00, with [b0] one of 00, 40, 50 and
    60, only decodeEmptyResponse gives a positive score. *)
Lemma empty_unique_best (mm : modesMessage) (b0 : byte) :
  b0 = x00 \/ b0 = x40 \/ b0 = x50 \/ b0 = x60 ->
  MB mm = bytes b0 x00 x00 x00 x00 x00 x00 ->
  Unique_best mm addr_decodeEmptyResponse.
Proof.
  intros Hb0 HMB.
  assert (H56 : Score addr_decodeEmptyResponse mm = 56).
  { unfold score_of. cbn [call]. unfold decodeEmptyResponse. rewrite HMB.
    destruct Hb0 as [-> | [-> | [-> | ->]]]; reflexivity. }
  split; [lia|].
  intros fn Hneq. rewrite H56. unfold score_of.
  destruct fn; cbn [call]; try congruence.
  - unfold decodeBDS10. rewrite HMB.
    destruct Hb0 as [-> | [-> | [-> | ->]]]; cbn [fst]; vm_compute; reflexivity.
  - pose proof (decodeBDS17_score_range mm false). lia.
  - unfold decodeBDS20. rewrite HMB.
    destruct Hb0 as [-> | [-> | [-> | ->]]]; vm_compute; reflexivity.
  - unfold decodeBDS30. rewrite HMB.
    destruct Hb0 as [-> | [-> | [-> | ->]]]; vm_compute; reflexivity.
  - pose proof (decodeBDS40_shaped mm) as [H0 | (s & mm' & Hs & _ & He)].
    + rewrite H0. cbn [fst]. lia.
    + rewrite He. cbn [fst]. lia.
  - pose proof (decodeBDS44_shaped MRAR_SOURCE_RESERVED mm)
      as [H0 | (s & mm' & Hs & _ & He)].
    + rewrite H0. cbn [fst]. lia.
    + rewrite He. cbn [fst]. lia.
  - unfold decodeBDS50. rewrite HMB.
    destruct Hb0 as [-> | [-> | [-> | ->]]]; vm_compute; reflexivity.
  - unfold decodeBDS60. rewrite HMB.
    destruct Hb0 as [-> | [-> | [-> | ->]]]; vm_compute; reflexivity.
  - unfold decodeBDS05. rewrite HMB. cbv zeta.
    destruct (msgtype mm <>? 20); [cbn [fst]; lia|].
    destruct Hb0 as [-> | [-> | [-> | ->]]]; vm_compute; reflexivity.
Qed.

(** X17. On a frame that passes the gate, a payload whose first byte is
    0x00, 0x40, 0x50 or 0x60 and whose other six bytes are zero is
    classified EMPTY_RESPONSE, and nothing else in the frame changes: no
    other decoder scores as much as the 56 of decodeEmptyResponse. *)
Theorem empty_response_is_classified (mm : modesMessage) :
  DR mm = 0 -> UM mm = 0 -> correctedbits mm <= 0 ->
  MBi (MB mm) 0 = 0x00 \/ MBi (MB mm) 0 = 0x40 \/
  MBi (MB mm) 0 = 0x50 \/ MBi (MB mm) 0 = 0x60 ->
  (forall i, 1 <= i <= 6 -> MBi (MB mm) i = 0) ->
  frame (Run mm) = set_commb_format COMMB_EMPTY_RESPONSE mm.
Proof.
  intros HDR HUM Hcb Hb0 Hrest.
  pose proof (gate_open mm HDR HUM Hcb) as Hgate.
  assert (Hp : exists b0, (b0 = x00 \/ b0 = x40 \/ b0 = x50 \/ b0 = x60) /\
                          MB mm = bytes b0 x00 x00 x00 x00 x00 x00).
  { destruct Hb0 as [H | [H | [H | H]]].
    - exists x00. split; [auto|]. apply empty_payload; assumption.
    - exists x40. split; [auto|]. apply empty_payload; assumption.
    - exists x50. split; [auto|]. apply empty_payload; assumption.
    - exists x60. split; [auto|]. apply empty_payload; assumption. }
  destruct Hp as (b0 & Hb & HMB).
  rewrite (run_unique_best _ _ _ mm addr_decodeEmptyResponse Hgate
             (empty_unique_best mm b0 Hb HMB)).
  cbn [frame call]. unfold decodeEmptyResponse. rewrite HMB.
  destruct Hb as [-> | [-> | [-> | ->]]]; reflexivity.
Qed.

(** X18. A call of a decoder, with either value of store, returns 0 and the
    frame as it was given, or it returns a positive score; decodeBDS17 is
    the one decoder of the table for which neither need hold (X14). *)
Theorem store_call_writes_only_with_a_positive_score
  (fn : CommBDecoderFn) (mm : modesMessage) (store : bool) :
  Call fn mm store = (0, mm) \/ 0 < fst (Call fn mm store) \/
  fn = addr_decodeBDS17.
Proof.
  assert (Hin : inputs mm = inputs mm) by reflexivity.
  destruct fn; cbn [call]; try (right; right; reflexivity).
  - destruct (cases_of_agree _ _ _ _ mm decodeEmptyResponse_shaped
                (decodeEmptyResponse_agree mm mm Hin))
      as [H0 | (s & f & (-> & _) & He)];
      [left; apply H0 | right; left; rewrite He; cbn [fst]; lia].
  - destruct (cases_of_agree _ _ _ _ mm decodeBDS10_shaped
                (decodeBDS10_agree mm mm Hin))
      as [H0 | (s & f & (-> & _) & He)];
      [left; apply H0 | right; left; rewrite He; cbn [fst]; lia].
  - destruct (cases_of_agree _ _ _ _ mm (decodeBDS20_shaped ais_charset)
                (decodeBDS20_agree ais_charset mm mm Hin))
      as [H0 | (s & f & (Hs & _) & He)];
      [left; apply H0 | right; left; rewrite He; cbn [fst]; lia].
  - destruct (cases_of_agree _ _ _ _ mm decodeBDS30_shaped
                (decodeBDS30_agree mm mm Hin))
      as [H0 | (s & f & (-> & _) & He)];
      [left; apply H0 | right; left; rewrite He; cbn [fst]; lia].
  - destruct (decodeBDS40_cases mm) as [H0 | (s & f & HP & He)];
      [left; apply H0 | right; left; rewrite He; cbn [fst]].
    unfold BDS40_accepted in HP. cbv zeta in HP. destruct HP as (Hs & _). lia.
  - destruct (decodeBDS44_cases MRAR_SOURCE_RESERVED mm)
      as [H0 | (s & f & HP & He)];
      [left; apply H0 | right; left; rewrite He; cbn [fst]].
    destruct HP as (_ & _ & _ & _ & _ & Hs & _).
    destruct (_ =? MRAR_SOURCE_DMEDME); lia.
  - destruct (decodeBDS50_cases tan mm) as [H0 | (s & f & HP & He)];
      [left; apply H0 | right; left; rewrite He; cbn [fst]].
    unfold BDS50_accepted in HP. cbv zeta in HP.
    destruct HP as (_ & _ & _ & _ & _ & Hs & _).
    destruct (truthy _); lia.
  - destruct (decodeBDS60_cases mm) as [H0 | (s & f & HP & He)];
      [left; apply H0 | right; left; rewrite He; cbn [fst]].
    unfold BDS60_accepted in HP. cbv zeta in HP.
    destruct HP as (_ & _ & _ & _ & _ & Hs & _). rewrite Hs.
    destruct (_ && _); [destruct (_ >? 2000)|]; lia.
  - destruct (cases_of_agree _ _ _ _ mm decodeBDS05_shaped
                (decodeBDS05_agree mm mm Hin))
      as [H0 | (s & f & (-> & _) & He)];
      [left; apply H0 | right; left; rewrite He; cbn [fst]; lia].
Qed.

End Empty.

(** * The further properties at the sample frames *)

(** X3 at the identification frame and at the same frame with a stale true
    airspeed in it: the same scores, the same calls, the same class. *)
Lemma decodeCommB_reads_inputs_only_witness :
  tas_valid frame_ident_stale = true /\ tas_valid frame_ident = false /\
  calls (run ais_charset_icao tan_unused MRAR_SOURCE_RESERVED_5
           frame_ident_stale)
  = calls (run ais_charset_icao tan_unused MRAR_SOURCE_RESERVED_5 frame_ident) /\
  commb_format
    (frame (run ais_charset_icao tan_unused MRAR_SOURCE_RESERVED_5
              frame_ident_stale))
  = commb_format
      (frame (run ais_charset_icao tan_unused MRAR_SOURCE_RESERVED_5
                frame_ident)).
Proof.
  split; [reflexivity|]. split; [reflexivity|].
  apply (decodeCommB_reads_inputs_only ais_charset_icao tan_unused
           MRAR_SOURCE_RESERVED_5 frame_ident frame_ident_stale);
    reflexivity.
Defined.

(** X5 at an MCP altitude of 12000 ft with no FMS altitude. *)
Lemma decodeBDS40_stores_altitudes_witness :
  0 < fst (decodeBDS40 frame_vertical_intent true) /\
  mcp_altitude (nav (snd (decodeBDS40 frame_vertical_intent true))) = 12000 /\
  fms_altitude_valid (nav (snd (decodeBDS40 frame_vertical_intent true)))
  = false.
Proof.
  assert (Hacc : 0 < fst (decodeBDS40 frame_vertical_intent true))
    by (vm_compute; reflexivity).
  split; [exact Hacc|].
  pose proof (decodeBDS40_stores_altitudes frame_vertical_intent Hacc) as H.
  cbv zeta in H. destruct H as [Hmcp Hfms].
  replace (truthy (getbit (MB frame_vertical_intent) 1)) with true in Hmcp
    by (vm_compute; reflexivity).
  replace (truthy (getbit (MB frame_vertical_intent) 14)) with false in Hfms
    by (vm_compute; reflexivity).
  destruct Hmcp as (_ & Hmcp & _). destruct Hfms as (_ & Hfms & _).
  split.
  - rewrite Hmcp. vm_compute. reflexivity.
  - rewrite Hfms. reflexivity.
Defined.

(** X6 at a pressure setting of 1013.2 hPa. *)
Lemma decodeBDS40_stores_qnh_witness :
  0 < fst (decodeBDS40 frame_qnh true) /\
  getbits (MB frame_qnh) 28 39 = 2132 /\
  qnh_valid (nav (snd (decodeBDS40 frame_qnh true))) = true /\
  qnh (nav (snd (decodeBDS40 frame_qnh true))) = BDS40_qnh 2132.
Proof.
  assert (Hacc : 0 < fst (decodeBDS40 frame_qnh true))
    by (vm_compute; reflexivity).
  split; [exact Hacc|]. split; [vm_compute; reflexivity|].
  pose proof (decodeBDS40_stores_qnh frame_qnh Hacc) as H.
  cbv zeta in H.
  replace (truthy (getbit (MB frame_qnh) 27)) with true in H
    by (vm_compute; reflexivity).
  destruct H as (_ & Hvalid & Hqnh).
  split; [exact Hvalid|]. rewrite Hqnh. vm_compute. reflexivity.
Defined.

(** X8 at a BDS5,0 payload with roll 0, track 0 and both speeds 200 kt. *)
Lemma decodeBDS50_stores_track_and_speeds_witness :
  0 < fst (decodeBDS50 tan_unused frame_gs200_tas200 true) /\
  v0 (gs (snd (decodeBDS50 tan_unused frame_gs200_tas200 true))) = 200 /\
  tas (snd (decodeBDS50 tan_unused frame_gs200_tas200 true)) = 200 /\
  heading_type (snd (decodeBDS50 tan_unused frame_gs200_tas200 true))
  = HEADING_GROUND_TRACK.
Proof.
  assert (Hacc : 0 < fst (decodeBDS50 tan_unused frame_gs200_tas200 true))
    by (vm_compute; reflexivity).
  split; [exact Hacc|].
  destruct (decodeBDS50_stores_track_and_speeds tan_unused frame_gs200_tas200
              Hacc) as ((_ & _ & Htype & _) & (_ & Hgs & _) & (_ & Htas & _)).
  split; [rewrite Hgs; vm_compute; reflexivity|].
  split; [rewrite Htas; vm_compute; reflexivity | exact Htype].
Defined.

(** X9 at the same payload, which carries no track angle rate. *)
Lemma decodeBDS50_roll_and_track_rate_witness :
  0 < fst (decodeBDS50 tan_unused frame_gs200_tas200 true) /\
  roll_valid (snd (decodeBDS50 tan_unused frame_gs200_tas200 true)) = true /\
  track_rate_valid (snd (decodeBDS50 tan_unused frame_gs200_tas200 true))
  = false.
Proof.
  assert (Hacc : 0 < fst (decodeBDS50 tan_unused frame_gs200_tas200 true))
    by (vm_compute; reflexivity).
  split; [exact Hacc|].
  pose proof (decodeBDS50_roll_and_track_rate tan_unused frame_gs200_tas200
                Hacc) as H.
  cbv zeta in H. destruct H as ((Hroll & _) & Hrate).
  replace (truthy (getbit (MB frame_gs200_tas200) 35)) with false in Hrate
    by (vm_compute; reflexivity).
  destruct Hrate as (_ & Hrate & _).
  split; [exact Hroll | rewrite Hrate; reflexivity].
Defined.

(** X11 at the payload that also reads as BDS6,0: IAS 250 kt, inertial rate
    3200 ft/min, no barometric rate. *)
Lemma decodeBDS60_stores_speeds_and_rates_witness :
  0 < fst (decodeBDS60 frame_tie true) /\
  ias (snd (decodeBDS60 frame_tie true)) = 250 /\
  geom_rate (snd (decodeBDS60 frame_tie true)) = 3200 /\
  baro_rate_valid (snd (decodeBDS60 frame_tie true)) = false.
Proof.
  assert (Hacc : 0 < fst (decodeBDS60 frame_tie true))
    by (vm_compute; reflexivity).
  split; [exact Hacc|].
  pose proof (decodeBDS60_stores_speeds_and_rates frame_tie Hacc) as H.
  cbv zeta in H. destruct H as (_ & (_ & Hias & _) & _ & Hbaro & Hgeom).
  replace (truthy (getbit (MB frame_tie) 35)) with false in Hbaro
    by (vm_compute; reflexivity).
  replace (truthy (getbit (MB frame_tie) 46)) with true in Hgeom
    by (vm_compute; reflexivity).
  destruct Hbaro as (_ & Hbaro & _). destruct Hgeom as (_ & Hgeom & _).
  split; [rewrite Hias; vm_compute; reflexivity|].
  split; [rewrite Hgeom; vm_compute; reflexivity|].
  rewrite Hbaro. reflexivity.
Defined.

(** X13 at a report from source 1 with wind and temperature only. *)
Lemma decodeBDS44_stores_report_witness :
  0 < fst (decodeBDS44 MRAR_SOURCE_RESERVED_5 frame_zero_sat true) /\
  mrar_source (snd (decodeBDS44 MRAR_SOURCE_RESERVED_5 frame_zero_sat true))
  = 1 /\
  pressure_valid (snd (decodeBDS44 MRAR_SOURCE_RESERVED_5 frame_zero_sat true))
  = false.
Proof.
  assert (Hacc : 0 < fst (decodeBDS44 MRAR_SOURCE_RESERVED_5 frame_zero_sat true))
    by (vm_compute; reflexivity).
  split; [exact Hacc|].
  destruct (decodeBDS44_stores_report MRAR_SOURCE_RESERVED_5 frame_zero_sat
              Hacc) as ((_ & Hsrc) & _ & Hasp & _).
  split; [rewrite Hsrc; vm_compute; reflexivity|].
  destruct Hasp as (_ & Hp & _); [vm_compute; reflexivity|].
  rewrite Hp. reflexivity.
Defined.

(** X15 at an airborne position in a DF20 whose AC is 799. *)
Lemma decodeBDS05_altitude_code_witness :
  0 < fst (decodeBDS05 frame_position false) /\
  AC frame_position = 799 /\
  getbits (MB frame_position) 9 20 = 415 /\
  Z.testbit (AC frame_position) 6 = false.
Proof.
  assert (Hacc : 0 < fst (decodeBDS05 frame_position false))
    by (vm_compute; reflexivity).
  split; [exact Hacc|]. split; [reflexivity|].
  destruct (decodeBDS05_altitude_code frame_position false Hacc)
    as (_ & _ & Hbit & _ & Hcode).
  split; [rewrite Hcode; vm_compute; reflexivity | exact Hbit].
Defined.

(** X16 at the identification frame. *)
Lemma identifier_byte_settles_the_class_witness :
  MBi (MB frame_ident) 0 = 0x20 /\
  frame (run ais_charset_icao tan_unused MRAR_SOURCE_RESERVED_5 frame_ident)
  = snd (decodeBDS20 ais_charset_icao frame_ident true).
Proof.
  split; [reflexivity|].
  destruct (identifier_byte_settles_the_class ais_charset_icao tan_unused
              MRAR_SOURCE_RESERVED_5 frame_ident)
    as (_ & H20 & _); [reflexivity | reflexivity | discriminate |].
  rewrite (H20 eq_refl). vm_compute. reflexivity.
Defined.

(** X17 at the payload 40 00 00 00 00 00 00. *)
Lemma empty_response_is_classified_witness :
  frame (run ais_charset_icao tan_unused MRAR_SOURCE_RESERVED_5 frame_empty_40)
  = set_commb_format COMMB_EMPTY_RESPONSE frame_empty_40.
Proof.
  apply empty_response_is_classified.
  - reflexivity.
  - reflexivity.
  - discriminate.
  - right; left. reflexivity.
  - intros i Hi.
    assert (i = 1 \/ i = 2 \/ i = 3 \/ i = 4 \/ i = 5 \/ i = 6)
      as [-> | [-> | [-> | [-> | [-> | ->]]]]] by lia; reflexivity.
Defined.
